(** * Smart Inventory: stock classification, alerts, stock updates, roles

    A shallow embedding of the inventory tracker's decision logic:
    - [config/constants.js]: the per-category defaults, the status enum,
      the role table and the display cap;
    - [modules/inventory.js], [modules/alerts.js], [modules/auth.js]: the
      browser modules (module [Frontend]);
    - [controllers/inventory.controller.js], [controllers/alerts.controller.js]:
      the REST controllers (module [Backend]);
    - [js/app.js]: the original single-file application (module [Legacy]).

    Conventions of the embedding.
    - A JavaScript number that holds a count is a [Z]; the quotient in
      [Math.ceil (stock / 2)] is taken in [Q], where it is exact.
    - An optional field of an item or of a request is an [option]; [None]
      stands for [undefined], [null] and [NaN] where the code only tests
      the field with [||] or [!], and for a field that is not set where the
      code tests or copies it otherwise (the quantity of a stock request,
      the body of an update).  A value the code computes is an [option]
      where it can be [undefined] or [NaN]; which of the two [None] is, is
      said at the definition.
    - An object used as a dictionary is a [gmap] of its own entries.  Where
      the key is a category, which can be any text, it is read with
      [object_get], which also finds the members every object inherits; the
      role table is read by e-mail address, which names no such member.
    - A text is a [string] of bytes; [toLowerCase] is exact on a text of
      ASCII characters, and the statements that depend on it say so.
    - The remote collection is a [gmap] from document keys to items, each
      document held as [{id: doc.id, ...doc.data ()}] reads it: its [id] is
      the document's own [id] field when it has one and its key otherwise.
    - Module state ([alertState], [authState], the remote collection) is
      passed explicitly; a function that mutates it returns the new state.
    - Time stamps and file names derived from the clock are left out, as are
      listener notifications, which do not feed back into the values below. *)

From Stdlib Require Import ZArith QArith Qround String Ascii List Lia DecimalString.
From stdpp Require Import base strings gmap list.
From stdpp Require Import sorting.

Open Scope Z_scope.

(** ** JavaScript value conventions *)

(** Truthiness of the primitive values that reach [||] and [!]. *)
Class Truthy (A : Type) := truthy : A → bool.

#[export] Instance Z_truthy : Truthy Z := λ z, negb (z =? 0).
#[export] Instance string_truthy : Truthy string :=
  λ s, match s with EmptyString => false | String _ _ => true end.

(** [a || d] where [d] is always present. *)
Definition js_or {A} `{Truthy A} (a : option A) (d : A) : A :=
  match a with
  | Some x => if truthy x then x else d
  | None => d
  end.

(** [a || b] where [b] may itself be [undefined]. *)
Definition js_or_opt {A} `{Truthy A} (a b : option A) : option A :=
  match a with
  | Some x => if truthy x then a else b
  | None => b
  end.

(** [!a] on an optional value. *)
Definition js_not {A} `{Truthy A} (a : option A) : bool :=
  match a with
  | Some x => negb (truthy x)
  | None => true
  end.

(** [String(n)] for an integral number. *)
Definition string_of_Z (z : Z) : string := NilZero.string_of_int (Z.to_int z).

(** [Math.ceil (a / b)] on integral numbers. *)
Definition Math_ceil_div (a b : Z) : Z := Qceiling (inject_Z a / inject_Z b).

(** The double-quote character. *)
Definition dquote : string := String (ascii_of_nat 34) EmptyString.



(** [String.prototype.toLowerCase] on a text of ASCII characters: the
    letters A to Z are folded and every other byte is kept.  The code's
    [toLowerCase] also folds the cased letters outside ASCII, so the two
    agree on the texts that [is_ascii] accepts. *)
Definition lower_ascii (c : ascii) : ascii :=
  let n := nat_of_ascii c in
  if (andb (Nat.leb 65 n) (Nat.leb n 90)) then ascii_of_nat (n + 32) else c.

Fixpoint toLowerCase (s : string) : string :=
  match s with
  | EmptyString => EmptyString
  | String c r => String (lower_ascii c) (toLowerCase r)
  end.

(** All characters of the text are ASCII. *)
Definition is_ascii (s : string) : bool :=
  forallb (λ c, Nat.ltb (nat_of_ascii c) 128) (list_ascii_of_string s).


(** [String.prototype.includes]. *)
Fixpoint includes (hay needle : string) : bool :=
  String.prefix needle hay ||
  match hay with
  | EmptyString => false
  | String _ r => includes r needle
  end.

(** [Array.prototype.sort] with a comparator.  The sort is stable
    (ECMAScript 2019) and a comparator result of [NaN] counts as [+0]; for a
    comparator that is a consistent order the result is the stable insertion
    of each element, written here from the right end of the array. *)
Section Sort.
Context {A : Type} (compareFn : A → A → option Z).

Definition comes_before (x y : A) : bool :=
  match compareFn x y with
  | Some v => v <=? 0
  | None => true
  end.

Fixpoint sort_insert (x : A) (l : list A) : list A :=
  match l with
  | [] => [x]
  | y :: r => if comes_before x y then x :: y :: r else y :: sort_insert x r
  end.

Definition Array_sort (l : list A) : list A := foldr sort_insert [] l.
End Sort.

(** ** Property lookup in a plain object

    [o[k]] finds the entries of [o] itself and, along the prototype chain,
    the members every plain object inherits from [Object.prototype].  An
    inherited member is a function, or for [__proto__] the prototype object:
    a truthy value of which the fields read below ([priority], [threshold],
    [total], [lowStock]) are [undefined]. *)
Definition Object_prototype_members : list string :=
  [ "constructor"; "__defineGetter__"; "__defineSetter__"; "hasOwnProperty";
    "__lookupGetter__"; "__lookupSetter__"; "isPrototypeOf";
    "propertyIsEnumerable"; "toString"; "valueOf"; "__proto__";
    "toLocaleString" ].

Inductive Member (A : Type) :=
  | Own (a : A)
  | Inherited
  | Absent.

Arguments Own {A} a.
Arguments Inherited {A}.
Arguments Absent {A}.

Definition object_get {A} (o : gmap string A) (k : string) : Member A :=
  match o !! k with
  | Some a => Own a
  | None => if bool_decide (k ∈ Object_prototype_members) then Inherited else Absent
  end.

(** [m?.f]: the field of an own entry; [undefined] for an inherited member,
    which has no such field, and for [undefined]. *)
Definition field_of {A B} (f : A → B) (m : Member A) : option B :=
  match m with
  | Own a => Some (f a)
  | Inherited => None
  | Absent => None
  end.

(** ** Arithmetic with [undefined] and [NaN]

    [None] is an operand that is [undefined] or [NaN]: a comparison with it
    is false and a product, a difference or a maximum with it is [NaN]. *)
Definition js_le (a : Z) (b : option Z) : bool :=
  match b with
  | Some y => a <=? y
  | None => false
  end.

Definition js_mul (a : option Z) (n : Z) : option Z := (λ x, x * n) <$> a.

Definition js_sub (a : option Z) (b : Z) : option Z := (λ x, x - b) <$> a.

Definition Math_max (a : Z) (b : option Z) : option Z := Z.max a <$> b.

(** [String (x)] of a number that may be [NaN]. *)
Definition string_of_number (x : option Z) : string :=
  match x with
  | Some z => string_of_Z z
  | None => "NaN"
  end.

(** ** Data model *)

Inductive Status := URGENT | NORMAL | INFO | GOOD | OPTIMAL.

#[export] Instance Status_eq_dec : EqDecision Status.
Proof. solve_decision. Defined.

(** An entry of the defaults table, [{priority: 'high', threshold: 2}]:
    both fields are set. *)
Record PriorityConfig := mkConfig { priority : string; threshold : Z }.

(** The configuration [getProductPriority] resolves, [{priority,
    threshold}], of which either field can be [undefined]. *)
Record Config := mkResolved {
  cfg_priority : option string;
  cfg_threshold : option Z
}.

(** An object with both fields set, read as a configuration. *)
Definition resolved (d : PriorityConfig) : Config :=
  mkResolved (Some (priority d)) (Some (threshold d)).

Coercion resolved : PriorityConfig >-> Config.

(** An inventory document.  [name], [category] and [stock] are always
    present (a missing category resolves like one outside the defaults
    table); the own priority and threshold are optional. *)
Record Item := mkItem {
  id : string;
  name : string;
  category : string;
  stock : Z;
  item_priority : option string;
  alertThreshold : option Z;
  updatedBy : option string
}.

Record StockInfo := mkStockInfo { si_status : Status; si_message : string }.

Record User := mkUser { email : string }.

(** ** config/constants.js *)

Module Constants.

Definition USER_ROLES : gmap string string :=
  <["admin@inventory.com" := "admin"]>
  (<["manager@inventory.com" := "manager"]>
  (<["staff@inventory.com" := "staff"]>
  (<["admin@wishbone.com" := "admin"]>
  (<["manager@wishbone.com" := "manager"]>
  (<["staff@wishbone.com" := "staff"]> ∅))))).

Definition DEFAULT_PRIORITIES : gmap string PriorityConfig :=
  <["Spirits" := mkConfig "high" 2]>
  (<["Wines" := mkConfig "medium" 3]>
  (<["Beers" := mkConfig "medium" 6]>
  (<["Soft Drinks" := mkConfig "low" 12]>
  (<["Syrups" := mkConfig "medium" 2]> ∅)))).

(** [STOCK_STATUS]: the string each status is stored as. *)
Definition STOCK_STATUS (s : Status) : string :=
  match s with
  | URGENT => "urgent"
  | NORMAL => "normal"
  | INFO => "info"
  | GOOD => "good"
  | OPTIMAL => "optimal"
  end.

Definition STATUS_ORDER (s : Status) : Z :=
  match s with
  | URGENT => 4
  | NORMAL => 3
  | INFO => 2
  | GOOD => 1
  | OPTIMAL => 0
  end.

Definition MAX_VISIBLE_ALERTS : nat := 6.

Definition NEGATIVE_STOCK : string := "Cannot have negative stock!".
Definition UPDATE_ERROR : string := "Error updating stock".
Definition PERMISSION_DENIED : string := "Permission denied".

End Constants.

(** [own || DEFAULT_PRIORITIES[category]?.f || d], the resolution the
    controllers and [js/app.js] write inline.  With [?.] an inherited member
    gives [undefined] like a missing entry, and the last [||] then gives [d]. *)
Definition resolve_chain {A} `{Truthy A} (own : option A) (f : PriorityConfig → A)
    (category : string) (d : A) : A :=
  js_or (js_or_opt own (field_of f (object_get Constants.DEFAULT_PRIORITIES category))) d.

(** The status records, shared by every copy of the classifier. *)
Definition urgent_info : StockInfo := mkStockInfo URGENT "URGENT: Needs immediate restock!".
Definition normal_info : StockInfo := mkStockInfo NORMAL "Normal: Restock soon".
Definition info_info : StockInfo := mkStockInfo INFO "Info: Low stock noted".
Definition good_info : StockInfo := mkStockInfo GOOD "Good: Stock adequate".
Definition optimal_info : StockInfo := mkStockInfo OPTIMAL "Optimal: Well stocked".

(** [switch (p) { case 'high': return ..; case 'medium': return ..;
    case 'low': return ..; }]: [Some] is a [return], [None] leaves the
    switch without returning. *)
Definition switch_priority (p : string) : option StockInfo :=
  if String.eqb p "high" then Some urgent_info
  else if String.eqb p "medium" then Some normal_info
  else if String.eqb p "low" then Some info_info
  else None.

(** [[URGENT, NORMAL, INFO].includes (status)] *)
Definition needs_attention (s : Status) : bool :=
  bool_decide (s ∈ [URGENT; NORMAL; INFO]).

(** ** The remote document collection *)

(** A stock write as both front end and back end issue it:
    [update ({stock: newStock, .., updatedBy})] on the document [itemId].
    The write fails when the document does not exist. *)
Definition write_stock (newStock : Z) (who : string) (it : Item) : Item :=
  mkItem (id it) (name it) (category it) newStock
         (item_priority it) (alertThreshold it) (Some who).

Definition updateDoc_stock (db : gmap string Item) (itemId : string)
    (newStock : Z) (who : string) : option (gmap string Item) :=
  match db !! itemId with
  | Some it => Some (<[itemId := write_stock newStock who it]> db)
  | None => None
  end.

(** What the user is shown after an action of the browser application. *)
Inductive Notification :=
  | NotifyError (msg : string)
  | NotifySuccess.

(** * Browser modules *)

Module Frontend.
Import Constants.

(** *** modules/auth.js *)

Record AuthState := mkAuthState {
  currentUser : option User;
  userRole : string;
  isAuthenticated : bool
}.

(** The state before any sign-in. *)
Definition authState0 : AuthState := mkAuthState None "staff" false.

(** The [onAuthStateChanged] callback installed by [initAuth]. *)
Definition onAuthStateChanged (user : option User) : AuthState :=
  match user with
  | Some u => mkAuthState (Some u) (js_or (USER_ROLES !! email u) "staff") true
  | None => mkAuthState None "staff" false
  end.

Definition canModifyStock (authState : AuthState) : bool :=
  bool_decide (currentUser authState ≠ None).

Definition canManageProducts (authState : AuthState) : bool :=
  String.eqb (userRole authState) "admin" || String.eqb (userRole authState) "manager".

Definition canManagePriorities (authState : AuthState) : bool :=
  String.eqb (userRole authState) "admin".

(** *** modules/inventory.js *)

(** [DEFAULT_PRIORITIES[product.category] || {priority: 'medium', threshold: 3}]:
    an inherited member is truthy, so it is taken, and neither of its fields
    is set. *)
Definition getProductPriority (product : Item) : Config :=
  let categoryDefault : Config :=
    match object_get DEFAULT_PRIORITIES (category product) with
    | Own entry => entry
    | Inherited => mkResolved None None
    | Absent => mkConfig "medium" 3
    end in
  mkResolved (js_or_opt (item_priority product) (cfg_priority categoryDefault))
             (js_or_opt (alertThreshold product) (cfg_threshold categoryDefault)).

Definition calculateStockStatus (product : Item) : StockInfo :=
  let config := getProductPriority product in
  let stock := stock product in
  let threshold := cfg_threshold config in
  let returned :=
    if js_le stock threshold then
      match cfg_priority config with
      | Some priority => switch_priority priority
      | None => None
      end
    else if js_le stock (js_mul threshold 2) then Some good_info
    else None in
  match returned with
  | Some r => r
  | None => optimal_info
  end.

Record Result := mkResult { success : bool; error : option string }.

Definition updateStock (db : gmap string Item) (itemId : string)
    (newStock : Z) (who : string) : gmap string Item * Result :=
  if newStock <? 0 then (db, mkResult false (Some NEGATIVE_STOCK))
  else match updateDoc_stock db itemId newStock who with
       | Some db' => (db', mkResult true None)
       | None => (db, mkResult false (Some UPDATE_ERROR))
       end.

(** *** modules/alerts.js *)

(** [a_priority] and [a_threshold] are [undefined] when [None];
    [suggestedQuantity] is [NaN] when [None]. *)
Record Alert := mkAlert {
  product : Item;
  status : Status;
  message : string;
  a_priority : option string;
  a_threshold : option Z;
  daysUntilEmpty : Z;
  suggestedQuantity : option Z
}.

Record AlertState := mkAlertState {
  alerts : list Alert;
  urgentCount : nat;
  normalCount : nat;
  infoCount : nat
}.

Definition getAlerts (alertState : AlertState) : list Alert := alerts alertState.

(** [slice] copies: the state after the call is the state before it. *)
Definition getDisplayAlerts (alertState : AlertState) : list Alert * AlertState :=
  (take MAX_VISIBLE_ALERTS (alerts alertState), alertState).

Definition getHiddenAlertCount (alertState : AlertState) : Z :=
  Z.max 0 (Z.of_nat (length (alerts alertState)) - Z.of_nat MAX_VISIBLE_ALERTS).

Definition estimateDaysUntilEmpty (product : Item) : Z :=
  let averageDailyConsumption := 2 in
  Z.max 1 (Math_ceil_div (stock product) averageDailyConsumption).

(** [None] is [NaN], the result for a threshold that is [undefined]. *)
Definition calculateSuggestedQuantity (product : Item) (config : Config) : option Z :=
  let targetStock := js_mul (cfg_threshold config) 3 in
  let minimumOrder := 10 in
  let neededQuantity := js_sub targetStock (stock product) in
  Math_max minimumOrder neededQuantity.

(** The alert pushed for one product, when it needs attention. *)
Definition alert_for (product : Item) : option Alert :=
  let stockInfo := calculateStockStatus product in
  let config := getProductPriority product in
  if needs_attention (si_status stockInfo) then
    Some (mkAlert product (si_status stockInfo) (si_message stockInfo)
                  (cfg_priority config) (cfg_threshold config)
                  (estimateDaysUntilEmpty product)
                  (calculateSuggestedQuantity product config))
  else None.

(** The [priorityOrder] object of the comparator; other keys are absent. *)
Definition priorityOrder (s : Status) : option Z :=
  match s with
  | URGENT => Some 3
  | NORMAL => Some 2
  | INFO => Some 1
  | _ => None
  end.

(** [priorityOrder[b.status] - priorityOrder[a.status]]; arithmetic on
    [undefined] is [NaN]. *)
Definition by_urgency (a b : Alert) : option Z :=
  match priorityOrder (status b), priorityOrder (status a) with
  | Some pb, Some pa => Some (pb - pa)
  | _, _ => None
  end.

Definition count_status (s : Status) (l : list Alert) : nat :=
  length (filter (λ a, status a = s) l).

Definition generateAlerts (inventoryItems : list Item) : AlertState :=
  let pushed := omap alert_for inventoryItems in
  let sorted := Array_sort by_urgency pushed in
  mkAlertState sorted (count_status URGENT sorted)
               (count_status NORMAL sorted) (count_status INFO sorted).




Definition newline : string := String (ascii_of_nat 10) EmptyString.


(** *** app.js: the stock buttons *)

(** [entered] is what [parseInt (prompt (..))] gave. *)
Definition quickUpdate (authState : AuthState) (db : gmap string Item)
    (itemId : string) (currentStock : Z) (action : string)
    (entered : option Z) : gmap string Item * Notification :=
  if negb (canModifyStock authState) then (db, NotifyError PERMISSION_DENIED)
  else
    let quantity := js_or entered 1 in
    let performStockUpdate (newStock : Z) :=
      let who := from_option email EmptyString (currentUser authState) in
      let '(db', result) := updateStock db itemId newStock who in
      if success result then (db', NotifySuccess)
      else (db', NotifyError (default EmptyString (error result))) in
    if String.eqb action "add" then performStockUpdate (currentStock + quantity)
    else
      let newStock := currentStock - quantity in
      if newStock <? 0 then (db, NotifyError NEGATIVE_STOCK)
      else performStockUpdate newStock.

(** *** modules/alerts.js: counts, shopping list, restock suggestion *)

Record AlertCounts := mkAlertCounts {
  c_urgent : nat;
  c_normal : nat;
  c_info : nat;
  c_total : nat
}.

Definition getAlertCounts (alertState : AlertState) : AlertCounts :=
  mkAlertCounts (urgentCount alertState) (normalCount alertState)
                (infoCount alertState) (length (alerts alertState)).

(** [s.repeat (n)] *)
Fixpoint String_repeat (s : string) (n : nat) : string :=
  match n with
  | O => EmptyString
  | S k => s +:+ String_repeat s k
  end.

(** The three lines appended for one alert of the shopping list. *)
Definition shopping_entry (alert : Alert) : string :=
  "* " +:+ name (product alert) +:+ newline +:+
  "  Current: " +:+ string_of_Z (stock (product alert)) +:+ " units" +:+ newline +:+
  "  Suggested: " +:+ string_of_number (suggestedQuantity alert) +:+ " units"
  +:+ newline +:+ newline.

(** [items.forEach (alert => { list += .. })] *)
Definition append_entries (text0 : string) (entries : list Alert) : string :=
  foldl (λ acc alert, acc +:+ shopping_entry alert) text0 entries.

Record ShoppingList := mkShoppingList {
  text : string;
  sl_urgentCount : nat;
  sl_normalCount : nat
}.

(** [dateStr] is what [new Date ().toLocaleDateString ()] gave. *)
Definition generateShoppingList (dateStr : string) (alertState : AlertState)
  : ShoppingList :=
  let urgentItems := filter (λ a, status a = URGENT) (alerts alertState) in
  let normalItems := filter (λ a, status a = NORMAL) (alerts alertState) in
  let list0 :=
    "SHOPPING LIST - " +:+ dateStr +:+ newline +:+
    (String_repeat "=" 40 +:+ newline +:+ newline) in
  let list1 :=
    if (0 <? length urgentItems)%nat then
      append_entries
        (list0 +:+ ("URGENT (Buy Today):" +:+ newline)
               +:+ (String_repeat "-" 20 +:+ newline))
        urgentItems
    else list0 in
  let list2 :=
    if (0 <? length normalItems)%nat then
      append_entries
        (list1 +:+ (newline +:+ "NORMAL (Buy This Week):" +:+ newline)
               +:+ (String_repeat "-" 20 +:+ newline))
        normalItems
    else list1 in
  let list3 :=
    if ((length urgentItems =? 0)%nat && (length normalItems =? 0)%nat)%bool
    then list2 +:+ ("No items need restocking at this time." +:+ newline)
    else list2 in
  let list4 :=
    list3 +:+ (newline +:+ String_repeat "=" 40 +:+ newline)
          +:+ ("Generated by Smart Inventory System" +:+ newline) in
  mkShoppingList list4 (length urgentItems) (length normalItems).

(** [rs_suggestedQuantity] is [NaN] when [None]; [rs_priority] is
    [undefined] when [None]. *)
Record RestockSuggestion := mkRestockSuggestion {
  rs_product : Item;
  rs_currentStock : Z;
  rs_suggestedQuantity : option Z;
  rs_priority : option string;
  rs_status : option Status
}.

(** [None] is [null]; the status is only set when an alert was found. *)
Definition getRestockSuggestion (inventoryItems : list Item)
    (alertState : AlertState) (productId : string) : option RestockSuggestion :=
  match List.find (λ a, String.eqb (id (product a)) productId) (alerts alertState) with
  | None =>
    match List.find (λ p, String.eqb (id p) productId) inventoryItems with
    | Some product =>
      let config := getProductPriority product in
      Some (mkRestockSuggestion product (stock product)
              (calculateSuggestedQuantity product config) (cfg_priority config) None)
    | None => None
    end
  | Some alert =>
    Some (mkRestockSuggestion (product alert) (stock (product alert))
            (suggestedQuantity alert) (a_priority alert) (Some (status alert)))
  end.

Definition clearAlerts (alertState : AlertState) : AlertState :=
  mkAlertState [] 0 0 0.

(** *** Change listeners (modules/alerts.js and modules/inventory.js)

    A listener is a function value, compared by identity; [Some f] is an
    argument that is a function, [None] any other argument. *)
Section Listeners.
Context {L : Type} `{EqDecision L}.

(** [Array.prototype.indexOf]; [None] is -1. *)
Fixpoint indexOf (listeners : list L) (listener : L) : option nat :=
  match listeners with
  | [] => None
  | f :: r => if decide (f = listener) then Some O else S <$> indexOf r listener
  end.

(** [listeners.splice (index, 1)] *)
Definition splice1 (listeners : list L) (index : nat) : list L :=
  take index listeners ++ drop (S index) listeners.

(** [onAlertsChange] and [onInventoryChange]: the listener list after the
    call, and the unsubscribe function returned, which acts on the list as it
    is when called. *)
Definition onChange (listeners : list L) (listener : option L)
  : list L * (list L → list L) :=
  match listener with
  | Some f =>
    (listeners ++ [f],
     λ current, match indexOf current f with
                | Some index => splice1 current index
                | None => current
                end)
  | None => (listeners, λ current, current)
  end.
End Listeners.

(** *** modules/inventory.js: state, statistics, filters, priorities *)

Record InventoryState := mkInventoryState {
  items : list Item;
  filteredItems : list Item;
  isLoaded : bool
}.

Definition getItemById (inventoryState : InventoryState) (itemId : string)
  : option Item :=
  List.find (λ item, String.eqb (id item) itemId) (items inventoryState).

Record Stats := mkStats {
  st_total : nat;
  st_urgent : nat;
  st_lowStock : nat;
  st_goodStock : nat
}.

(** One turn of the [forEach] of [calculateStats] on the three counters. *)
Definition count_item (acc : nat * nat * nat) (item : Item) : nat * nat * nat :=
  let '(urgentCount, lowStockCount, goodStockCount) := acc in
  let stockInfo := calculateStockStatus item in
  if decide (si_status stockInfo = URGENT)
  then (S urgentCount, lowStockCount, goodStockCount)
  else if decide (si_status stockInfo = NORMAL ∨ si_status stockInfo = INFO)
  then (urgentCount, S lowStockCount, goodStockCount)
  else (urgentCount, lowStockCount, S goodStockCount).

Definition calculateStats (inventoryState : InventoryState) : Stats :=
  let '(urgentCount, lowStockCount, goodStockCount) :=
    foldl count_item (O, O, O) (items inventoryState) in
  mkStats (length (items inventoryState)) urgentCount lowStockCount goodStockCount.

(** The argument of [applyFilters]; a missing field is the empty string. *)
Record Filters := mkFilters {
  f_search : string;
  f_category : string;
  f_status : string
}.

Definition matches (filters : Filters) (item : Item) : bool :=
  let matchesSearch :=
    negb (truthy (f_search filters))
    || includes (toLowerCase (name item)) (toLowerCase (f_search filters)) in
  let matchesCategory :=
    negb (truthy (f_category filters))
    || String.eqb (category item) (f_category filters) in
  let matchesStatus :=
    if truthy (f_status filters)
    then String.eqb (STOCK_STATUS (si_status (calculateStockStatus item)))
                    (f_status filters)
    else true in
  matchesSearch && matchesCategory && matchesStatus.

Section ApplyFilters.
(** [String.prototype.localeCompare], which depends on the host's locale. *)
Variable localeCompare : string → string → Z.

Definition by_status_then_name (a b : Item) : option Z :=
  let aStatus := si_status (calculateStockStatus a) in
  let bStatus := si_status (calculateStockStatus b) in
  let statusDiff :=
    js_or (Some (STATUS_ORDER bStatus)) 0 - js_or (Some (STATUS_ORDER aStatus)) 0 in
  if negb (statusDiff =? 0) then Some statusDiff
  else Some (localeCompare (name a) (name b)).

Definition applyFilters (filters : Filters) (inventoryState : InventoryState)
  : InventoryState :=
  mkInventoryState (items inventoryState)
    (Array_sort by_status_then_name
       (List.filter (matches filters) (items inventoryState)))
    (isLoaded inventoryState).
End ApplyFilters.

Definition clearFilters (inventoryState : InventoryState) : InventoryState :=
  mkInventoryState (items inventoryState) (items inventoryState)
                   (isLoaded inventoryState).

(** The write of [updatePriority] and of [resetToDefaults]:
    [{priority, alertThreshold, .., updatedBy}]. *)
Definition write_priority (newPriority : string) (newThreshold : option Z)
    (who : string) (it : Item) : Item :=
  mkItem (id it) (name it) (category it) (stock it)
         (Some newPriority) newThreshold (Some who).

Definition updateDoc_priority (db : gmap string Item) (itemId : string)
    (newPriority : string) (newThreshold : option Z) (who : string)
  : option (gmap string Item) :=
  match db !! itemId with
  | Some it => Some (<[itemId := write_priority newPriority newThreshold who it]> db)
  | None => None
  end.

(** [parsed] is what [parseInt (threshold)] gave, [None] for [NaN]. *)
Definition updatePriority (db : gmap string Item) (itemId : string)
    (newPriority : string) (parsed : option Z) (who : string)
  : gmap string Item * Result :=
  match updateDoc_priority db itemId newPriority parsed who with
  | Some db' => (db', mkResult true None)
  | None => (db, mkResult false (Some "Error updating priority"))
  end.

(** One of the updates of [resetToDefaults]: the collection after it and
    whether it counts as a success.  For a category that names an inherited
    member the update is handed two fields that are [undefined], which
    [updateDoc] refuses; the error is caught and nothing is written. *)
Definition reset_item (who : string) (db : gmap string Item) (item : Item)
  : gmap string Item * bool :=
  match object_get DEFAULT_PRIORITIES (category item) with
  | Own defaultConfig =>
    match updateDoc_priority db (id item) (priority defaultConfig)
            (Some (threshold defaultConfig)) who with
    | Some db' => (db', true)
    | None => (db, false)
    end
  | Inherited => (db, false)
  | Absent => (db, false)
  end.

Record ResetResult := mkResetResult { rr_success : bool; updatedCount : nat }.

(** The updates are issued for the items of the local state, in order. *)
Definition resetToDefaults (inventoryState : InventoryState)
    (db : gmap string Item) (who : string) : gmap string Item * ResetResult :=
  let '(db', results) :=
    foldl (λ acc item,
             let '(db1, r) := reset_item who acc.1 item in (db1, acc.2 ++ [r]))
          (db, []) (items inventoryState) in
  (db', mkResetResult true (length (List.filter (λ b : bool, b) results))).

(** *** app.js: quick restock *)

(** [performStockUpdate] as [quickRestock] reaches it; with nobody signed in
    [user.email] throws and nothing is written or shown. *)
Definition performStockUpdate (authState : AuthState) (db : gmap string Item)
    (itemId : string) (newStock : Z) : gmap string Item * option Notification :=
  match currentUser authState with
  | None => (db, None)
  | Some user =>
    let '(db', result) := updateStock db itemId newStock (email user) in
    if success result then (db', Some NotifySuccess)
    else (db', Some (NotifyError (default EmptyString (error result))))
  end.

(** [entered] is what [parseInt (prompt (..))] gave. *)
Definition quickRestock (authState : AuthState) (inventoryItems : list Item)
    (alertState : AlertState) (db : gmap string Item) (productId : string)
    (entered : option Z) : gmap string Item * option Notification :=
  match getRestockSuggestion inventoryItems alertState productId with
  | Some suggestion =>
    let quantity := js_or entered 0 in
    if 0 <? quantity
    then performStockUpdate authState db productId
           (rs_currentStock suggestion + quantity)
    else (db, None)
  | None => (db, None)
  end.

End Frontend.

(** * REST controllers *)

Module Backend.
Import Constants.

(** An [ApiError] thrown by a handler; [asyncHandler] turns it into the
    response [{success: false, error}] with that status code. *)
Record ApiError := mkApiError { statusCode : Z; api_message : string }.

(** *** controllers/inventory.controller.js *)

(** Both controllers carry this copy. *)
Definition calculateStockStatus (item : Item) : StockInfo :=
  let threshold := resolve_chain (alertThreshold item) threshold (category item) 3 in
  let priority := resolve_chain (item_priority item) priority (category item) "medium" in
  let stock := js_or (Some (stock item)) 0 in
  let returned :=
    if stock <=? threshold then switch_priority priority
    else if stock <=? threshold * 2 then Some good_info
    else None in
  match returned with
  | Some r => r
  | None => optimal_info
  end.

(** ['Action must be "add" or "subtract"'] *)
Definition bad_action_message : string :=
  "Action must be " +:+ dquote +:+ "add" +:+ dquote +:+ " or " +:+
  dquote +:+ "subtract" +:+ dquote.

(** [req.body.quantity], by what the handler makes of it: it adds or
    subtracts [parseInt (quantity)] and repeats [quantity] itself in the
    answer.  [Integer z] is the number [z], an integer that [parseInt] gives
    back, as it does for an integer of fewer than 22 digits.  [Parsed z] is
    any other value of which [parseInt] makes [z]: 2.5 is [Parsed 2], 1e21 is
    [Parsed 1], the text ['7 units'] is [Parsed 7].  A value of which
    [parseInt] makes [NaN] ([null], [true], a text without leading digits)
    passes the test [quantity === undefined] and has the handler store [NaN]
    as the stock, which is no stock of an [Item]; such a value is no
    [Quantity]. *)
Inductive Quantity :=
  | Integer (z : Z)
  | Parsed (z : Z).

Definition parseInt (quantity : Quantity) : Z :=
  match quantity with
  | Integer z => z
  | Parsed z => z
  end.

(** [action === 'add' ? quantity : -quantity]: the answer repeats the
    quantity as it came, or negated. *)
Inductive Change :=
  | Same (quantity : Quantity)
  | Negated (quantity : Quantity).


(** [rq_quantity] is [None] when the body has no [quantity], the one case
    [quantity === undefined] catches. *)
Record StockRequest := mkStockRequest {
  rq_id : string;
  rq_quantity : option Quantity;
  rq_action : option string;
  rq_user : string
}.

Record StockData := mkStockData {
  sd_id : string;
  previousStock : Z;
  newStock : Z;
  change : Change
}.

Record StockResponse := mkStockResponse { sr_message : string; sr_data : StockData }.

(** [PATCH /api/inventory/:id/stock].  [db] is [None] when the database
    handle is missing.  The first component is the collection after the
    request. *)
Definition updateStock (db : option (gmap string Item)) (req : StockRequest)
  : option (gmap string Item) * (ApiError + StockResponse) :=
  match db with
  | None => (db, inl (mkApiError 500 "Database not available"))
  | Some docs =>
    match rq_quantity req with
    | None => (db, inl (mkApiError 400 "Quantity and action are required"))
    | Some quantity =>
      if js_not (rq_action req)
      then (db, inl (mkApiError 400 "Quantity and action are required"))
      else
        let action := default EmptyString (rq_action req) in
        match docs !! rq_id req with
        | None => (db, inl (mkApiError 404 "Item not found"))
        | Some doc =>
          let currentStock := js_or (Some (stock doc)) 0 in
          let write (newStock : Z) :=
            (Some (<[rq_id req := write_stock newStock (rq_user req) doc]> docs),
             inr (mkStockResponse
                    (if String.eqb action "add" then "Stock added successfully"
                     else "Stock removed successfully")
                    (mkStockData (rq_id req) currentStock newStock
                       (if String.eqb action "add" then Same quantity
                        else Negated quantity)))) in
          if String.eqb action "add" then write (currentStock + parseInt quantity)
          else if String.eqb action "subtract" then
            let newStock := currentStock - parseInt quantity in
            if newStock <? 0
            then (db, inl (mkApiError 400 "Cannot have negative stock"))
            else write newStock
          else (db, inl (mkApiError 400 bad_action_message))
        end
    end
  end.

(** *** controllers/alerts.controller.js *)

(** Unlike [calculateStockStatus] above, this takes an inherited member as
    the category's defaults, as the browser module does. *)
Definition getProductPriority (item : Item) : Config :=
  let categoryDefault : Config :=
    match object_get DEFAULT_PRIORITIES (category item) with
    | Own entry => entry
    | Inherited => mkResolved None None
    | Absent => mkConfig "medium" 3
    end in
  mkResolved (js_or_opt (item_priority item) (cfg_priority categoryDefault))
             (js_or_opt (alertThreshold item) (cfg_threshold categoryDefault)).

Definition estimateDaysUntilEmpty (item : Item) : Z :=
  let avgDailyConsumption := 2 in
  Z.max 1 (Math_ceil_div (js_or (Some (stock item)) 0) avgDailyConsumption).

(** [None] is [NaN], the result for a threshold that is [undefined]. *)
Definition calculateSuggestedQuantity (item : Item) (config : Config) : option Z :=
  let targetStock := js_mul (cfg_threshold config) 3 in
  let minimumOrder := 10 in
  let neededQuantity := js_sub targetStock (js_or (Some (stock item)) 0) in
  Math_max minimumOrder neededQuantity.

Record ProductSummary := mkSummary {
  ps_id : string;
  ps_name : string;
  ps_category : string;
  ps_stock : Z
}.

(** [a_priority] and [a_threshold] are [undefined] when [None];
    [suggestedQuantity] is [NaN] when [None]. *)
Record Alert := mkAlert {
  alert_id : string;
  product : ProductSummary;
  status : Status;
  message : string;
  a_priority : option string;
  a_threshold : option Z;
  daysUntilEmpty : Z;
  suggestedQuantity : option Z
}.

(** The alert pushed for one document [(doc.id, doc.data ())]. *)
Definition alert_for (doc : string * Item) : option Alert :=
  let item := doc.2 in
  let stockStatus := calculateStockStatus item in
  if needs_attention (si_status stockStatus) then
    let config := getProductPriority item in
    Some (mkAlert doc.1
                  (mkSummary doc.1 (name item) (category item) (stock item))
                  (si_status stockStatus) (si_message stockStatus)
                  (cfg_priority config) (cfg_threshold config)
                  (estimateDaysUntilEmpty item)
                  (calculateSuggestedQuantity item config))
  else None.

Definition priorityOrder (s : Status) : option Z :=
  match s with
  | URGENT => Some 3
  | NORMAL => Some 2
  | INFO => Some 1
  | _ => None
  end.

Definition by_urgency (a b : Alert) : option Z :=
  match priorityOrder (status b), priorityOrder (status a) with
  | Some pb, Some pa => Some (pb - pa)
  | _, _ => None
  end.

Record Counts := mkCounts { urgent : nat; normal : nat; info : nat }.

Record AlertsData := mkAlertsData {
  alerts : list Alert;
  counts : Counts;
  total : option nat
}.

Definition count_status (s : Status) (l : list Alert) : nat :=
  length (filter (λ a, status a = s) l).

(** [GET /api/alerts]; the snapshot is the collection's document list. *)
Definition getAlerts (db : option (gmap string Item)) : AlertsData :=
  match db with
  | None => mkAlertsData [] (mkCounts 0 0 0) None
  | Some docs =>
    let snapshot := map_to_list docs in
    let alerts := Array_sort by_urgency (omap alert_for snapshot) in
    mkAlertsData alerts
      (mkCounts (count_status URGENT alerts) (count_status NORMAL alerts)
                (count_status INFO alerts))
      (Some (length alerts))
  end.

Definition newline : string := String (ascii_of_nat 10) EmptyString.

(** The line appended to [csvContent] for one document, if any.  In a
    template a field that is [undefined] reads [undefined]. *)
Definition csv_line (item : Item) : string :=
  let stockStatus := calculateStockStatus item in
  let config := getProductPriority item in
  if needs_attention (si_status stockStatus) then
    dquote +:+ name item +:+ dquote +:+ "," +:+ category item +:+ "," +:+
    string_of_Z (stock item) +:+ "," +:+
    from_option string_of_Z "undefined" (cfg_threshold config) +:+ "," +:+
    default "undefined" (cfg_priority config) +:+ "," +:+
    STOCK_STATUS (si_status stockStatus) +:+ "," +:+
    dquote +:+ si_message stockStatus +:+ dquote +:+ "," +:+
    string_of_Z (estimateDaysUntilEmpty item) +:+ newline
  else EmptyString.

(** [GET /api/alerts/export]: the body sent. *)
Definition exportAlerts (db : option (gmap string Item)) : string :=
  match db with
  | None => "Product,Category,Stock,Threshold,Priority,Status" +:+ newline
  | Some docs =>
    foldl (λ csvContent doc, csvContent +:+ csv_line doc.2)
      ("Product,Category,Current Stock,Threshold,Priority,Status,Message,Days Until Empty"
         +:+ newline)
      (map_to_list docs)
  end.

(** *** controllers/inventory.controller.js: the other handlers *)

(** [{id: doc.id, ...doc.data ()}]: the spread comes last, so an [id] field
    of the document replaces the key.  The collection holds each document as
    this expression reads it. *)
Definition read_doc (doc : string * Item) : Item := doc.2.

Definition getMockInventory : list Item :=
  [ mkItem "1" "Absolut Vodka" "Spirits" 5 (Some "high") (Some 2) None;
    mkItem "2" "Jack Daniels" "Spirits" 3 (Some "high") (Some 2) None;
    mkItem "3" "Cabernet Sauvignon" "Wines" 8 (Some "medium") (Some 3) None;
    mkItem "4" "Corona Beer" "Beers" 24 (Some "medium") (Some 6) None;
    mkItem "5" "Coca Cola" "Soft Drinks" 36 (Some "low") (Some 12) None;
    mkItem "6" "Simple Syrup" "Syrups" 2 (Some "medium") (Some 2) None ].

(** [req.query] of [GET /api/inventory]. *)
Record Query := mkQuery {
  q_category : option string;
  q_status : option string;
  q_search : option string
}.

(** The comparator of [getAllItems]: [(statusOrder[b] || 0) - (statusOrder[a] || 0)]. *)
Definition by_status (a b : Item) : option Z :=
  let aStatus := si_status (calculateStockStatus a) in
  let bStatus := si_status (calculateStockStatus b) in
  Some (js_or (Some (STATUS_ORDER bStatus)) 0 - js_or (Some (STATUS_ORDER aStatus)) 0).

Definition query_keeps (q : Query) (item : Item) : bool :=
  (js_not (q_category q)
   || String.eqb (category item) (default EmptyString (q_category q)))
  && (js_not (q_search q)
      || includes (toLowerCase (name item))
                  (toLowerCase (default EmptyString (q_search q))))
  && (js_not (q_status q)
      || String.eqb (STOCK_STATUS (si_status (calculateStockStatus item)))
                    (default EmptyString (q_status q))).

(** [GET /api/inventory]: the [data] of the answer; [count] is its length. *)
Definition getAllItems (db : option (gmap string Item)) (q : Query) : list Item :=
  match db with
  | None => getMockInventory
  | Some docs =>
    let items := read_doc <$> map_to_list docs in
    let items := List.filter (λ item,
      js_not (q_category q)
      || String.eqb (category item) (default EmptyString (q_category q))) items in
    let items :=
      if js_not (q_search q) then items
      else List.filter (λ item,
             includes (toLowerCase (name item))
                      (toLowerCase (default EmptyString (q_search q)))) items in
    let items :=
      if js_not (q_status q) then items
      else List.filter (λ item,
             String.eqb (STOCK_STATUS (si_status (calculateStockStatus item)))
                        (default EmptyString (q_status q))) items in
    Array_sort by_status items
  end.

Record ItemWithStatus := mkItemWithStatus { iws_item : Item; stockStatus : StockInfo }.

(** [GET /api/inventory/:id] *)
Definition getItemById (db : option (gmap string Item)) (itemId : string)
  : ApiError + ItemWithStatus :=
  match db with
  | None => inl (mkApiError 500 "Database not available")
  | Some docs =>
    match docs !! itemId with
    | None => inl (mkApiError 404 "Item not found")
    | Some data =>
      inr (mkItemWithStatus (read_doc (itemId, data)) (calculateStockStatus data))
    end
  end.

(** [req.body] of [POST /api/inventory]. *)
Record CreateBody := mkCreateBody {
  b_name : option string;
  b_category : option string;
  b_stock : option Z;
  b_priority : option string;
  b_alertThreshold : option Z
}.

(** [POST /api/inventory].  [newId] is the key the collection gives the new
    document; [who] is [req.user.email].  The item is stored as it is built:
    a field that is [undefined] is not set in the document. *)
Definition createItem (db : option (gmap string Item)) (newId who : string)
    (body : CreateBody) : option (gmap string Item) * (ApiError + Item) :=
  if js_not (b_name body) || js_not (b_category body)
  then (db, inl (mkApiError 400 "Name and category are required"))
  else match db with
  | None => (db, inl (mkApiError 500 "Database not available"))
  | Some docs =>
    let name := default EmptyString (b_name body) in
    let category := default EmptyString (b_category body) in
    let defaults : Config :=
      match object_get DEFAULT_PRIORITIES category with
      | Own entry => entry
      | Inherited => mkResolved None None
      | Absent => mkConfig "medium" 3
      end in
    let newItem :=
      mkItem newId name category (js_or (b_stock body) 0)
             (js_or_opt (b_priority body) (cfg_priority defaults))
             (js_or_opt (b_alertThreshold body) (cfg_threshold defaults))
             (Some who) in
    (Some (<[newId := newItem]> docs), inr newItem)
  end.

(** The fields of [req.body] of [PUT /api/inventory/:id] that an item has,
    [id] among them: the handler passes the whole body to [update].  [None]
    is a field the body does not set. *)
Record Updates := mkUpdates {
  u_id : option string;
  u_name : option string;
  u_category : option string;
  u_stock : option Z;
  u_priority : option string;
  u_alertThreshold : option Z
}.

(** [docRef.update (updates)] after [updates.updatedBy = req.user.email]. *)
Definition apply_updates (updates : Updates) (who : string) (it : Item) : Item :=
  mkItem (default (id it) (u_id updates))
         (default (name it) (u_name updates))
         (default (category it) (u_category updates))
         (default (stock it) (u_stock updates))
         (match u_priority updates with Some p => Some p | None => item_priority it end)
         (match u_alertThreshold updates with
          | Some t => Some t
          | None => alertThreshold it
          end)
         (Some who).

(** [PUT /api/inventory/:id] *)
Definition updateItem (db : option (gmap string Item)) (itemId who : string)
    (updates : Updates) : option (gmap string Item) * (ApiError + Item) :=
  match db with
  | None => (db, inl (mkApiError 500 "Database not available"))
  | Some docs =>
    match docs !! itemId with
    | None => (db, inl (mkApiError 404 "Item not found"))
    | Some doc =>
      let updated := apply_updates updates who doc in
      (Some (<[itemId := updated]> docs), inr (read_doc (itemId, updated)))
    end
  end.

(** [DELETE /api/inventory/:id]; [inr] carries the success message. *)
Definition deleteItem (db : option (gmap string Item)) (itemId : string)
  : option (gmap string Item) * (ApiError + string) :=
  match db with
  | None => (db, inl (mkApiError 500 "Database not available"))
  | Some docs =>
    match docs !! itemId with
    | None => (db, inl (mkApiError 404 "Item not found"))
    | Some _ => (Some (delete itemId docs), inr "Item deleted successfully")
    end
  end.





(** *** controllers/alerts.controller.js: the shopping list *)

(** [se_suggestedQuantity] is [NaN] when [None]. *)
Record ShoppingEntry := mkShoppingEntry {
  se_name : string;
  se_category : string;
  se_currentStock : Z;
  se_suggestedQuantity : option Z
}.

Definition shopping_entry (item : Item) : ShoppingEntry :=
  mkShoppingEntry (name item) (category item) (stock item)
    (calculateSuggestedQuantity item (getProductPriority item)).

(** [GET /api/alerts/shopping-list]: the [urgent] and [normal] arrays. *)
Definition getShoppingList (db : option (gmap string Item))
  : list ShoppingEntry * list ShoppingEntry :=
  match db with
  | None => ([], [])
  | Some docs =>
    let data := (map_to_list docs).*2 in
    (shopping_entry <$>
       List.filter (λ item,
         bool_decide (si_status (calculateStockStatus item) = URGENT)) data,
     shopping_entry <$>
       List.filter (λ item,
         bool_decide (si_status (calculateStockStatus item) = NORMAL)) data)
  end.

(** *** middleware/auth.js and the routes *)

Record TokenPayload := mkTokenPayload { tk_email : string; tk_role : string }.

(** What [verifyToken] finds: no [Bearer] header, or the outcome of
    [jwt.verify] on the token. *)
Inductive TokenCheck :=
  | NoBearerHeader
  | TokenExpired
  | TokenRejected
  | TokenValid (decoded : TokenPayload).

(** A middleware either answers with an error or calls [next ()]; [inr]
    carries [req.user] for the next one. *)
Definition verifyToken (check : TokenCheck) : ApiError + TokenPayload :=
  match check with
  | NoBearerHeader => inl (mkApiError 401 "Unauthorized access")
  | TokenExpired => inl (mkApiError 401 "Token expired")
  | TokenRejected => inl (mkApiError 401 "Unauthorized access")
  | TokenValid decoded => inr decoded
  end.

(** [None] is [next ()]. *)
Definition isAdmin (user : TokenPayload) : option ApiError :=
  if negb (String.eqb (tk_role user) "admin")
  then Some (mkApiError 403 "Admin access required")
  else None.

Definition isManagerOrAdmin (user : TokenPayload) : option ApiError :=
  if negb (String.eqb (tk_role user) "admin")
     && negb (String.eqb (tk_role user) "manager")
  then Some (mkApiError 403 "Manager or Admin access required")
  else None.

Definition canModifyStock (user : option TokenPayload) : option ApiError :=
  match user with
  | None => Some (mkApiError 401 "Unauthorized access")
  | Some _ => None
  end.

(** [router.post ('/', verifyToken, isManagerOrAdmin, createItem)] *)
Definition route_createItem (check : TokenCheck) (db : option (gmap string Item))
    (newId : string) (body : CreateBody)
  : option (gmap string Item) * (ApiError + Item) :=
  match verifyToken check with
  | inl e => (db, inl e)
  | inr user =>
    match isManagerOrAdmin user with
    | Some e => (db, inl e)
    | None => createItem db newId (tk_email user) body
    end
  end.

(** [router.put ('/:id', verifyToken, isManagerOrAdmin, updateItem)] *)
Definition route_updateItem (check : TokenCheck) (db : option (gmap string Item))
    (itemId : string) (updates : Updates)
  : option (gmap string Item) * (ApiError + Item) :=
  match verifyToken check with
  | inl e => (db, inl e)
  | inr user =>
    match isManagerOrAdmin user with
    | Some e => (db, inl e)
    | None => updateItem db itemId (tk_email user) updates
    end
  end.

(** [router.delete ('/:id', verifyToken, isManagerOrAdmin, deleteItem)] *)
Definition route_deleteItem (check : TokenCheck) (db : option (gmap string Item))
    (itemId : string) : option (gmap string Item) * (ApiError + string) :=
  match verifyToken check with
  | inl e => (db, inl e)
  | inr user =>
    match isManagerOrAdmin user with
    | Some e => (db, inl e)
    | None => deleteItem db itemId
    end
  end.

(** [router.patch ('/:id/stock', verifyToken, canModifyStock, updateStock)];
    the request's user is the token's. *)
Definition route_updateStock (check : TokenCheck) (db : option (gmap string Item))
    (itemId : string) (quantity : option Quantity) (action : option string)
  : option (gmap string Item) * (ApiError + StockResponse) :=
  match verifyToken check with
  | inl e => (db, inl e)
  | inr user =>
    match canModifyStock (Some user) with
    | Some e => (db, inl e)
    | None => updateStock db (mkStockRequest itemId quantity action (tk_email user))
    end
  end.

End Backend.

(** * The original single-file application (js/app.js) *)

Module Legacy.

Definition USER_ROLES : gmap string string :=
  <["admin@wishbone.com" := "admin"]>
  (<["manager@wishbone.com" := "manager"]>
  (<["staff@wishbone.com" := "staff"]> ∅)).

(** The globals [currentUser] and [userRole]. *)
Record Globals := mkGlobals { currentUser : option User; userRole : string }.

Definition onAuthStateChanged (user : option User) : Globals :=
  match user with
  | Some u => mkGlobals (Some u) (js_or (USER_ROLES !! email u) "staff")
  | None => mkGlobals None "staff"
  end.

Definition canModifyStock (g : Globals) : bool := bool_decide (currentUser g ≠ None).

Definition canManageProducts (g : Globals) : bool :=
  String.eqb (userRole g) "admin" || String.eqb (userRole g) "manager".

Definition canManagePriorities (g : Globals) : bool := String.eqb (userRole g) "admin".

(** The table is the one of [config/constants.js]; both fields are always
    set. *)
Definition getProductPriority (product : Item) : PriorityConfig :=
  mkConfig (resolve_chain (item_priority product) priority (category product) "medium")
           (resolve_chain (alertThreshold product) threshold (category product) 3).

(** This copy ends in [else { return optimal }]: when the switch matches no
    case the function returns nothing, [None] here. *)
Definition calculateStockStatus (product : Item) : option StockInfo :=
  let config := getProductPriority product in
  let stock := stock product in
  let threshold := threshold config in
  if stock <=? threshold then switch_priority (priority config)
  else if stock <=? threshold * 2 then Some good_info
  else Some optimal_info.

(** Here the stock buttons write the collection themselves. *)
Definition quickUpdate (g : Globals) (db : gmap string Item)
    (itemId : string) (currentStock : Z) (action : string)
    (entered : option Z) : gmap string Item * Notification :=
  if negb (canModifyStock g) then (db, NotifyError "Permission denied")
  else
    let quantity := js_or entered 1 in
    let performStockUpdate (newStock : Z) :=
      let who := from_option email EmptyString (currentUser g) in
      match updateDoc_stock db itemId newStock who with
      | Some db' => (db', NotifySuccess)
      | None => (db, NotifyError "Error updating stock")
      end in
    if String.eqb action "add" then performStockUpdate (currentStock + quantity)
    else
      let newStock := currentStock - quantity in
      if newStock <? 0 then (db, NotifyError "Cannot have negative stock!")
      else performStockUpdate newStock.

End Legacy.

(** * The invariant of the data model *)

(** No stored item has a negative stock. *)
Definition stock_nonneg (db : gmap string Item) : Prop :=
  map_Forall (λ _ it, 0 <= stock it) db.

(** * Occurrence of a text in another *)

(** [s] occurs in [t], somewhere. *)
Definition occurs_in (s t : string) : Prop := ∃ pre post, t = pre +:+ s +:+ post.

(** * Standard CSV quoting, as the specification words it *)



(** * Sample inventory *)

(** Items used to run the definitions. *)
Definition vodka : Item := mkItem "1" "Vodka" "Spirits" 1 None None None.

(** An item with an unknown priority string. *)
Definition odd_priority_item : Item :=
  mkItem "7" "Tonic" "Mixers" 5 (Some "critical") (Some 3) None.

Definition odd_priority_low_stock : Item :=
  mkItem "8" "Bitters" "Mixers" 1 (Some "critical") (Some 3) None.

(** A mixed batch: one item of each status, in no particular order. *)
Definition mixed_batch : list Item :=
  [ mkItem "c" "Cola" "Soft Drinks" 5 None None None;
    mkItem "b" "Beer" "Beers" 10 None None None;
    mkItem "v" "Vodka" "Spirits" 1 None None None;
    mkItem "s" "Syrup" "Syrups" 50 None None None;
    mkItem "w" "Wine" "Wines" 2 None None None ].

(** The same batch as a collection, each document under its id. *)
Definition mixed_collection : gmap string Item :=
  list_to_map ((λ item, (id item, item)) <$> mixed_batch).

(** An item whose category is the name of a member that every object
    inherits, the same item with an own threshold of 0, and a collection that
    holds the first. *)
Definition kombucha : Item := mkItem "k" "Kombucha" "constructor" 1 None None None.

Definition kombucha_zero : Item :=
  mkItem "k" "Kombucha" "constructor" 1 None (Some 0) None.

Definition kombucha_shelf : gmap string Item := {[ "k" := kombucha ]}.

(** An item with a negative stock and a negative threshold of its own. *)
Definition overdrawn : Item := mkItem "o" "Gin" "Spirits" (-7) (Some "high") (Some (-5)) None.

(** The batch as the inventory of the browser module, and a search for
    the letters [vod]. *)
Definition mixed_inventory : Frontend.InventoryState :=
  Frontend.mkInventoryState mixed_batch [] true.

Definition vodka_search : Frontend.Filters :=
  Frontend.mkFilters "vod" EmptyString EmptyString.

Definition vodka_query : Backend.Query := Backend.mkQuery None None (Some "vod").



(** A collection with a single bottle, three in stock, and a request that
    adds a negative quantity to it. *)
Definition one_bottle : gmap string Item :=
  {[ "v" := mkItem "v" "Vodka" "Spirits" 3 None None None ]}.

Definition add_minus_five : Backend.StockRequest :=
  Backend.mkStockRequest "v" (Some (Backend.Integer (-5))) (Some "add")
    "staff@inventory.com".

Definition subtract_five : Backend.StockRequest :=
  Backend.mkStockRequest "v" (Some (Backend.Integer 5)) (Some "subtract")
    "staff@inventory.com".


(** The alert of the bottle of vodka, as [generateAlerts] builds it. *)
Definition vodka_alert : Frontend.Alert :=
  Frontend.mkAlert vodka URGENT "URGENT: Needs immediate restock!"
    (Some "high") (Some 2) 1 (Some 10).

(** The alerts of the mixed batch, and a state with eight alerts. *)
Definition mixed_state : Frontend.AlertState := Frontend.generateAlerts mixed_batch.

Definition crowded_batch : list Item :=
  mixed_batch ++ mixed_batch ++ mixed_batch.

Definition crowded_state : Frontend.AlertState := Frontend.generateAlerts crowded_batch.

(** The first alert shown and the first alert hidden for the crowded batch. *)
Definition first_shown : Frontend.Alert :=
  Eval vm_compute in hd vodka_alert (Frontend.getDisplayAlerts crowded_state).1.

Definition first_hidden : Frontend.Alert :=
  Eval vm_compute in
    hd vodka_alert (drop Constants.MAX_VISIBLE_ALERTS (Frontend.alerts crowded_state)).

(** * Properties *)

(** ** The defaults table *)

Lemma DEFAULT_PRIORITIES_entries (c : string) (cfg : PriorityConfig) :
  Constants.DEFAULT_PRIORITIES !! c = Some cfg →
  cfg ∈ [mkConfig "high" 2; mkConfig "medium" 3; mkConfig "medium" 6;
         mkConfig "low" 12; mkConfig "medium" 2].
Proof.
  unfold Constants.DEFAULT_PRIORITIES.
  rewrite !lookup_insert_Some, lookup_empty.
  intros H. repeat (destruct H as [[_ <-]|[_ H]]; [set_solver|]). done.
Qed.

Lemma default_threshold_truthy (c : string) (cfg : PriorityConfig) :
  Constants.DEFAULT_PRIORITIES !! c = Some cfg → truthy (threshold cfg) = true.
Proof.
  intros H%DEFAULT_PRIORITIES_entries.
  repeat (apply elem_of_cons in H as [->|H]; [reflexivity|]).
  by apply elem_of_nil in H.
Qed.

Lemma default_priority_truthy (c : string) (cfg : PriorityConfig) :
  Constants.DEFAULT_PRIORITIES !! c = Some cfg → truthy (priority cfg) = true.
Proof.
  intros H%DEFAULT_PRIORITIES_entries.
  repeat (apply elem_of_cons in H as [->|H]; [reflexivity|]).
  by apply elem_of_nil in H.
Qed.

(** ** [||] *)

Lemma js_or_truthy {A} `{Truthy A} (x d : A) : truthy x = true → js_or (Some x) d = x.
Proof. intros Hx. unfold js_or. by rewrite Hx. Qed.

Lemma js_or_falsy {A} `{Truthy A} (x d : A) : truthy x = false → js_or (Some x) d = d.
Proof. intros Hx. unfold js_or. by rewrite Hx. Qed.

Lemma js_or_opt_truthy {A} `{Truthy A} (x : A) (b : option A) :
  truthy x = true → js_or_opt (Some x) b = Some x.
Proof. intros Hx. unfold js_or_opt. by rewrite Hx. Qed.


Lemma js_or_stock (z : Z) : js_or (Some z) 0 = z.
Proof.
  unfold js_or, truthy, Z_truthy. destruct (Z.eqb_spec z 0); simpl; congruence.
Qed.

(** ** Lookup in the defaults table *)

Lemma DEFAULT_PRIORITIES_own (c : string) :
  c ∈ Object_prototype_members → Constants.DEFAULT_PRIORITIES !! c = None.
Proof.
  intros Hc. unfold Object_prototype_members in Hc.
  repeat (apply elem_of_cons in Hc as [->|Hc]; [vm_compute; reflexivity|]).
  by apply elem_of_nil in Hc.
Qed.

(** The three outcomes of [DEFAULT_PRIORITIES[category]]: an entry of the
    table, a member that every object inherits, nothing. *)
Lemma DEFAULT_PRIORITIES_get (c : string) :
  (∃ entry, Constants.DEFAULT_PRIORITIES !! c = Some entry ∧
            (c ∉ Object_prototype_members) ∧
            object_get Constants.DEFAULT_PRIORITIES c = Own entry) ∨
  (c ∈ Object_prototype_members ∧
   object_get Constants.DEFAULT_PRIORITIES c = Inherited) ∨
  (Constants.DEFAULT_PRIORITIES !! c = None ∧ (c ∉ Object_prototype_members) ∧
   object_get Constants.DEFAULT_PRIORITIES c = Absent).
Proof.
  unfold object_get.
  destruct (Constants.DEFAULT_PRIORITIES !! c) as [entry|] eqn:E.
  - left. exists entry. split_and!; try done.
    intros Hc. apply DEFAULT_PRIORITIES_own in Hc. congruence.
  - case_bool_decide; [right; left|right; right]; done.
Qed.

(** Case analysis on the category of an item, in the goal. *)
Ltac category_cases c :=
  let entry := fresh "entry" in
  let Hentry := fresh "Hentry" in
  let Hmember := fresh "Hmember" in
  let Hget := fresh "Hget" in
  destruct (DEFAULT_PRIORITIES_get c)
    as [(entry & Hentry & Hmember & Hget)|[(Hmember & Hget)|(Hentry & Hmember & Hget)]];
  rewrite ?Hget;
  [pose proof (default_threshold_truthy c entry Hentry);
   pose proof (default_priority_truthy c entry Hentry)| |].

(** What the module resolves, against the [?.] chain of the controllers:
    a resolved threshold is not 0 and is the chain's; the threshold is
    [undefined] exactly for an item without a truthy threshold of its own
    whose category names an inherited member, where the chain gives 3. *)
Lemma resolved_threshold (p : Item) :
  match cfg_threshold (Frontend.getProductPriority p) with
  | Some t =>
      t ≠ 0 ∧ resolve_chain (alertThreshold p) threshold (category p) 3 = t
  | None =>
      js_not (alertThreshold p) = true ∧ category p ∈ Object_prototype_members ∧
      resolve_chain (alertThreshold p) threshold (category p) 3 = 3
  end.
Proof.
  unfold Frontend.getProductPriority, resolve_chain.
  category_cases (category p);
    unfold js_or_opt, js_or, js_not, truthy, Z_truthy in *;
    cbn [cfg_threshold resolved field_of];
    destruct (alertThreshold p) as [x|];
    try destruct (Z.eqb_spec x 0) as [->|Hx]; cbn [negb];
    try destruct (Z.eqb_spec (threshold entry) 0); cbn [negb] in *;
    rewrite ?(proj2 (Z.eqb_neq _ _)) by done; cbn [negb];
    try done.
Qed.

Lemma resolved_priority (p : Item) :
  match cfg_priority (Frontend.getProductPriority p) with
  | Some s =>
      s ≠ EmptyString ∧
      resolve_chain (item_priority p) priority (category p) "medium" = s
  | None =>
      js_not (item_priority p) = true ∧ category p ∈ Object_prototype_members ∧
      resolve_chain (item_priority p) priority (category p) "medium" = "medium"
  end.
Proof.
  unfold Frontend.getProductPriority, resolve_chain.
  category_cases (category p);
    unfold js_or_opt, js_or, js_not, truthy, string_truthy in *;
    cbn [cfg_priority resolved field_of];
    destruct (item_priority p) as [[|c s]|]; cbn [negb];
    try destruct (priority entry); try done.
Qed.

(** Outside the inherited names both fields are resolved. *)
Lemma resolved_outside_members (p : Item) :
  category p ∉ Object_prototype_members →
  ∃ s t, Frontend.getProductPriority p = mkResolved (Some s) (Some t).
Proof.
  intros Hc.
  pose proof (resolved_threshold p) as Ht. pose proof (resolved_priority p) as Hs.
  destruct (Frontend.getProductPriority p) as [[s|] [t|]]; cbn in Ht, Hs;
    [by exists s, t|tauto..].
Qed.

Lemma backend_getProductPriority (p : Item) :
  Backend.getProductPriority p = Frontend.getProductPriority p.
Proof. reflexivity. Qed.

(** ** The repository's own test expectations, run on the embedding *)

Example test_getProductPriority_defaults :
  Frontend.getProductPriority (mkItem "1" "Vodka" "Spirits" 5 None None None)
    = mkConfig "high" 2 ∧
  Frontend.getProductPriority (mkItem "2" "Cola" "Soft Drinks" 20 None None None)
    = mkConfig "low" 12 ∧
  Frontend.getProductPriority (mkItem "3" "Special Wine" "Wines" 5 (Some "high") None None)
    = mkConfig "high" 3 ∧
  Frontend.getProductPriority (mkItem "4" "VIP Spirit" "Spirits" 5 (Some "low") (Some 5) None)
    = mkConfig "low" 5 ∧
  Frontend.getProductPriority (mkItem "5" "Unknown" "Unknown Category" 5 None None None)
    = mkConfig "medium" 3.
Proof. repeat split; reflexivity. Qed.

Example test_estimateDaysUntilEmpty :
  (λ s, Frontend.estimateDaysUntilEmpty (mkItem "1" "x" "Wines" s None None None))
    <$> [10; 20; 6; 4; 0; 1; 5; 7; 3; 100; 365; 1000; 9; 11]
  = [5; 10; 3; 2; 1; 1; 3; 4; 2; 50; 183; 500; 5; 6].
Proof. reflexivity. Qed.

Example test_calculateSuggestedQuantity :
  (λ st, Frontend.calculateSuggestedQuantity
           (mkItem "1" "x" "Wines" st.1 None None None) (mkConfig "medium" st.2))
    <$> [(0, 5); (0, 10); (10, 10); (5, 3); (20, 3); (15, 5); (0, 2); (5, 12); (3, 6)]
  = Some <$> [15; 30; 20; 10; 10; 10; 10; 31; 15].
Proof. reflexivity. Qed.

Example test_sort_alerts_by_urgency :
  Frontend.status <$> Frontend.alerts (Frontend.generateAlerts
    [ mkItem "1" "Cola" "Soft Drinks" 5 None None None;
      mkItem "2" "Vodka" "Spirits" 1 None None None;
      mkItem "3" "Wine" "Wines" 2 None None None ])
  = [URGENT; NORMAL; INFO].
Proof. reflexivity. Qed.

Example test_alert_for_vodka : Frontend.alert_for vodka = Some vodka_alert.
Proof. reflexivity. Qed.

(** ** Stock classifier *)

Lemma switch_priority_unmatched (s : string) :
  s ≠ "high" → s ≠ "medium" → s ≠ "low" → switch_priority s = None.
Proof.
  intros Hh Hm Hl. unfold switch_priority.
  apply String.eqb_neq in Hh, Hm, Hl. by rewrite Hh, Hm, Hl.
Qed.

(** The module's classifier as the nested conditional it is. *)
Lemma calculateStockStatus_unfold (p : Item) :
  Frontend.calculateStockStatus p =
    let cfg := Frontend.getProductPriority p in
    match cfg_threshold cfg with
    | Some t =>
        if stock p <=? t
        then default optimal_info (cfg_priority cfg ≫= switch_priority)
        else if stock p <=? t * 2 then good_info else optimal_info
    | None => optimal_info
    end.
Proof.
  unfold Frontend.calculateStockStatus. cbv zeta.
  destruct (cfg_threshold _) as [t|]; cbn [js_le js_mul fmap option_fmap option_map];
    [|done].
  destruct (stock p <=? t); [by destruct (cfg_priority _)|].
  by destruct (stock p <=? _).
Qed.

(** The controllers' classifier likewise. *)
Lemma backend_calculateStockStatus_unfold (p : Item) :
  Backend.calculateStockStatus p =
    let t := resolve_chain (alertThreshold p) threshold (category p) 3 in
    let s := resolve_chain (item_priority p) priority (category p) "medium" in
    if stock p <=? t then default optimal_info (switch_priority s)
    else if stock p <=? t * 2 then good_info else optimal_info.
Proof.
  unfold Backend.calculateStockStatus. rewrite js_or_stock. cbv zeta.
  destruct (stock p <=? _); [done|]. by destruct (stock p <=? _).
Qed.



(** C1, as stated, fails in its last row: an item with a negative stock
    and a negative threshold of its own has more than twice the threshold in
    stock and is URGENT, not OPTIMAL. *)
Lemma calculateStockStatus_table_fails_below_zero :
  ¬ (∀ (p : Item) (t : Z),
       cfg_threshold (Frontend.getProductPriority p) = Some t →
       stock p > 2 * t →
       si_status (Frontend.calculateStockStatus p) = OPTIMAL).
Proof.
  intros H. specialize (H overdrawn (-5) eq_refl). vm_compute in H.
  by specialize (H eq_refl).
Qed.

(** C1, amended.  With [{priority, threshold}] the configuration the module
    resolves, and a threshold that is a number, the classifier returns URGENT,
    NORMAL or INFO when the stock is at most the threshold and the priority is
    high, medium or low; GOOD when the stock is above the threshold and at
    most twice the threshold; OPTIMAL when the stock is above the threshold
    and above twice the threshold, so for every stock of at least 0 that is
    above twice the threshold.  With a threshold that is [undefined] it
    returns OPTIMAL.  The controllers' copy follows the same table on the
    priority and the threshold it resolves itself. *)
Theorem calculateStockStatus_table (p : Item) :
  let cfg := Frontend.getProductPriority p in
  let result := si_status (Frontend.calculateStockStatus p) in
  let threshold' := resolve_chain (alertThreshold p) threshold (category p) 3 in
  let priority' := resolve_chain (item_priority p) priority (category p) "medium" in
  let result' := si_status (Backend.calculateStockStatus p) in
  (∀ t, cfg_threshold cfg = Some t →
     (stock p <= t → cfg_priority cfg = Some "high" → result = URGENT) ∧
     (stock p <= t → cfg_priority cfg = Some "medium" → result = NORMAL) ∧
     (stock p <= t → cfg_priority cfg = Some "low" → result = INFO) ∧
     (t < stock p <= 2 * t → result = GOOD) ∧
     (t < stock p → stock p > 2 * t → result = OPTIMAL) ∧
     (0 <= stock p → stock p > 2 * t → result = OPTIMAL)) ∧
  (cfg_threshold cfg = None → result = OPTIMAL) ∧
  (stock p <= threshold' → priority' = "high" → result' = URGENT) ∧
  (stock p <= threshold' → priority' = "medium" → result' = NORMAL) ∧
  (stock p <= threshold' → priority' = "low" → result' = INFO) ∧
  (threshold' < stock p <= 2 * threshold' → result' = GOOD) ∧
  (threshold' < stock p → stock p > 2 * threshold' → result' = OPTIMAL) ∧
  (0 <= stock p → stock p > 2 * threshold' → result' = OPTIMAL).
Proof.
  intros cfg result threshold' priority' result'. subst result result'.
  rewrite backend_calculateStockStatus_unfold, calculateStockStatus_unfold.
  fold cfg threshold' priority'. cbv zeta.
  split_and!.
  - intros t ->. split_and!.
    + intros Hle ->. by rewrite (proj2 (Z.leb_le _ _) Hle).
    + intros Hle ->. by rewrite (proj2 (Z.leb_le _ _) Hle).
    + intros Hle ->. by rewrite (proj2 (Z.leb_le _ _) Hle).
    + intros [Hlt Hle]. rewrite (proj2 (Z.leb_gt _ _) Hlt).
      by rewrite (proj2 (Z.leb_le (stock p) (t * 2)) ltac:(lia)).
    + intros Hlt Hgt. rewrite (proj2 (Z.leb_gt _ _) Hlt).
      by rewrite (proj2 (Z.leb_gt (stock p) (t * 2)) ltac:(lia)).
    + intros H0 Hgt. rewrite (proj2 (Z.leb_gt (stock p) t) ltac:(lia)).
      by rewrite (proj2 (Z.leb_gt (stock p) (t * 2)) ltac:(lia)).
  - by intros ->.
  - intros Hle ->. by rewrite (proj2 (Z.leb_le _ _) Hle).
  - intros Hle ->. by rewrite (proj2 (Z.leb_le _ _) Hle).
  - intros Hle ->. by rewrite (proj2 (Z.leb_le _ _) Hle).
  - intros [Hlt Hle]. rewrite (proj2 (Z.leb_gt _ _) Hlt).
    by rewrite (proj2 (Z.leb_le (stock p) (threshold' * 2)) ltac:(lia)).
  - intros Hlt Hgt. rewrite (proj2 (Z.leb_gt _ _) Hlt).
    by rewrite (proj2 (Z.leb_gt (stock p) (threshold' * 2)) ltac:(lia)).
  - intros H0 Hgt. rewrite (proj2 (Z.leb_gt (stock p) threshold') ltac:(lia)).
    by rewrite (proj2 (Z.leb_gt (stock p) (threshold' * 2)) ltac:(lia)).
Qed.

Lemma resolved_threshold_None (p : Item) :
  cfg_threshold (Frontend.getProductPriority p) = None ↔
  js_not (alertThreshold p) = true ∧ category p ∈ Object_prototype_members.
Proof.
  split.
  - intros Hnone. pose proof (resolved_threshold p) as H. rewrite Hnone in H. tauto.
  - intros [Hown Hc]. unfold Frontend.getProductPriority.
    category_cases (category p); try done.
    unfold js_not in Hown. unfold js_or_opt. cbn [cfg_threshold].
    destruct (alertThreshold p) as [x|]; [|done].
    apply negb_true_iff in Hown. by rewrite Hown.
Qed.

Lemma resolved_priority_None (p : Item) :
  cfg_priority (Frontend.getProductPriority p) = None ↔
  js_not (item_priority p) = true ∧ category p ∈ Object_prototype_members.
Proof.
  split.
  - intros Hnone. pose proof (resolved_priority p) as H. rewrite Hnone in H. tauto.
  - intros [Hown Hc]. unfold Frontend.getProductPriority.
    category_cases (category p); try done.
    unfold js_not in Hown. unfold js_or_opt. cbn [cfg_priority].
    destruct (item_priority p) as [x|]; [|done].
    apply negb_true_iff in Hown. by rewrite Hown.
Qed.

(** An item the module gives a status that needs attention has both fields
    resolved, and a stock of at most the threshold. *)
Lemma frontend_attention_resolved (p : Item) :
  needs_attention (si_status (Frontend.calculateStockStatus p)) = true →
  ∃ s t, Frontend.getProductPriority p = mkResolved (Some s) (Some t) ∧
         stock p <= t ∧
         switch_priority s = Some (Frontend.calculateStockStatus p).
Proof.
  rewrite calculateStockStatus_unfold. cbv zeta.
  destruct (Frontend.getProductPriority p) as [[s|] [t|]]; cbn; try done.
  - destruct (Z.leb_spec (stock p) t).
    + destruct (switch_priority s) as [r|] eqn:E; cbn; [|done].
      intros _. by exists s, t.
    + by destruct (stock p <=? _).
  - destruct (stock p <=? t); [done|]. by destruct (stock p <=? _).
Qed.

(** C9.  An own threshold of 0, or an own priority that is the empty text,
    is ignored, and no resolved threshold is 0, so the item classifies as if
    the field were unset.  For a category that is not the name of an
    inherited member what is resolved instead is the category's default, or
    that of [{medium, 3}] outside the table.  For a category that names an
    inherited member it is neither: the member is taken for the defaults and
    the field resolves to [undefined], in the browser module and in the alerts
    controller, as it does for the item of category [constructor] with
    threshold 0; the [?.] chain of [js/app.js] resolves [{medium, 3}] for the
    same item. *)
Theorem getProductPriority_falsy_own_value (p : Item) :
  let cfg := Frontend.getProductPriority p in
  let categoryDefault :=
    match Constants.DEFAULT_PRIORITIES !! category p with
    | Some d => d
    | None => mkConfig "medium" 3
    end in
  (category p ∉ Object_prototype_members →
     (alertThreshold p = Some 0 → cfg_threshold cfg = Some (threshold categoryDefault)) ∧
     (item_priority p = Some EmptyString →
        cfg_priority cfg = Some (priority categoryDefault))) ∧
  (category p ∈ Object_prototype_members →
     (alertThreshold p = Some 0 → cfg_threshold cfg = None) ∧
     (item_priority p = Some EmptyString → cfg_priority cfg = None)) ∧
  cfg_threshold cfg ≠ Some 0 ∧
  cfg_priority cfg ≠ Some EmptyString ∧
  (alertThreshold p = Some 0 →
     Frontend.calculateStockStatus p =
     Frontend.calculateStockStatus
       (mkItem (id p) (name p) (category p) (stock p) (item_priority p) None (updatedBy p))) ∧
  Backend.getProductPriority p = cfg ∧
  "constructor" ∈ Object_prototype_members ∧
  Frontend.getProductPriority kombucha_zero = mkResolved None None ∧
  Backend.getProductPriority kombucha_zero = mkResolved None None ∧
  Legacy.getProductPriority kombucha_zero = mkConfig "medium" 3.
Proof.
  intros cfg categoryDefault. split_and!.
  - intros Hc. subst cfg categoryDefault. unfold Frontend.getProductPriority.
    category_cases (category p); try done; rewrite Hentry;
      (split; intros ->; reflexivity).
  - intros Hc. subst cfg. unfold Frontend.getProductPriority.
    category_cases (category p); try done. split; intros ->; reflexivity.
  - pose proof (resolved_threshold p) as H. fold cfg in H.
    destruct (cfg_threshold cfg) as [t|]; [|done]. intros [= ->]. by destruct H.
  - pose proof (resolved_priority p) as H. fold cfg in H.
    destruct (cfg_priority cfg) as [s|]; [|done]. intros [= ->]. by destruct H.
  - intros H0. unfold Frontend.calculateStockStatus, Frontend.getProductPriority.
    rewrite H0. reflexivity.
  - reflexivity.
  - unfold Object_prototype_members. apply list_elem_of_here.
  - reflexivity.
  - reflexivity.
  - reflexivity.
Qed.

(** C10, as stated, fails: an item whose priority matches no case and whose
    stock lies between the threshold and twice the threshold is GOOD. *)
Lemma calculateStockStatus_unmatched_not_always_optimal :
  ¬ (∀ p : Item,
       let cfg := Frontend.getProductPriority p in
       cfg_priority cfg ≠ Some "high" → cfg_priority cfg ≠ Some "medium" →
       cfg_priority cfg ≠ Some "low" →
       Frontend.calculateStockStatus p = optimal_info).
Proof.
  intros H. specialize (H odd_priority_item). vm_compute in H.
  discriminate H; intros [=].
Qed.

(** The original application's copy returns nothing for such an item when
    its stock is at most the threshold. *)
Lemma legacy_calculateStockStatus_undefined :
  Legacy.calculateStockStatus odd_priority_low_stock = None.
Proof. reflexivity. Qed.

(** C10, amended.  The classifier always returns a record.  For an item
    whose resolved priority is none of high, medium and low, [undefined]
    included, it returns OPTIMAL with the message [Optimal: Well stocked] when
    the stock is at most the threshold (the switch is left without a return)
    and when it is above twice the threshold; between the two it returns GOOD.
    With a threshold that is [undefined] it returns OPTIMAL.  The
    controllers' copy does the same on the priority and the threshold it
    resolves itself. *)
Theorem calculateStockStatus_unmatched_priority (p : Item) :
  let cfg := Frontend.getProductPriority p in
  let threshold' := resolve_chain (alertThreshold p) threshold (category p) 3 in
  let priority' := resolve_chain (item_priority p) priority (category p) "medium" in
  (cfg_priority cfg ≠ Some "high" → cfg_priority cfg ≠ Some "medium" →
   cfg_priority cfg ≠ Some "low" →
     (∀ t, cfg_threshold cfg = Some t →
        (stock p <= t →
           Frontend.calculateStockStatus p
             = mkStockInfo OPTIMAL "Optimal: Well stocked") ∧
        (t * 2 < stock p →
           Frontend.calculateStockStatus p
             = mkStockInfo OPTIMAL "Optimal: Well stocked") ∧
        (t < stock p <= t * 2 →
           Frontend.calculateStockStatus p = mkStockInfo GOOD "Good: Stock adequate")) ∧
     (cfg_threshold cfg = None →
        Frontend.calculateStockStatus p = mkStockInfo OPTIMAL "Optimal: Well stocked")) ∧
  (priority' ≠ "high" → priority' ≠ "medium" → priority' ≠ "low" →
     (stock p <= threshold' →
        Backend.calculateStockStatus p = mkStockInfo OPTIMAL "Optimal: Well stocked") ∧
     (threshold' * 2 < stock p →
        Backend.calculateStockStatus p = mkStockInfo OPTIMAL "Optimal: Well stocked") ∧
     (threshold' < stock p <= threshold' * 2 →
        Backend.calculateStockStatus p = mkStockInfo GOOD "Good: Stock adequate")) ∧
  Frontend.calculateStockStatus odd_priority_low_stock
    = mkStockInfo OPTIMAL "Optimal: Well stocked" ∧
  Backend.calculateStockStatus odd_priority_low_stock
    = mkStockInfo OPTIMAL "Optimal: Well stocked".
Proof.
  intros cfg threshold' priority'.
  rewrite backend_calculateStockStatus_unfold, calculateStockStatus_unfold.
  fold cfg threshold' priority'. cbv zeta. split_and!.
  - intros Hh Hm Hl.
    assert (Hswitch : cfg_priority cfg ≫= switch_priority = None).
    { destruct (cfg_priority cfg) as [s|]; [|done]. cbn.
      apply switch_priority_unmatched; congruence. }
    rewrite Hswitch. change (default optimal_info None) with optimal_info.
    split; [|by intros ->]. intros t ->. split_and!.
    + intros Hle. by rewrite (proj2 (Z.leb_le _ _) Hle).
    + intros Hgt. destruct (stock p <=? t); [done|].
      by rewrite (proj2 (Z.leb_gt _ _) Hgt).
    + intros [Hlt Hle].
      by rewrite (proj2 (Z.leb_gt _ _) Hlt), (proj2 (Z.leb_le _ _) Hle).
  - intros Hh Hm Hl. rewrite (switch_priority_unmatched _ Hh Hm Hl).
    change (default optimal_info None) with optimal_info. split_and!.
    + intros Hle. by rewrite (proj2 (Z.leb_le _ _) Hle).
    + intros Hgt. destruct (stock p <=? threshold'); [done|].
      by rewrite (proj2 (Z.leb_gt _ _) Hgt).
    + intros [Hlt Hle].
      by rewrite (proj2 (Z.leb_gt _ _) Hlt), (proj2 (Z.leb_le _ _) Hle).
  - reflexivity.
  - reflexivity.
Qed.

(** ** Reorder quantity and days until empty *)

(** C4.  For a configuration whose threshold is a number the suggested
    reorder quantity is [max (10, threshold * 3 - stock)], in both copies, and
    so at least 10; with stock 20 and threshold 3 it is 10.  For a threshold
    that is [undefined] it is [NaN].  The module resolves such a threshold
    exactly for an item without a truthy threshold of its own whose category
    names an inherited member.  The alerts of the browser module never carry
    it, since such an item is OPTIMAL there; the controller classifies by the
    [?.] chain, so for a document of category [constructor] with stock 1
    [GET /api/alerts] answers with a NORMAL alert whose suggested quantity is
    [NaN], and so do the shopping list and the restock suggestion. *)
Theorem calculateSuggestedQuantity_spec (p : Item) (config : Config) :
  (∀ t, cfg_threshold config = Some t →
     Frontend.calculateSuggestedQuantity p config = Some (Z.max 10 (t * 3 - stock p)) ∧
     Backend.calculateSuggestedQuantity p config = Some (Z.max 10 (t * 3 - stock p)) ∧
     (stock p = 20 → t = 3 → Frontend.calculateSuggestedQuantity p config = Some 10)) ∧
  (∀ q, Frontend.calculateSuggestedQuantity p config = Some q → 10 <= q) ∧
  (∀ q, Backend.calculateSuggestedQuantity p config = Some q → 10 <= q) ∧
  (cfg_threshold config = None →
     Frontend.calculateSuggestedQuantity p config = None ∧
     Backend.calculateSuggestedQuantity p config = None) ∧
  (cfg_threshold (Frontend.getProductPriority p) = None ↔
     js_not (alertThreshold p) = true ∧ category p ∈ Object_prototype_members) ∧
  (∀ a, Frontend.alert_for p = Some a →
     ∃ t, cfg_threshold (Frontend.getProductPriority p) = Some t ∧
          Frontend.suggestedQuantity a = Some (Z.max 10 (t * 3 - stock p))) ∧
  Backend.status <$> Backend.alerts (Backend.getAlerts (Some kombucha_shelf))
    = [NORMAL] ∧
  Backend.suggestedQuantity <$> Backend.alerts (Backend.getAlerts (Some kombucha_shelf))
    = [None] ∧
  Backend.se_suggestedQuantity <$> (Backend.getShoppingList (Some kombucha_shelf)).2
    = [None] ∧
  Frontend.rs_suggestedQuantity
    <$> Frontend.getRestockSuggestion [kombucha] (Frontend.generateAlerts [kombucha]) "k"
    = Some None.
Proof.
  unfold Backend.calculateSuggestedQuantity, Frontend.calculateSuggestedQuantity.
  rewrite js_or_stock. cbv zeta. split_and!.
  - intros t ->. cbn. split_and!; [done..|]. intros -> ->. reflexivity.
  - destruct (cfg_threshold config) as [t|]; cbn; [|done]. intros q [= <-]. lia.
  - destruct (cfg_threshold config) as [t|]; cbn; [|done]. intros q [= <-]. lia.
  - by intros ->.
  - apply resolved_threshold_None.
  - intros a. unfold Frontend.alert_for.
    destruct (needs_attention _) eqn:E; [|done].
    apply frontend_attention_resolved in E as (s & t & Hcfg & _ & _).
    intros [= <-]. exists t. rewrite Hcfg. by cbn.
  - reflexivity.
  - reflexivity.
  - reflexivity.
  - reflexivity.
Qed.

Lemma Math_ceil_div_bounds (a b : Z) :
  0 < b → b * (Math_ceil_div a b - 1) < a <= b * Math_ceil_div a b.
Proof.
  intros Hb. unfold Math_ceil_div, Qceiling, Qfloor.
  destruct b as [|b|b]; try lia. simpl.
  rewrite Z.mul_1_r, Pos.mul_1_l.
  pose proof (Z.div_mod (- a) (Z.pos b) ltac:(lia)) as Hdm.
  pose proof (Z.mod_pos_bound (- a) (Z.pos b) ltac:(lia)) as Hmod.
  lia.
Qed.

Lemma Math_ceil_div_unique (a b c : Z) :
  0 < b → b * (c - 1) < a <= b * c → Math_ceil_div a b = c.
Proof.
  intros Hb Hc. pose proof (Math_ceil_div_bounds a b Hb) as Hd. nia.
Qed.

(** C5.  The estimate is [max (1, ceil (stock / 2))], where the ceiling [c]
    is the integer with [2 * (c - 1) < stock <= 2 * c]: 1 for stock 0 and 5
    for stock 9.  The alert of an item carries that value, and the
    controller's copy computes the same number. *)
Theorem estimateDaysUntilEmpty_spec (p : Item) :
  (∃ c, 2 * (c - 1) < stock p <= 2 * c ∧
        Frontend.estimateDaysUntilEmpty p = Z.max 1 c) ∧
  (stock p = 0 → Frontend.estimateDaysUntilEmpty p = 1) ∧
  (stock p = 9 → Frontend.estimateDaysUntilEmpty p = 5) ∧
  (∀ a, Frontend.alert_for p = Some a →
     Frontend.daysUntilEmpty a = Frontend.estimateDaysUntilEmpty p) ∧
  Backend.estimateDaysUntilEmpty p = Frontend.estimateDaysUntilEmpty p.
Proof.
  unfold Backend.estimateDaysUntilEmpty, Frontend.estimateDaysUntilEmpty.
  rewrite js_or_stock. cbv zeta. repeat split.
  - exists (Math_ceil_div (stock p) 2). split; [|done].
    apply Math_ceil_div_bounds. lia.
  - intros ->. reflexivity.
  - intros ->. reflexivity.
  - intros a. unfold Frontend.alert_for.
    destruct (needs_attention _); [|done]. by intros [= <-].
Qed.

(** ** Roles *)

Lemma eqb_or_true (s a b : string) :
  (String.eqb s a || String.eqb s b = true) ↔ s = a ∨ s = b.
Proof. rewrite orb_true_iff, !String.eqb_eq. done. Qed.

Lemma roles_of_known_users :
  Frontend.userRole (Frontend.onAuthStateChanged (Some (mkUser "staff@inventory.com")))
    = "staff" ∧
  Frontend.userRole (Frontend.onAuthStateChanged (Some (mkUser "manager@inventory.com")))
    = "manager" ∧
  Frontend.userRole (Frontend.onAuthStateChanged (Some (mkUser "admin@inventory.com")))
    = "admin" ∧
  Frontend.userRole (Frontend.onAuthStateChanged (Some (mkUser "someone@else.org")))
    = "staff".
Proof. repeat split; reflexivity. Qed.

(** C7.  [canModifyStock] holds exactly when a user is signed in, so for
    every authenticated user and not before sign-in; [canManageProducts]
    holds exactly for the roles manager and admin; [canManagePriorities] holds
    exactly for the role admin.  Hence a signed-in staff user may modify stock
    but not manage products, a manager may manage products but not priorities,
    and an admin may do all three.  The checks of the original application
    are the same. *)
Theorem permission_checks (authState : Frontend.AuthState) :
  (Frontend.canModifyStock authState = true
     ↔ Frontend.currentUser authState ≠ None) ∧
  (Frontend.canManageProducts authState = true
     ↔ Frontend.userRole authState = "manager" ∨ Frontend.userRole authState = "admin") ∧
  (Frontend.canManagePriorities authState = true
     ↔ Frontend.userRole authState = "admin") ∧
  (∀ u : User,
     let s := Frontend.onAuthStateChanged (Some u) in
     Frontend.canModifyStock s = true ∧
     (Frontend.userRole s = "staff" →
        Frontend.canManageProducts s = false ∧ Frontend.canManagePriorities s = false) ∧
     (Frontend.userRole s = "manager" →
        Frontend.canManageProducts s = true ∧ Frontend.canManagePriorities s = false) ∧
     (Frontend.userRole s = "admin" →
        Frontend.canManageProducts s = true ∧ Frontend.canManagePriorities s = true)) ∧
  Frontend.canModifyStock (Frontend.onAuthStateChanged None) = false ∧
  Frontend.canModifyStock Frontend.authState0 = false ∧
  (∀ g : Legacy.Globals,
     Legacy.currentUser g = Frontend.currentUser authState →
     Legacy.userRole g = Frontend.userRole authState →
     Legacy.canModifyStock g = Frontend.canModifyStock authState ∧
     Legacy.canManageProducts g = Frontend.canManageProducts authState ∧
     Legacy.canManagePriorities g = Frontend.canManagePriorities authState).
Proof.
  split_and!.
  - unfold Frontend.canModifyStock. by rewrite bool_decide_eq_true.
  - unfold Frontend.canManageProducts. rewrite eqb_or_true. tauto.
  - unfold Frontend.canManagePriorities. by rewrite String.eqb_eq.
  - intros u s. split_and!.
    + reflexivity.
    + unfold Frontend.canManageProducts, Frontend.canManagePriorities.
      by intros ->.
    + unfold Frontend.canManageProducts, Frontend.canManagePriorities.
      by intros ->.
    + unfold Frontend.canManageProducts, Frontend.canManagePriorities.
      by intros ->.
  - reflexivity.
  - reflexivity.
  - intros g Hu Hr.
    unfold Legacy.canModifyStock, Legacy.canManageProducts,
      Legacy.canManagePriorities, Frontend.canModifyStock,
      Frontend.canManageProducts, Frontend.canManagePriorities.
    by rewrite Hu, Hr.
Qed.

(** ** Display cap *)

(** C8.  The display view is the first 6 alerts, all of them when there are
    at most 6; the hidden count is [max (0, total - 6)], which is what the view
    leaves out; and the alert list in the state is the same after the call. *)
Theorem display_cap (alertState : Frontend.AlertState) :
  let shown := (Frontend.getDisplayAlerts alertState).1 in
  let after := (Frontend.getDisplayAlerts alertState).2 in
  let all := Frontend.alerts alertState in
  (∀ i : nat, shown !! i = if decide (i < 6)%nat then all !! i else None) ∧
  ((length all ≤ 6)%nat → shown = all) ∧
  length shown = Nat.min 6 (length all) ∧
  Frontend.getHiddenAlertCount alertState = Z.max 0 (Z.of_nat (length all) - 6) ∧
  Z.of_nat (length shown) + Frontend.getHiddenAlertCount alertState
    = Z.of_nat (length all) ∧
  after = alertState ∧
  Frontend.getAlerts after = all.
Proof.
  intros shown after all. subst shown after all.
  unfold Frontend.getDisplayAlerts, Frontend.getHiddenAlertCount,
    Frontend.getAlerts, Constants.MAX_VISIBLE_ALERTS. simpl fst. simpl snd.
  split_and!; try done.
  - intros i. rewrite lookup_take. done.
  - intros Hle. by apply take_ge.
  - apply length_take.
  - rewrite length_take. lia.
Qed.

(** ** Sorting alerts by urgency *)

Section SortByStatus.
Context {A : Type} (key : A → Status) (compareFn : A → A → option Z).

(** What both comparators compute on alerts. *)
Hypothesis compareFn_rank : ∀ a b,
  needs_attention (key a) = true → needs_attention (key b) = true →
  comes_before compareFn a b
    = (Constants.STATUS_ORDER (key b) <=? Constants.STATUS_ORDER (key a)).

Local Abbreviation only s l := (filter (λ a, key a = s) l).

Lemma sort_insert_front (x : A) (l : list A) :
  Forall (λ y, comes_before compareFn x y = true) l →
  sort_insert compareFn x l = x :: l.
Proof. intros Hl. destruct Hl as [|y r Hy _]; simpl; [done|]. by rewrite Hy. Qed.

Lemma sort_insert_skip (x : A) (l1 l2 : list A) :
  Forall (λ y, comes_before compareFn x y = false) l1 →
  sort_insert compareFn x (l1 ++ l2) = l1 ++ sort_insert compareFn x l2.
Proof.
  induction 1 as [|y r Hy _ IH]; simpl; [done|]. by rewrite Hy, IH.
Qed.

Lemma comes_before_only (x : A) (s : Status) (l : list A) (b : bool) :
  needs_attention (key x) = true → needs_attention s = true →
  (Constants.STATUS_ORDER s <=? Constants.STATUS_ORDER (key x)) = b →
  Forall (λ y, comes_before compareFn x y = b) (only s l).
Proof.
  intros Hx Hs Hb. apply Forall_forall. intros y [Hy _]%list_elem_of_filter.
  rewrite compareFn_rank; [by rewrite Hy|done|by rewrite Hy].
Qed.

Lemma only_cons (s : Status) (x : A) (l : list A) :
  only s (x :: l) = if decide (key x = s) then x :: only s l else only s l.
Proof. by rewrite filter_cons. Qed.

(** A stable sort by urgency lists the urgent alerts, then the normal
    ones, then the informational ones, each group in its original order. *)
Lemma Array_sort_by_status (l : list A) :
  Forall (λ a, needs_attention (key a) = true) l →
  Array_sort compareFn l = only URGENT l ++ only NORMAL l ++ only INFO l.
Proof.
  induction 1 as [|x l Hx Hl IH]; [done|].
  unfold Array_sort in *. simpl. rewrite IH. rewrite !only_cons.
  destruct (key x) eqn:Hk; try discriminate Hx; simpl.
  - apply sort_insert_front. rewrite !Forall_app. split_and!;
      apply comes_before_only; by rewrite ?Hk.
  - rewrite sort_insert_skip by (apply comes_before_only; by rewrite ?Hk).
    f_equal. apply sort_insert_front. rewrite !Forall_app. split_and!;
      apply comes_before_only; by rewrite ?Hk.
  - rewrite sort_insert_skip by (apply comes_before_only; by rewrite ?Hk).
    f_equal.
    rewrite sort_insert_skip by (apply comes_before_only; by rewrite ?Hk).
    f_equal. apply sort_insert_front.
    apply comes_before_only; by rewrite ?Hk.
Qed.

Lemma only_Permutation (l : list A) :
  Forall (λ a, needs_attention (key a) = true) l →
  only URGENT l ++ only NORMAL l ++ only INFO l ≡ₚ l.
Proof.
  induction 1 as [|x l Hx Hl IH]; [done|].
  rewrite !only_cons.
  destruct (key x) eqn:Hk; try discriminate Hx; simpl.
  - by rewrite IH.
  - rewrite <- Permutation_middle. by rewrite IH.
  - rewrite app_assoc, <- Permutation_middle, <- app_assoc. by rewrite IH.
Qed.

Lemma key_only (s : Status) (l : list A) :
  key <$> only s l = replicate (length (only s l)) s.
Proof.
  induction l as [|x l IH]; [done|]. rewrite only_cons.
  destruct (decide (key x = s)) as [Hk|]; [|done].
  rewrite fmap_cons, IH, Hk. done.
Qed.

End SortByStatus.

(** ** Alert generation *)

Lemma frontend_alert_for_Some (p : Item) (a : Frontend.Alert) :
  Frontend.alert_for p = Some a →
  Frontend.product a = p ∧
  Frontend.status a = si_status (Frontend.calculateStockStatus p) ∧
  needs_attention (Frontend.status a) = true.
Proof.
  unfold Frontend.alert_for.
  destruct (needs_attention _) eqn:E; [|done]. by intros [= <-].
Qed.

Lemma frontend_alert_for_None (p : Item) :
  Frontend.alert_for p = None ↔
  needs_attention (si_status (Frontend.calculateStockStatus p)) = false.
Proof. unfold Frontend.alert_for. by destruct (needs_attention _). Qed.

Lemma frontend_pushed_products (items : list Item) :
  Frontend.product <$> omap Frontend.alert_for items
  = filter (λ p, needs_attention (si_status (Frontend.calculateStockStatus p)) = true)
           items.
Proof.
  induction items as [|p items IH]; [done|].
  rewrite filter_cons. simpl.
  destruct (Frontend.alert_for p) as [a|] eqn:E.
  - apply frontend_alert_for_Some in E as (Hp & Hs & Hn).
    rewrite <- Hs, Hn. rewrite decide_True by done.
    rewrite fmap_cons, Hp. f_equal. apply IH.
  - apply frontend_alert_for_None in E. rewrite E.
    rewrite decide_False by done. apply IH.
Qed.

Lemma frontend_pushed_attention (items : list Item) :
  Forall (λ a, needs_attention (Frontend.status a) = true
               ∧ Frontend.status a
                 = si_status (Frontend.calculateStockStatus (Frontend.product a)))
         (omap Frontend.alert_for items).
Proof.
  apply Forall_forall. intros a (p & _ & Ha)%list_elem_of_omap.
  apply frontend_alert_for_Some in Ha as (-> & Hs & Hn). done.
Qed.

Lemma frontend_by_urgency_rank (a b : Frontend.Alert) :
  needs_attention (Frontend.status a) = true →
  needs_attention (Frontend.status b) = true →
  comes_before Frontend.by_urgency a b
    = (Constants.STATUS_ORDER (Frontend.status b)
         <=? Constants.STATUS_ORDER (Frontend.status a)).
Proof.
  unfold comes_before, Frontend.by_urgency.
  by destruct (Frontend.status a), (Frontend.status b).
Qed.

(** The generated list, group by group. *)
Lemma generateAlerts_groups (items : list Item) :
  let pushed := omap Frontend.alert_for items in
  Frontend.alerts (Frontend.generateAlerts items)
  = filter (λ a, Frontend.status a = URGENT) pushed
    ++ filter (λ a, Frontend.status a = NORMAL) pushed
    ++ filter (λ a, Frontend.status a = INFO) pushed.
Proof.
  intros pushed. unfold Frontend.generateAlerts. simpl.
  apply (Array_sort_by_status Frontend.status).
  - apply frontend_by_urgency_rank.
  - eapply Forall_impl; [apply frontend_pushed_attention|]. by intros a [? _].
Qed.

Lemma generateAlerts_Permutation (items : list Item) :
  Frontend.alerts (Frontend.generateAlerts items) ≡ₚ omap Frontend.alert_for items.
Proof.
  rewrite generateAlerts_groups. cbv zeta.
  apply (only_Permutation Frontend.status).
  eapply Forall_impl; [apply frontend_pushed_attention|]. by intros a [? _].
Qed.

Lemma generateAlerts_count (s : Status) (items : list Item) :
  Frontend.count_status s (Frontend.alerts (Frontend.generateAlerts items))
  = length (filter (λ a, Frontend.status a = s) (omap Frontend.alert_for items)).
Proof.
  unfold Frontend.count_status. by rewrite generateAlerts_Permutation.
Qed.

Lemma generateAlerts_runs (items : list Item) :
  let st := Frontend.generateAlerts items in
  Frontend.status <$> Frontend.alerts st
  = replicate (Frontend.urgentCount st) URGENT
    ++ replicate (Frontend.normalCount st) NORMAL
    ++ replicate (Frontend.infoCount st) INFO.
Proof.
  intros st.
  change (Frontend.urgentCount st)
    with (Frontend.count_status URGENT (Frontend.alerts (Frontend.generateAlerts items))).
  change (Frontend.normalCount st)
    with (Frontend.count_status NORMAL (Frontend.alerts (Frontend.generateAlerts items))).
  change (Frontend.infoCount st)
    with (Frontend.count_status INFO (Frontend.alerts (Frontend.generateAlerts items))).
  rewrite !generateAlerts_count. subst st.
  rewrite generateAlerts_groups. cbv zeta.
  by rewrite !fmap_app, !(key_only Frontend.status).
Qed.

Lemma filter_fmap_list {A B} (f : A → B) (P : B → Prop)
    `{∀ y, Decision (P y)} `{∀ x, Decision (P (f x))} (l : list A) :
  filter P (f <$> l) = f <$> filter (λ x, P (f x)) l.
Proof.
  induction l as [|x l IH]; [done|].
  rewrite fmap_cons, !filter_cons, IH.
  by repeat case_decide.
Qed.

Lemma runs_of_three (u n i : nat) :
  replicate u URGENT ++ replicate n NORMAL ++ replicate i INFO
    ≡ₚ [URGENT; NORMAL; INFO] →
  u = 1%nat ∧ n = 1%nat ∧ i = 1%nat.
Proof.
  intros Hp.
  pose proof (Permutation_length Hp) as Hlen.
  rewrite !length_app, !length_replicate in Hlen. simpl in Hlen.
  assert (Hu : URGENT ∈ replicate u URGENT ++ replicate n NORMAL ++ replicate i INFO)
    by (rewrite Hp, !elem_of_cons; tauto).
  assert (Hn : NORMAL ∈ replicate u URGENT ++ replicate n NORMAL ++ replicate i INFO)
    by (rewrite Hp, !elem_of_cons; tauto).
  assert (Hi : INFO ∈ replicate u URGENT ++ replicate n NORMAL ++ replicate i INFO)
    by (rewrite Hp, !elem_of_cons; tauto).
  rewrite !elem_of_app, !elem_of_replicate in Hu, Hn, Hi.
  assert (u ≠ 0%nat) by (destruct Hu as [[_ ?]|[[[=] _]|[[=] _]]]; done).
  assert (n ≠ 0%nat) by (destruct Hn as [[[=] _]|[[_ ?]|[[=] _]]]; done).
  assert (i ≠ 0%nat) by (destruct Hi as [[[=] _]|[[[=] _]|[_ ?]]]; done).
  lia.
Qed.

(** *** The controller's [getAlerts] *)

Lemma backend_alert_for_Some (doc : string * Item) (a : Backend.Alert) :
  Backend.alert_for doc = Some a →
  Backend.alert_id a = doc.1 ∧
  Backend.status a = si_status (Backend.calculateStockStatus doc.2) ∧
  needs_attention (Backend.status a) = true ∧
  Backend.message a = si_message (Backend.calculateStockStatus doc.2) ∧
  Backend.product a
    = Backend.mkSummary doc.1 (name doc.2) (category doc.2) (stock doc.2).
Proof.
  unfold Backend.alert_for.
  destruct (needs_attention _) eqn:E; [|done]. by intros [= <-].
Qed.

Lemma backend_alert_for_is_Some (doc : string * Item) :
  is_Some (Backend.alert_for doc) ↔
  si_status (Backend.calculateStockStatus doc.2) ∈ [URGENT; NORMAL; INFO].
Proof.
  unfold Backend.alert_for.
  unfold needs_attention. case_bool_decide as Hd.
  - split; [done|]. by eexists.
  - split; [by intros [? [=]]|done].
Qed.

Lemma backend_by_urgency_rank (a b : Backend.Alert) :
  needs_attention (Backend.status a) = true →
  needs_attention (Backend.status b) = true →
  comes_before Backend.by_urgency a b
    = (Constants.STATUS_ORDER (Backend.status b)
         <=? Constants.STATUS_ORDER (Backend.status a)).
Proof.
  unfold comes_before, Backend.by_urgency.
  by destruct (Backend.status a), (Backend.status b).
Qed.

Lemma backend_pushed_attention (snapshot : list (string * Item)) :
  Forall (λ a, needs_attention (Backend.status a) = true)
         (omap Backend.alert_for snapshot).
Proof.
  apply Forall_forall. intros a (doc & _ & Ha)%list_elem_of_omap.
  by apply backend_alert_for_Some in Ha as (_ & _ & Hn & _).
Qed.

Lemma backend_pushed_ids_NoDup (snapshot : list (string * Item)) :
  NoDup snapshot.*1 → NoDup (Backend.alert_id <$> omap Backend.alert_for snapshot).
Proof.
  induction snapshot as [|doc l IH]; [constructor|].
  rewrite fmap_cons, NoDup_cons. intros [Hnotin Hl]. simpl.
  destruct (Backend.alert_for doc) as [a|] eqn:E; [|by apply IH].
  rewrite fmap_cons. apply NoDup_cons. split; [|by apply IH].
  apply backend_alert_for_Some in E as (Hid & _). rewrite Hid.
  intros (b & Hb & (doc' & Hdoc' & Hb')%list_elem_of_omap)%list_elem_of_fmap.
  apply backend_alert_for_Some in Hb' as (Hid' & _).
  apply Hnotin. apply list_elem_of_fmap. exists doc'. split; [congruence|done].
Qed.

(** The statuses pushed are the classifications that need attention, in
    the order of the documents. *)
Lemma backend_pushed_statuses (snapshot : list (string * Item)) :
  Backend.status <$> omap Backend.alert_for snapshot
  = filter (λ s, s ∈ [URGENT; NORMAL; INFO])
      ((λ doc, si_status (Backend.calculateStockStatus doc.2)) <$> snapshot).
Proof.
  induction snapshot as [|doc l IH]; [done|].
  rewrite fmap_cons, filter_cons. simpl.
  destruct (Backend.alert_for doc) as [a|] eqn:E.
  - pose proof (proj1 (backend_alert_for_is_Some doc) ltac:(by eexists)) as Hin.
    apply backend_alert_for_Some in E as (_ & Hs & _).
    rewrite decide_True by done. rewrite fmap_cons, Hs. f_equal. apply IH.
  - rewrite decide_False; [apply IH|].
    intros Hin. apply backend_alert_for_is_Some in Hin as [a Ha]. congruence.
Qed.

(** [GET /api/alerts] answers with one alert per stored document whose
    status needs attention, which carries that status and the document's
    name, in runs of URGENT, NORMAL and INFO. *)
Lemma backend_getAlerts_spec (docs : gmap string Item) :
  let data := Backend.getAlerts (Some docs) in
  let classified item := si_status (Backend.calculateStockStatus item) in
  (∀ k, k ∈ Backend.alert_id <$> Backend.alerts data ↔
        ∃ item, docs !! k = Some item ∧ classified item ∈ [URGENT; NORMAL; INFO]) ∧
  NoDup (Backend.alert_id <$> Backend.alerts data) ∧
  Forall (λ a, ∃ item, docs !! Backend.alert_id a = Some item ∧
                       Backend.status a = classified item ∧
                       Backend.ps_name (Backend.product a) = name item)
         (Backend.alerts data) ∧
  Backend.status <$> Backend.alerts data
    = replicate (Backend.urgent (Backend.counts data)) URGENT
      ++ replicate (Backend.normal (Backend.counts data)) NORMAL
      ++ replicate (Backend.info (Backend.counts data)) INFO ∧
  Backend.status <$> Backend.alerts data
    ≡ₚ filter (λ s, s ∈ [URGENT; NORMAL; INFO]) (classified <$> (map_to_list docs).*2) ∧
  Backend.total data = Some (length (Backend.alerts data)).
Proof.
  intros data classified.
  set (pushed := omap Backend.alert_for (map_to_list docs)).
  assert (Hgroups :
    Backend.alerts data
    = filter (λ a, Backend.status a = URGENT) pushed
      ++ filter (λ a, Backend.status a = NORMAL) pushed
      ++ filter (λ a, Backend.status a = INFO) pushed).
  { apply (Array_sort_by_status Backend.status).
    - apply backend_by_urgency_rank.
    - apply backend_pushed_attention. }
  assert (Hperm : Backend.alerts data ≡ₚ pushed).
  { rewrite Hgroups. apply (only_Permutation Backend.status).
    apply backend_pushed_attention. }
  split_and!.
  - intros k. rewrite Hperm. subst pushed. rewrite list_elem_of_fmap. split.
    + intros (a & -> & (doc & Hdoc & Ha)%list_elem_of_omap).
      exists doc.2. split.
      * apply backend_alert_for_Some in Ha as (-> & _).
        by apply elem_of_map_to_list'.
      * apply backend_alert_for_is_Some. by eexists.
    + intros (item & Hk & Hs).
      destruct (proj2 (backend_alert_for_is_Some (k, item)) Hs) as [a Ha].
      exists a. split.
      * by apply backend_alert_for_Some in Ha as (-> & _).
      * apply list_elem_of_omap. exists (k, item). split; [|done].
        by apply elem_of_map_to_list.
  - rewrite Hperm. apply backend_pushed_ids_NoDup, NoDup_fst_map_to_list.
  - rewrite Hperm. apply Forall_forall.
    intros a (doc & Hdoc & Ha)%list_elem_of_omap.
    apply backend_alert_for_Some in Ha as (Hid & Hs & _ & _ & Hp).
    exists doc.2. rewrite Hid, Hp. split_and!; try done.
    by apply elem_of_map_to_list'.
  - change (Backend.urgent (Backend.counts data))
      with (Backend.count_status URGENT (Backend.alerts data)).
    change (Backend.normal (Backend.counts data))
      with (Backend.count_status NORMAL (Backend.alerts data)).
    change (Backend.info (Backend.counts data))
      with (Backend.count_status INFO (Backend.alerts data)).
    assert (Hcount : ∀ s, Backend.count_status s (Backend.alerts data)
                          = length (filter (λ a, Backend.status a = s) pushed)).
    { intros s. unfold Backend.count_status. by rewrite Hperm. }
    rewrite !Hcount, Hgroups.
    by rewrite !fmap_app, !(key_only Backend.status).
  - rewrite Hperm. subst pushed. rewrite backend_pushed_statuses.
    by rewrite <- list_fmap_compose.
  - reflexivity.
Qed.

(** C3.  The generated alerts hold exactly one alert for each item whose
    status is URGENT, NORMAL or INFO, with that status, and none for a GOOD or
    OPTIMAL item; the list is a run of URGENT alerts, then a run of NORMAL
    alerts, then a run of INFO alerts, of the lengths the counters record.
    A batch with one item of each status gives three alerts, urgent, normal,
    informational in that order; for the sample batch they are the alerts for
    Vodka, Wine and Cola.  The same holds of the alerts [GET /api/alerts]
    answers with, for the stored documents and the status the controller
    gives them: one alert under the key of each document that needs
    attention, with the document's status and name, in the same three runs. *)
Theorem generateAlerts_spec (inventoryItems : list Item) :
  let st := Frontend.generateAlerts inventoryItems in
  let classified p := si_status (Frontend.calculateStockStatus p) in
  Frontend.product <$> Frontend.alerts st
    ≡ₚ filter (λ p, classified p ∈ [URGENT; NORMAL; INFO]) inventoryItems ∧
  Forall (λ a, Frontend.status a = classified (Frontend.product a))
         (Frontend.alerts st) ∧
  Frontend.status <$> Frontend.alerts st
    = replicate (Frontend.urgentCount st) URGENT
      ++ replicate (Frontend.normalCount st) NORMAL
      ++ replicate (Frontend.infoCount st) INFO ∧
  (classified <$> inventoryItems ≡ₚ [URGENT; NORMAL; INFO; GOOD; OPTIMAL] →
   Frontend.status <$> Frontend.alerts st = [URGENT; NORMAL; INFO]) ∧
  (name ∘ Frontend.product) <$> Frontend.alerts (Frontend.generateAlerts mixed_batch)
    = ["Vodka"; "Wine"; "Cola"] ∧
  (∀ docs : gmap string Item,
     let data := Backend.getAlerts (Some docs) in
     let classified' item := si_status (Backend.calculateStockStatus item) in
     (∀ k, k ∈ Backend.alert_id <$> Backend.alerts data ↔
           ∃ item, docs !! k = Some item ∧
                   classified' item ∈ [URGENT; NORMAL; INFO]) ∧
     NoDup (Backend.alert_id <$> Backend.alerts data) ∧
     Forall (λ a, ∃ item, docs !! Backend.alert_id a = Some item ∧
                          Backend.status a = classified' item ∧
                          Backend.ps_name (Backend.product a) = name item)
            (Backend.alerts data) ∧
     Backend.status <$> Backend.alerts data
       = replicate (Backend.urgent (Backend.counts data)) URGENT
         ++ replicate (Backend.normal (Backend.counts data)) NORMAL
         ++ replicate (Backend.info (Backend.counts data)) INFO ∧
     (classified' <$> (map_to_list docs).*2
        ≡ₚ [URGENT; NORMAL; INFO; GOOD; OPTIMAL] →
      Backend.status <$> Backend.alerts data = [URGENT; NORMAL; INFO])) ∧
  (Backend.ps_name ∘ Backend.product)
    <$> Backend.alerts (Backend.getAlerts (Some mixed_collection))
    = ["Vodka"; "Wine"; "Cola"] ∧
  Backend.status <$> Backend.alerts (Backend.getAlerts (Some mixed_collection))
    = [URGENT; NORMAL; INFO].
Proof.
  intros st classified.
  assert (Hproducts :
    Frontend.product <$> Frontend.alerts st
      ≡ₚ filter (λ p, classified p ∈ [URGENT; NORMAL; INFO]) inventoryItems).
  { subst st. rewrite generateAlerts_Permutation, frontend_pushed_products.
    apply reflexive_eq, list_filter_iff. intros p. subst classified.
    unfold needs_attention. by rewrite bool_decide_eq_true. }
  assert (Hstatus :
    Forall (λ a, Frontend.status a = classified (Frontend.product a))
           (Frontend.alerts st)).
  { subst st. rewrite generateAlerts_Permutation.
    eapply Forall_impl; [apply frontend_pushed_attention|]. by intros a [_ ?]. }
  split_and!; try done.
  - apply generateAlerts_runs.
  - intros Hbatch.
    assert (Hperm : Frontend.status <$> Frontend.alerts st ≡ₚ [URGENT; NORMAL; INFO]).
    { transitivity (classified <$> (Frontend.product <$> Frontend.alerts st)).
      - apply reflexive_eq. rewrite <- list_fmap_compose.
        by apply Forall_fmap_ext_1.
      - rewrite Hproducts.
        transitivity (filter (λ s, s ∈ [URGENT; NORMAL; INFO])
                             (classified <$> inventoryItems)).
        + apply reflexive_eq. symmetry.
          apply (filter_fmap_list classified (λ s, s ∈ [URGENT; NORMAL; INFO])).
        + rewrite Hbatch. reflexivity. }
    pose proof (generateAlerts_runs inventoryItems) as Hruns.
    fold st in Hruns. cbv zeta in Hruns. rewrite Hruns in Hperm |- *.
    apply runs_of_three in Hperm as (-> & -> & ->). reflexivity.
  - intros docs data classified'.
    destruct (backend_getAlerts_spec docs)
      as (Hids & Hnodup & Hall & Hruns & Hperm & _).
    fold data in Hids, Hnodup, Hall, Hruns, Hperm.
    split_and!; try done.
    intros Hbatch. fold classified' in Hperm. rewrite Hbatch in Hperm.
    change (filter _ [URGENT; NORMAL; INFO; GOOD; OPTIMAL])
      with [URGENT; NORMAL; INFO] in Hperm.
    rewrite Hruns in Hperm |- *.
    apply runs_of_three in Hperm as (-> & -> & ->). reflexivity.
Qed.

(** ** CSV export *)

Lemma string_app_assoc (a b c : string) : (a +:+ b) +:+ c = a +:+ b +:+ c.
Proof.
  induction a as [|x a IH]; [done|].
  change (String x ((a +:+ b) +:+ c) = String x (a +:+ b +:+ c)).
  by rewrite IH.
Qed.

Lemma string_app_nil_r (a : string) : a +:+ EmptyString = a.
Proof.
  induction a as [|x a IH]; [done|].
  change (String x (a +:+ EmptyString) = String x a). by rewrite IH.
Qed.

Lemma prefix_app (s t : string) : String.prefix s (s +:+ t) = true.
Proof.
  induction s as [|x s IH]; [by destruct t|].
  change (String.prefix (String x s) (String x (s +:+ t)) = true). simpl.
  destruct (ascii_dec x x); [done|congruence].
Qed.

Lemma includes_unfold (hay needle : string) :
  includes hay needle
  = String.prefix needle hay ||
    match hay with
    | EmptyString => false
    | String _ r => includes r needle
    end.
Proof. by destruct hay. Qed.

Lemma includes_here (s t : string) : includes (s +:+ t) s = true.
Proof. by rewrite includes_unfold, prefix_app. Qed.

Lemma includes_app (pre s post : string) : includes (pre +:+ s +:+ post) s = true.
Proof.
  induction pre as [|x pre IH]; [exact (includes_here s post)|].
  change (includes (String x (pre +:+ s +:+ post)) s = true).
  rewrite includes_unfold, IH. apply orb_true_r.
Qed.







(** ** Stock updates *)

Lemma updateDoc_stock_nonneg (db db' : gmap string Item) (itemId who : string)
    (newStock : Z) :
  stock_nonneg db → 0 <= newStock →
  updateDoc_stock db itemId newStock who = Some db' → stock_nonneg db'.
Proof.
  unfold updateDoc_stock, stock_nonneg. intros Hdb Hnew.
  destruct (db !! itemId) as [it|]; [|done]. intros [= <-].
  by apply map_Forall_insert_2.
Qed.

(** The browser module refuses every negative stock value and changes
    nothing then. *)
Lemma frontend_updateStock_rejects_negative (db : gmap string Item)
    (itemId who : string) (newStock : Z) :
  newStock < 0 →
  Frontend.updateStock db itemId newStock who
  = (db, Frontend.mkResult false (Some "Cannot have negative stock!")).
Proof.
  intros Hneg. unfold Frontend.updateStock.
  by rewrite (proj2 (Z.ltb_lt _ _) Hneg).
Qed.

Lemma frontend_updateStock_nonneg (db : gmap string Item)
    (itemId who : string) (newStock : Z) :
  stock_nonneg db → stock_nonneg (Frontend.updateStock db itemId newStock who).1.
Proof.
  intros Hdb. unfold Frontend.updateStock.
  destruct (Z.ltb_spec newStock 0) as [|Hnew]; [done|].
  destruct (updateDoc_stock _ _ _ _) as [db'|] eqn:E; [|done].
  by apply (updateDoc_stock_nonneg db db' itemId who newStock).
Qed.

(** So do the stock buttons of the browser application, whatever is typed. *)
Lemma frontend_quickUpdate_nonneg (authState : Frontend.AuthState)
    (db : gmap string Item) (itemId action : string) (currentStock : Z)
    (entered : option Z) :
  stock_nonneg db →
  stock_nonneg (Frontend.quickUpdate authState db itemId currentStock action entered).1.
Proof.
  intros Hdb. unfold Frontend.quickUpdate.
  destruct (negb _); [done|].
  destruct (String.eqb action "add").
  - pose proof (frontend_updateStock_nonneg db itemId
      (from_option email EmptyString (Frontend.currentUser authState))
      (currentStock + js_or entered 1) Hdb) as Hu.
    destruct (Frontend.updateStock _ _ _ _) as [db' r]. by destruct (Frontend.success r).
  - destruct (_ <? 0); [done|].
    pose proof (frontend_updateStock_nonneg db itemId
      (from_option email EmptyString (Frontend.currentUser authState))
      (currentStock - js_or entered 1) Hdb) as Hu.
    destruct (Frontend.updateStock _ _ _ _) as [db' r]. by destruct (Frontend.success r).
Qed.

(** The controller refuses a subtraction of more than the current stock
    with status 400 and leaves the collection as it was. *)
Lemma backend_updateStock_rejects_oversubtract (docs : gmap string Item)
    (req : Backend.StockRequest) (doc : Item) (quantity : Backend.Quantity) :
  docs !! Backend.rq_id req = Some doc →
  Backend.rq_quantity req = Some quantity →
  Backend.rq_action req = Some "subtract" →
  stock doc < Backend.parseInt quantity →
  Backend.updateStock (Some docs) req
  = (Some docs, inl (Backend.mkApiError 400 "Cannot have negative stock")).
Proof.
  intros Hdoc Hq Ha Hlt. unfold Backend.updateStock.
  rewrite Hq, Ha, Hdoc, js_or_stock. simpl.
  by rewrite (proj2 (Z.ltb_lt (stock doc - Backend.parseInt quantity) 0) ltac:(lia)).
Qed.

(** Every failed request leaves the collection as it was. *)
Lemma backend_updateStock_error_unchanged (db : option (gmap string Item))
    (req : Backend.StockRequest) (e : Backend.ApiError) :
  (Backend.updateStock db req).2 = inl e → (Backend.updateStock db req).1 = db.
Proof.
  unfold Backend.updateStock.
  destruct db as [docs|]; [|done].
  destruct (Backend.rq_quantity req) as [q|]; [|done].
  destruct (js_not _); [done|].
  destruct (docs !! _) as [doc|]; [|done].
  destruct (String.eqb _ "add"); [done|].
  destruct (String.eqb _ "subtract"); [|done].
  by destruct (_ <? 0).
Qed.

(** With a quantity that is not negative the controller keeps every stock
    at 0 or above. *)
Lemma backend_updateStock_nonneg (docs docs' : gmap string Item)
    (req : Backend.StockRequest) (quantity : Backend.Quantity) :
  stock_nonneg docs →
  Backend.rq_quantity req = Some quantity → 0 <= Backend.parseInt quantity →
  (Backend.updateStock (Some docs) req).1 = Some docs' →
  stock_nonneg docs'.
Proof.
  intros Hdocs Hq Hpos. unfold Backend.updateStock. rewrite Hq.
  destruct (js_not _); [by intros [= <-]|].
  destruct (docs !! _) as [doc|] eqn:Hdoc; [|by intros [= <-]].
  rewrite js_or_stock.
  pose proof (Hdocs _ _ Hdoc) as Hdoc0. simpl in Hdoc0.
  destruct (String.eqb _ "add").
  - intros [= <-]. apply map_Forall_insert_2; [simpl; lia|done].
  - destruct (String.eqb _ "subtract"); [|by intros [= <-]].
    destruct (Z.ltb_spec (stock doc - Backend.parseInt quantity) 0);
      [by intros [= <-]|].
    intros [= <-]. apply map_Forall_insert_2; [simpl; lia|done].
Qed.

(** C2 fails on the controller: adding a negative quantity is accepted and
    stores a negative stock.  A bottle with 3 in stock and the request
    [{quantity: -5, action: 'add'}] end with stock -2, answered as a success,
    while subtracting 5 from the same bottle is refused and changes nothing.
    The buttons of the original application store the same -2. *)
Theorem backend_updateStock_add_negative_quantity :
  stock_nonneg one_bottle ∧
  (∃ docs' resp,
     Backend.updateStock (Some one_bottle) add_minus_five = (Some docs', inr resp) ∧
     stock <$> docs' !! "v" = Some (-2) ∧
     Backend.newStock (Backend.sr_data resp) = -2 ∧
     ¬ stock_nonneg docs') ∧
  Backend.updateStock (Some one_bottle) subtract_five
    = (Some one_bottle, inl (Backend.mkApiError 400 "Cannot have negative stock")) ∧
  (∀ g, Legacy.canModifyStock g = true →
     stock <$> (Legacy.quickUpdate g one_bottle "v" 3 "add" (Some (-5))).1 !! "v"
       = Some (-2)) ∧
  (∀ authState,
     (Frontend.quickUpdate authState one_bottle "v" 3 "add" (Some (-5))).1 = one_bottle).
Proof.
  split_and!.
  - unfold one_bottle. apply map_Forall_singleton. simpl. lia.
  - eexists _, _. split; [reflexivity|]. split_and!; try reflexivity.
    intros Hall.
    specialize (Hall "v" _ eq_refl). simpl in Hall. lia.
  - reflexivity.
  - intros g Hg. unfold Legacy.quickUpdate. rewrite Hg. reflexivity.
  - intros authState. unfold Frontend.quickUpdate.
    destruct (negb _); reflexivity.
Qed.

(** *** The controller's [exportAlerts] *)

Lemma foldl_append_acc {X} (f : X → string) (acc : string) (l : list X) :
  foldl (λ c d, c +:+ f d) acc l
  = acc +:+ foldl (λ c d, c +:+ f d) EmptyString l.
Proof.
  revert acc. induction l as [|x l IH]; intros acc.
  - simpl. by rewrite string_app_nil_r.
  - simpl. rewrite (IH (acc +:+ f x)), (IH (EmptyString +:+ f x)).
    by rewrite string_app_assoc.
Qed.

Lemma foldl_append_member {X} (f : X → string) (acc : string) (l : list X) (x : X) :
  x ∈ l → ∃ pre post, foldl (λ c d, c +:+ f d) acc l = pre +:+ f x +:+ post.
Proof.
  revert acc. induction l as [|y l IH]; intros acc; [by intros ?%elem_of_nil|].
  intros [->|Hin]%elem_of_cons.
  - exists acc, (foldl (λ c d, c +:+ f d) EmptyString l). simpl.
    by rewrite foldl_append_acc, string_app_assoc.
  - simpl. by apply IH.
Qed.

Lemma backend_csv_line_starts (item : Item) :
  si_status (Backend.calculateStockStatus item) ∈ [URGENT; NORMAL; INFO] →
  ∃ rest, Backend.csv_line item
          = (dquote +:+ name item +:+ dquote +:+ ",") +:+ rest.
Proof.
  intros Hs. unfold Backend.csv_line, needs_attention.
  rewrite bool_decide_eq_true_2 by done.
  eexists. rewrite !string_app_assoc. reflexivity.
Qed.

(** The controller's export quotes the name the same way: verbatim between
    double quotes. *)
Lemma backend_exportAlerts_quotes_name (docs : gmap string Item)
    (k : string) (item : Item) :
  docs !! k = Some item →
  si_status (Backend.calculateStockStatus item) ∈ [URGENT; NORMAL; INFO] →
  includes (Backend.exportAlerts (Some docs))
           (dquote +:+ name item +:+ dquote +:+ ",") = true.
Proof.
  intros Hk Hs. unfold Backend.exportAlerts.
  destruct (foldl_append_member (λ doc : string * Item, Backend.csv_line doc.2)
              ("Product,Category,Current Stock,Threshold,Priority,Status,Message,Days Until Empty"
                 +:+ Backend.newline)
              (map_to_list docs) (k, item)) as (pre & post & ->).
  { by apply elem_of_map_to_list. }
  destruct (backend_csv_line_starts item Hs) as [rest Hrest].
  simpl. rewrite Hrest, string_app_assoc. apply includes_app.
Qed.

(** * Further properties of the modules *)

(** ** [Array_sort] *)

Section SortFacts.
Context {A : Type} (compareFn : A → A → option Z).

Lemma sort_insert_Permutation (x : A) (l : list A) :
  sort_insert compareFn x l ≡ₚ x :: l.
Proof.
  induction l as [|y r IH]; simpl; [done|].
  destruct (comes_before compareFn x y); [done|].
  rewrite IH. apply Permutation_swap.
Qed.

(** Sorting neither drops nor duplicates an element. *)
Lemma Array_sort_Permutation (l : list A) : Array_sort compareFn l ≡ₚ l.
Proof.
  induction l as [|x l IH]; [done|].
  unfold Array_sort in *. simpl. by rewrite sort_insert_Permutation, IH.
Qed.

(** A comparator that never puts a lower rank first sorts by rank. *)
Context (rank : A → Z).
Hypothesis before_rank : ∀ x y, comes_before compareFn x y = true → rank y <= rank x.
Hypothesis after_rank : ∀ x y, comes_before compareFn x y = false → rank x <= rank y.

Lemma sort_insert_sorted (x : A) (l : list A) :
  StronglySorted (λ a b, rank b <= rank a) l →
  StronglySorted (λ a b, rank b <= rank a) (sort_insert compareFn x l).
Proof.
  induction 1 as [|y r Hr IH Hy]; simpl.
  - repeat constructor.
  - destruct (comes_before compareFn x y) eqn:E.
    + constructor; [by constructor|].
      apply before_rank in E. constructor; [done|].
      eapply Forall_impl; [exact Hy|]. simpl. intros z Hz. lia.
    + constructor; [done|].
      apply after_rank in E.
      rewrite sort_insert_Permutation. by constructor.
Qed.

Lemma Array_sort_sorted (l : list A) :
  StronglySorted (λ a b, rank b <= rank a) (Array_sort compareFn l).
Proof.
  induction l as [|x l IH]; [constructor|].
  unfold Array_sort in *. simpl. by apply sort_insert_sorted.
Qed.
End SortFacts.

(** ** Counts of the generated alerts *)

Lemma frontend_pushed_status_count (s : Status) (items : list Item) :
  s ∈ [URGENT; NORMAL; INFO] →
  length (filter (λ a, Frontend.status a = s) (omap Frontend.alert_for items))
  = length (filter (λ p, si_status (Frontend.calculateStockStatus p) = s) items).
Proof.
  intros Hs. induction items as [|p items IH]; [done|].
  change (omap Frontend.alert_for (p :: items))
    with (match Frontend.alert_for p with
          | Some a => a :: omap Frontend.alert_for items
          | None => omap Frontend.alert_for items
          end).
  rewrite (filter_cons _ p items).
  destruct (Frontend.alert_for p) as [a|] eqn:E.
  - apply frontend_alert_for_Some in E as (Hp & Hst & Hn).
    rewrite filter_cons, Hst.
    case_decide; simpl; by rewrite IH.
  - apply frontend_alert_for_None in E.
    rewrite decide_False; [done|].
    intros Hc. rewrite Hc in E. unfold needs_attention in E.
    by rewrite bool_decide_eq_true_2 in E.
Qed.

(** X1.  After [generateAlerts] the three counters add up to the total, the
    total is the number of items that need attention, and each counter is
    the number of items of its status. *)
Theorem getAlertCounts_partition (inventoryItems : list Item) :
  let counts := Frontend.getAlertCounts (Frontend.generateAlerts inventoryItems) in
  let classified p := si_status (Frontend.calculateStockStatus p) in
  (Frontend.c_urgent counts + Frontend.c_normal counts + Frontend.c_info counts
   = Frontend.c_total counts)%nat ∧
  Frontend.c_total counts
    = length (filter (λ p, classified p ∈ [URGENT; NORMAL; INFO]) inventoryItems) ∧
  Frontend.c_urgent counts
    = length (filter (λ p, classified p = URGENT) inventoryItems) ∧
  Frontend.c_normal counts
    = length (filter (λ p, classified p = NORMAL) inventoryItems) ∧
  Frontend.c_info counts
    = length (filter (λ p, classified p = INFO) inventoryItems).
Proof.
  intros counts classified.
  pose proof (generateAlerts_runs inventoryItems) as Hruns. cbv zeta in Hruns.
  apply (f_equal length) in Hruns.
  rewrite length_fmap, !length_app, !length_replicate in Hruns.
  assert (Hperm : length (Frontend.alerts (Frontend.generateAlerts inventoryItems))
                  = length (filter (λ p, classified p ∈ [URGENT; NORMAL; INFO])
                              inventoryItems)).
  { rewrite generateAlerts_Permutation.
    rewrite <- (length_fmap Frontend.product), frontend_pushed_products.
    f_equal. apply list_filter_iff. intros p. subst classified.
    unfold needs_attention. by rewrite bool_decide_eq_true. }
  subst counts. unfold Frontend.getAlertCounts.
  cbn [Frontend.c_urgent Frontend.c_normal Frontend.c_info Frontend.c_total].
  change (Frontend.urgentCount (Frontend.generateAlerts inventoryItems))
    with (Frontend.count_status URGENT
            (Frontend.alerts (Frontend.generateAlerts inventoryItems))) in *.
  change (Frontend.normalCount (Frontend.generateAlerts inventoryItems))
    with (Frontend.count_status NORMAL
            (Frontend.alerts (Frontend.generateAlerts inventoryItems))) in *.
  change (Frontend.infoCount (Frontend.generateAlerts inventoryItems))
    with (Frontend.count_status INFO
            (Frontend.alerts (Frontend.generateAlerts inventoryItems))) in *.
  split_and!.
  - lia.
  - exact Hperm.
  - rewrite generateAlerts_count. apply frontend_pushed_status_count.
    rewrite !elem_of_cons. tauto.
  - rewrite generateAlerts_count. apply frontend_pushed_status_count.
    rewrite !elem_of_cons. tauto.
  - rewrite generateAlerts_count. apply frontend_pushed_status_count.
    rewrite !elem_of_cons. tauto.
Qed.

(** ** What the display shows *)

Lemma same_status_sorted {A} (key : A → Status) (s : Status) (l : list A) :
  StronglySorted
    (λ a b, Constants.STATUS_ORDER (key b) <= Constants.STATUS_ORDER (key a))
    (filter (λ a, key a = s) l).
Proof.
  induction l as [|x l IH]; [constructor|].
  rewrite filter_cons. case_decide as Hx; [|done].
  constructor; [done|].
  apply Forall_forall. intros y [Hy _]%list_elem_of_filter. rewrite Hx, Hy. lia.
Qed.

Lemma generateAlerts_sorted (items : list Item) :
  StronglySorted
    (λ a b, Constants.STATUS_ORDER (Frontend.status b)
            <= Constants.STATUS_ORDER (Frontend.status a))
    (Frontend.alerts (Frontend.generateAlerts items)).
Proof.
  rewrite generateAlerts_groups. cbv zeta.
  apply StronglySorted_app_2; [|apply same_status_sorted|].
  - intros a b [Ha _]%list_elem_of_filter Hb. rewrite Ha.
    apply elem_of_app in Hb as [[Hb _]%list_elem_of_filter|[Hb _]%list_elem_of_filter];
      rewrite Hb; simpl; lia.
  - apply StronglySorted_app_2; [|apply same_status_sorted..].
    intros a b [Ha _]%list_elem_of_filter [Hb _]%list_elem_of_filter.
    rewrite Ha, Hb. simpl. lia.
Qed.

(** X2.  The display of freshly generated alerts never hides an alert that
    is more urgent than one it shows: every shown alert ranks at least as
    high as every alert beyond the cap. *)
Theorem getDisplayAlerts_most_urgent (inventoryItems : list Item)
    (shown hidden : Frontend.Alert) :
  let alertState := Frontend.generateAlerts inventoryItems in
  shown ∈ (Frontend.getDisplayAlerts alertState).1 →
  hidden ∈ drop Constants.MAX_VISIBLE_ALERTS (Frontend.alerts alertState) →
  Constants.STATUS_ORDER (Frontend.status hidden)
    <= Constants.STATUS_ORDER (Frontend.status shown).
Proof.
  intros alertState Hshown Hhidden.
  pose proof (generateAlerts_sorted inventoryItems) as Hsorted.
  fold alertState in Hsorted.
  rewrite <- (take_drop Constants.MAX_VISIBLE_ALERTS (Frontend.alerts alertState))
    in Hsorted.
  exact (StronglySorted_app_1_elem_of _ _ _ _ _ Hsorted Hshown Hhidden).
Qed.

Lemma getDisplayAlerts_most_urgent_witness :
  Constants.STATUS_ORDER (Frontend.status first_hidden)
    <= Constants.STATUS_ORDER (Frontend.status first_shown).
Proof.
  apply (getDisplayAlerts_most_urgent crowded_batch first_shown first_hidden).
  - vm_compute. apply list_elem_of_here.
  - vm_compute. apply list_elem_of_here.
Defined.

(** ** Restock suggestions *)

Lemma frontend_alerts_elem_of (items : list Item) (a : Frontend.Alert) :
  a ∈ Frontend.alerts (Frontend.generateAlerts items)
  ↔ ∃ p, p ∈ items ∧ Frontend.alert_for p = Some a.
Proof. by rewrite generateAlerts_Permutation, list_elem_of_omap. Qed.

Lemma frontend_calculateSuggestedQuantity_cases (p : Item) (config : Config) :
  match cfg_threshold config with
  | Some t =>
      Frontend.calculateSuggestedQuantity p config = Some (Z.max 10 (t * 3 - stock p))
  | None => Frontend.calculateSuggestedQuantity p config = None
  end.
Proof. unfold Frontend.calculateSuggestedQuantity. by destruct (cfg_threshold config). Qed.

(** X3.  With alerts generated from the inventory, [getRestockSuggestion]
    answers [null] exactly when no item has the id.  Otherwise it describes
    an inventory item with that id: its stock, its resolved priority, the
    suggested quantity for it and its status exactly when the item needs
    attention.  A suggested quantity that is a number is at least 10; it is
    [NaN] exactly when the item's resolved threshold is [undefined], which
    happens for no item that needs attention. *)
Theorem getRestockSuggestion_spec (inventoryItems : list Item) (productId : string) :
  let alertState := Frontend.generateAlerts inventoryItems in
  let answer := Frontend.getRestockSuggestion inventoryItems alertState productId in
  (answer = None ↔ ∀ p, p ∈ inventoryItems → id p ≠ productId) ∧
  (∀ s, answer = Some s →
     let p := Frontend.rs_product s in
     let classified := si_status (Frontend.calculateStockStatus p) in
     p ∈ inventoryItems ∧ id p = productId ∧
     Frontend.rs_currentStock s = stock p ∧
     Frontend.rs_priority s = cfg_priority (Frontend.getProductPriority p) ∧
     Frontend.rs_suggestedQuantity s
       = Frontend.calculateSuggestedQuantity p (Frontend.getProductPriority p) ∧
     (∀ q, Frontend.rs_suggestedQuantity s = Some q → 10 <= q) ∧
     (Frontend.rs_suggestedQuantity s = None
        ↔ cfg_threshold (Frontend.getProductPriority p) = None) ∧
     (is_Some (Frontend.rs_status s) → is_Some (Frontend.rs_suggestedQuantity s)) ∧
     Frontend.rs_status s
       = if needs_attention classified then Some classified else None).
Proof.
  intros alertState answer.
  assert (Hcore :
    (answer = None ↔ ∀ p, p ∈ inventoryItems → id p ≠ productId) ∧
    (∀ s, answer = Some s →
       Frontend.rs_product s ∈ inventoryItems ∧ id (Frontend.rs_product s) = productId ∧
       Frontend.rs_currentStock s = stock (Frontend.rs_product s) ∧
       Frontend.rs_priority s
         = cfg_priority (Frontend.getProductPriority (Frontend.rs_product s)) ∧
       Frontend.rs_suggestedQuantity s
         = Frontend.calculateSuggestedQuantity (Frontend.rs_product s)
             (Frontend.getProductPriority (Frontend.rs_product s)) ∧
       Frontend.rs_status s
         = if needs_attention
                (si_status (Frontend.calculateStockStatus (Frontend.rs_product s)))
           then Some (si_status (Frontend.calculateStockStatus (Frontend.rs_product s)))
           else None)).
  { subst answer. unfold Frontend.getRestockSuggestion.
    destruct (find _ (Frontend.alerts alertState)) as [alert|] eqn:Ealert.
    - apply find_some in Ealert as [Hin Hid].
      apply list_elem_of_In, frontend_alerts_elem_of in Hin as (p & Hp & Ha).
      apply String.eqb_eq in Hid.
      pose proof Ha as Ha'.
      apply frontend_alert_for_Some in Ha' as (Hprod & Hst & Hn).
      split.
      + split; [done|]. intros Hnone. exfalso.
        apply (Hnone p Hp). by rewrite <- Hprod.
      + intros s [= <-]. cbn [Frontend.rs_product Frontend.rs_currentStock
          Frontend.rs_priority Frontend.rs_suggestedQuantity Frontend.rs_status].
        rewrite Hprod. rewrite Hprod in Hid.
        unfold Frontend.alert_for in Ha.
        destruct (needs_attention _) eqn:En; [|done].
        injection Ha as <-.
        cbn [Frontend.a_priority Frontend.suggestedQuantity Frontend.status].
        split_and!; done.
    - pose proof (find_none _ _ Ealert) as Hnoalert.
      destruct (find _ inventoryItems) as [p|] eqn:Eitem.
      + apply find_some in Eitem as [Hin Hid].
        apply list_elem_of_In in Hin. apply String.eqb_eq in Hid.
        split.
        * split; [done|]. intros Hnone. exfalso. by apply (Hnone p Hin).
        * intros s [= <-]. cbn [Frontend.rs_product Frontend.rs_currentStock
            Frontend.rs_priority Frontend.rs_suggestedQuantity Frontend.rs_status].
          split_and!; try done.
          destruct (needs_attention _) eqn:En; [|done]. exfalso.
          destruct (Frontend.alert_for p) as [a|] eqn:Ea.
          -- pose proof Ea as Ea'.
             apply frontend_alert_for_Some in Ea' as (Hprod & _ & _).
             assert (Ha : a ∈ Frontend.alerts alertState)
               by (apply frontend_alerts_elem_of; by exists p).
             apply list_elem_of_In in Ha. specialize (Hnoalert a Ha).
             simpl in Hnoalert. rewrite Hprod in Hnoalert.
             apply String.eqb_neq in Hnoalert. done.
          -- apply frontend_alert_for_None in Ea. congruence.
      + pose proof (find_none _ _ Eitem) as Hnoitem.
        split; [|done]. split; [|done]. intros _ p Hp Hid.
        apply list_elem_of_In in Hp. specialize (Hnoitem p Hp). simpl in Hnoitem.
        apply String.eqb_neq in Hnoitem. done. }
  destruct Hcore as [Hnone Hsome]. split; [done|].
  intros s Hs p classified.
  destruct (Hsome s Hs) as (Hin & Hid & Hstock & Hprio & Hqty & Hstatus).
  fold p in Hin, Hid, Hstock, Hprio, Hqty, Hstatus. fold classified in Hstatus.
  pose proof (frontend_calculateSuggestedQuantity_cases p
                (Frontend.getProductPriority p)) as Hcases.
  split_and!; try done.
  - intros q Hq. rewrite Hqty in Hq.
    destruct (cfg_threshold _) as [t|]; [|congruence].
    rewrite Hcases in Hq. injection Hq as <-. lia.
  - rewrite Hqty. destruct (cfg_threshold _) as [t|]; [|done].
    rewrite Hcases. done.
  - rewrite Hstatus, Hqty. subst classified.
    destruct (needs_attention _) eqn:En; [|by intros [? [=]]].
    apply frontend_attention_resolved in En as (s0 & t & Hcfg & _).
    intros _. rewrite Hcfg in Hcases. cbn [cfg_threshold] in Hcases.
    rewrite Hcfg, Hcases. by eexists.
Qed.

(** ** Change listeners *)

Section ListenerFacts.
Context {L : Type} `{EqDecision L}.

Lemma indexOf_app_fresh (l r : list L) (f : L) :
  f ∉ l → Frontend.indexOf (l ++ f :: r) f = Some (length l).
Proof.
  induction l as [|x l IH]; intros Hf; simpl.
  - by rewrite decide_True.
  - apply not_elem_of_cons in Hf as [Hne Hf].
    rewrite decide_False by done. by rewrite IH.
Qed.

Lemma indexOf_None (l : list L) (f : L) : f ∉ l → Frontend.indexOf l f = None.
Proof.
  induction l as [|x l IH]; intros Hf; simpl; [done|].
  apply not_elem_of_cons in Hf as [Hne Hf].
  rewrite decide_False by done. by rewrite IH.
Qed.

Lemma splice1_middle (l r : list L) (f : L) :
  Frontend.splice1 (l ++ f :: r) (length l) = l ++ r.
Proof.
  unfold Frontend.splice1.
  induction l as [|x l IH]; simpl; [by rewrite drop_0|].
  by rewrite IH.
Qed.
End ListenerFacts.

(** X4.  Registering a listener that is not yet registered and calling the
    returned unsubscribe function gives back the listeners as they were,
    also when other listeners were registered in between; a second call of
    the unsubscribe function changes nothing.  An argument that is not a
    function is not registered and its unsubscribe function does nothing. *)
Theorem onChange_unsubscribe {L : Type} `{EqDecision L}
    (listeners later : list L) (f : L) :
  f ∉ listeners →
  let registered := (Frontend.onChange listeners (Some f)).1 in
  let unsubscribe := (Frontend.onChange listeners (Some f)).2 in
  registered = listeners ++ [f] ∧
  unsubscribe (registered ++ later) = listeners ++ later ∧
  unsubscribe (unsubscribe registered) = listeners ∧
  (Frontend.onChange listeners None).1 = listeners ∧
  (Frontend.onChange listeners None).2 later = later.
Proof.
  intros Hf registered unsubscribe. subst registered unsubscribe. simpl.
  split_and!; try done.
  - rewrite <- (assoc_L (++)). simpl.
    by rewrite indexOf_app_fresh, splice1_middle.
  - rewrite indexOf_app_fresh, splice1_middle by done.
    rewrite app_nil_r. by rewrite indexOf_None.
Qed.

Lemma onChange_unsubscribe_witness :
  (Frontend.onChange [1; 2]%nat (Some 3%nat)).2
    ((Frontend.onChange [1; 2]%nat (Some 3%nat)).1 ++ [4%nat])
  = [1; 2; 4]%nat.
Proof.
  refine (proj1 (proj2 (onChange_unsubscribe [1; 2]%nat [4%nat] 3%nat _))).
  rewrite !elem_of_cons, elem_of_nil. lia.
Defined.

(** ** The shopping list *)

Lemma occurs_in_includes (s t : string) : occurs_in s t → includes t s = true.
Proof. intros (pre & post & ->). apply includes_app. Qed.

Lemma occurs_in_app_l (s a b : string) : occurs_in s a → occurs_in s (a +:+ b).
Proof.
  intros (pre & post & ->). exists pre, (post +:+ b).
  by rewrite !string_app_assoc.
Qed.

Lemma occurs_in_app_r (s a b : string) : occurs_in s b → occurs_in s (a +:+ b).
Proof.
  intros (pre & post & ->). exists (a +:+ pre), post.
  by rewrite !string_app_assoc.
Qed.

Lemma occurs_in_append_entries (text0 : string) (entries : list Frontend.Alert)
    (a : Frontend.Alert) :
  a ∈ entries →
  occurs_in (Frontend.shopping_entry a) (Frontend.append_entries text0 entries).
Proof. intros Hin. by apply foldl_append_member. Qed.

Lemma occurs_in_append_entries_text (s text0 : string) (entries : list Frontend.Alert) :
  occurs_in s text0 → occurs_in s (Frontend.append_entries text0 entries).
Proof.
  intros Hs. unfold Frontend.append_entries.
  rewrite foldl_append_acc. by apply occurs_in_app_l.
Qed.

(** X5.  The shopping list counts the urgent and the normal alerts of the
    state, which after [generateAlerts] are the state's own counters; its
    text holds the entry (name, current stock, suggested quantity) of every
    urgent and of every normal alert; and when there is neither, it says
    that no items need restocking. *)
Theorem generateShoppingList_spec (dateStr : string)
    (alertState : Frontend.AlertState) :
  let sl := Frontend.generateShoppingList dateStr alertState in
  Frontend.sl_urgentCount sl
    = Frontend.count_status URGENT (Frontend.alerts alertState) ∧
  Frontend.sl_normalCount sl
    = Frontend.count_status NORMAL (Frontend.alerts alertState) ∧
  (∀ a, a ∈ Frontend.alerts alertState →
        Frontend.status a = URGENT ∨ Frontend.status a = NORMAL →
        includes (Frontend.text sl) (Frontend.shopping_entry a) = true) ∧
  (Frontend.sl_urgentCount sl = 0%nat → Frontend.sl_normalCount sl = 0%nat →
   includes (Frontend.text sl) "No items need restocking at this time." = true) ∧
  (∀ items,
     let generated :=
       Frontend.generateShoppingList dateStr (Frontend.generateAlerts items) in
     Frontend.sl_urgentCount generated
       = Frontend.urgentCount (Frontend.generateAlerts items) ∧
     Frontend.sl_normalCount generated
       = Frontend.normalCount (Frontend.generateAlerts items)).
Proof.
  intros sl. split_and!; try done.
  - intros a Hin Hst. apply occurs_in_includes.
    subst sl. unfold Frontend.generateShoppingList.
    cbn [Frontend.text].
    set (urgentItems := filter (λ a, Frontend.status a = URGENT) _).
    set (normalItems := filter (λ a, Frontend.status a = NORMAL) _).
    set (list0 := "SHOPPING LIST - " +:+ _).
    apply occurs_in_app_l.
    assert (Hlist2 :
      occurs_in (Frontend.shopping_entry a)
        (if (0 <? length normalItems)%nat
         then Frontend.append_entries
                ((if (0 <? length urgentItems)%nat
                  then Frontend.append_entries
                         (list0 +:+ ("URGENT (Buy Today):" +:+ Frontend.newline)
                                +:+ (Frontend.String_repeat "-" 20 +:+ Frontend.newline))
                         urgentItems
                  else list0)
                 +:+ (Frontend.newline +:+ "NORMAL (Buy This Week):" +:+ Frontend.newline)
                 +:+ (Frontend.String_repeat "-" 20 +:+ Frontend.newline))
                normalItems
         else (if (0 <? length urgentItems)%nat
               then Frontend.append_entries
                      (list0 +:+ ("URGENT (Buy Today):" +:+ Frontend.newline)
                             +:+ (Frontend.String_repeat "-" 20 +:+ Frontend.newline))
                      urgentItems
               else list0))).
    { destruct Hst as [Hu|Hn].
      - assert (Ha : a ∈ urgentItems) by (by apply list_elem_of_filter).
        assert (Hpos : (0 <? length urgentItems)%nat = true).
        { apply Nat.ltb_lt. destruct urgentItems; [by apply elem_of_nil in Ha|].
          simpl. lia. }
        rewrite Hpos.
        assert (Hlist1 := occurs_in_append_entries
          (list0 +:+ ("URGENT (Buy Today):" +:+ Frontend.newline)
                 +:+ (Frontend.String_repeat "-" 20 +:+ Frontend.newline))
          urgentItems a Ha).
        destruct (0 <? length normalItems)%nat; [|done].
        apply occurs_in_append_entries_text. by apply occurs_in_app_l.
      - assert (Ha : a ∈ normalItems) by (by apply list_elem_of_filter).
        assert (Hpos : (0 <? length normalItems)%nat = true).
        { apply Nat.ltb_lt. destruct normalItems; [by apply elem_of_nil in Ha|].
          simpl. lia. }
        rewrite Hpos. by apply occurs_in_append_entries. }
    destruct ((length urgentItems =? 0)%nat && (length normalItems =? 0)%nat)%bool;
      [by apply occurs_in_app_l|done].
  - subst sl. unfold Frontend.generateShoppingList.
    cbn [Frontend.text Frontend.sl_urgentCount Frontend.sl_normalCount].
    intros -> ->. simpl Nat.ltb. simpl Nat.eqb. cbn [andb].
    apply occurs_in_includes. apply occurs_in_app_l.
    eexists _, Frontend.newline. reflexivity.
Qed.

(** ** Inventory statistics *)

(** Decisions on a known status. *)
Ltac status_solve := clear; vm_compute; intuition congruence.
Ltac decide_status :=
  repeat match goal with
  | |- context [decide ?P] =>
      first [ rewrite (decide_True (P:=P)) by status_solve
            | rewrite (decide_False (P:=P)) by status_solve ]
  end.

Lemma foldl_count_item (items : list Item) (u l g : nat) :
  foldl Frontend.count_item (u, l, g) items
  = ((u + length (filter (λ p, si_status (Frontend.calculateStockStatus p) = URGENT)
                    items))%nat,
     (l + length (filter (λ p, si_status (Frontend.calculateStockStatus p) = NORMAL
                               ∨ si_status (Frontend.calculateStockStatus p) = INFO)
                    items))%nat,
     (g + length (filter (λ p, ¬ needs_attention
                                   (si_status (Frontend.calculateStockStatus p)) = true)
                    items))%nat).
Proof.
  revert u l g. induction items as [|p items IH]; intros u l g.
  - simpl. by rewrite !Nat.add_0_r.
  - rewrite !(filter_cons _ p items).
    change (foldl Frontend.count_item (u, l, g) (p :: items))
      with (foldl Frontend.count_item (Frontend.count_item (u, l, g) p) items).
    unfold Frontend.count_item at 2.
    destruct (si_status (Frontend.calculateStockStatus p)) eqn:E;
      decide_status; rewrite IH; cbn [length]; repeat (apply pair_equal_spec; split); lia.
Qed.

Lemma attention_count_split (items : list Item) :
  length (filter (λ p, si_status (Frontend.calculateStockStatus p)
                       ∈ [URGENT; NORMAL; INFO]) items)
  = (length (filter (λ p, si_status (Frontend.calculateStockStatus p) = URGENT) items)
     + length (filter (λ p, si_status (Frontend.calculateStockStatus p) = NORMAL
                            ∨ si_status (Frontend.calculateStockStatus p) = INFO)
                 items))%nat.
Proof.
  induction items as [|p items IH]; [done|].
  rewrite !(filter_cons _ p items).
  destruct (si_status (Frontend.calculateStockStatus p)) eqn:E.
  all: repeat match goal with
  | |- context [decide (?x ∈ ?l)] =>
      first [ rewrite (decide_True (P:=x ∈ l)) by (rewrite !elem_of_cons; tauto)
            | rewrite (decide_False (P:=x ∈ l))
                by (rewrite !elem_of_cons, elem_of_nil; intuition congruence) ]
  end.
  all: decide_status; cbn [length]; lia.
Qed.

Lemma attention_count_complement (items : list Item) :
  (length (filter (λ p, si_status (Frontend.calculateStockStatus p)
                        ∈ [URGENT; NORMAL; INFO]) items)
   + length (filter (λ p, ¬ needs_attention
                              (si_status (Frontend.calculateStockStatus p)) = true)
               items))%nat
  = length items.
Proof.
  induction items as [|p items IH]; [done|].
  rewrite !(filter_cons _ p items).
  destruct (si_status (Frontend.calculateStockStatus p)) eqn:E.
  all: repeat match goal with
  | |- context [decide (?x ∈ ?l)] =>
      first [ rewrite (decide_True (P:=x ∈ l)) by (rewrite !elem_of_cons; tauto)
            | rewrite (decide_False (P:=x ∈ l))
                by (rewrite !elem_of_cons, elem_of_nil; intuition congruence) ]
  end.
  all: decide_status; cbn [length]; lia.
Qed.

Lemma good_count (items : list Item) :
  length (filter (λ p, ¬ needs_attention
                            (si_status (Frontend.calculateStockStatus p)) = true) items)
  = length (filter (λ p, si_status (Frontend.calculateStockStatus p) = GOOD
                         ∨ si_status (Frontend.calculateStockStatus p) = OPTIMAL) items).
Proof.
  induction items as [|p items IH]; [done|].
  rewrite !(filter_cons _ p items).
  destruct (si_status (Frontend.calculateStockStatus p)) eqn:E;
    decide_status; cbn [length]; lia.
Qed.

Lemma generateAlerts_length (items : list Item) :
  length (Frontend.alerts (Frontend.generateAlerts items))
  = length (filter (λ p, si_status (Frontend.calculateStockStatus p)
                         ∈ [URGENT; NORMAL; INFO]) items).
Proof.
  rewrite generateAlerts_Permutation.
  rewrite <- (length_fmap Frontend.product), frontend_pushed_products.
  f_equal. apply list_filter_iff. intros p.
  unfold needs_attention. by rewrite bool_decide_eq_true.
Qed.

(** X6.  The statistics split the inventory three ways: the urgent, the low
    (normal or info) and the good (good or optimal) items add up to the total
    number of items, and urgent plus low is the number of alerts that
    [generateAlerts] builds from the same items. *)
Theorem calculateStats_partition (inventoryState : Frontend.InventoryState) :
  let stats := Frontend.calculateStats inventoryState in
  let inventoryItems := Frontend.items inventoryState in
  let classified p := si_status (Frontend.calculateStockStatus p) in
  Frontend.st_total stats = length inventoryItems ∧
  (Frontend.st_urgent stats + Frontend.st_lowStock stats + Frontend.st_goodStock stats
   = Frontend.st_total stats)%nat ∧
  Frontend.st_urgent stats
    = length (filter (λ p, classified p = URGENT) inventoryItems) ∧
  Frontend.st_lowStock stats
    = length (filter (λ p, classified p = NORMAL ∨ classified p = INFO) inventoryItems) ∧
  Frontend.st_goodStock stats
    = length (filter (λ p, classified p = GOOD ∨ classified p = OPTIMAL) inventoryItems) ∧
  (Frontend.st_urgent stats + Frontend.st_lowStock stats)%nat
    = length (Frontend.alerts (Frontend.generateAlerts inventoryItems)).
Proof.
  intros stats inventoryItems classified.
  subst stats. unfold Frontend.calculateStats.
  rewrite foldl_count_item. fold inventoryItems.
  cbn [Frontend.st_total Frontend.st_urgent Frontend.st_lowStock Frontend.st_goodStock].
  rewrite !Nat.add_0_l.
  pose proof (attention_count_split inventoryItems) as Hsplit.
  pose proof (attention_count_complement inventoryItems) as Hcompl.
  pose proof (good_count inventoryItems) as Hgood.
  pose proof (generateAlerts_length inventoryItems) as Halerts.
  subst classified. cbv beta.
  split_and!; try done; lia.
Qed.

(** ** Filtering the inventory table *)

Lemma by_status_then_name_before (localeCompare : string → string → Z) (x y : Item) :
  comes_before (Frontend.by_status_then_name localeCompare) x y = true →
  Constants.STATUS_ORDER (si_status (Frontend.calculateStockStatus y))
    <= Constants.STATUS_ORDER (si_status (Frontend.calculateStockStatus x)).
Proof.
  unfold comes_before, Frontend.by_status_then_name. rewrite !js_or_stock.
  destruct (Z.eqb_spec
    (Constants.STATUS_ORDER (si_status (Frontend.calculateStockStatus y))
     - Constants.STATUS_ORDER (si_status (Frontend.calculateStockStatus x))) 0);
    simpl; [lia|].
  intros H%Z.leb_le. lia.
Qed.

Lemma by_status_then_name_after (localeCompare : string → string → Z) (x y : Item) :
  comes_before (Frontend.by_status_then_name localeCompare) x y = false →
  Constants.STATUS_ORDER (si_status (Frontend.calculateStockStatus x))
    <= Constants.STATUS_ORDER (si_status (Frontend.calculateStockStatus y)).
Proof.
  unfold comes_before, Frontend.by_status_then_name. rewrite !js_or_stock.
  destruct (Z.eqb_spec
    (Constants.STATUS_ORDER (si_status (Frontend.calculateStockStatus y))
     - Constants.STATUS_ORDER (si_status (Frontend.calculateStockStatus x))) 0);
    simpl; [lia|].
  intros H%Z.leb_gt. lia.
Qed.

Lemma truthy_string_false (s : string) : truthy s = false ↔ s = EmptyString.
Proof. unfold truthy, string_truthy. destruct s; split; congruence. Qed.

(** X7.  For a search text and item names of ASCII characters, and
    whatever the locale's name order, [applyFilters] leaves the items alone
    and sets the filtered items to exactly the items that match, each as
    often as it is in the inventory, ordered by falling status rank.  An item
    matches when its lower-cased name contains the lower-cased search text,
    its category is the filter's and its status is the filter's, an empty
    filter field matching everything.  Without a search text the names are
    not looked at and can be any text. *)
Theorem applyFilters_spec (localeCompare : string → string → Z)
    (filters : Frontend.Filters) (inventoryState : Frontend.InventoryState) :
  is_ascii (Frontend.f_search filters) = true →
  (Frontend.f_search filters ≠ EmptyString →
   ∀ item, item ∈ Frontend.items inventoryState → is_ascii (name item) = true) →
  let after := Frontend.applyFilters localeCompare filters inventoryState in
  let result := Frontend.filteredItems after in
  let classified p := si_status (Frontend.calculateStockStatus p) in
  Frontend.items after = Frontend.items inventoryState ∧
  result ≡ₚ List.filter (Frontend.matches filters) (Frontend.items inventoryState) ∧
  (∀ item, item ∈ result ↔
     item ∈ Frontend.items inventoryState ∧
     (Frontend.f_search filters = EmptyString ∨
      includes (toLowerCase (name item))
               (toLowerCase (Frontend.f_search filters)) = true) ∧
     (Frontend.f_category filters = EmptyString ∨
      category item = Frontend.f_category filters) ∧
     (Frontend.f_status filters = EmptyString ∨
      Constants.STOCK_STATUS (classified item) = Frontend.f_status filters)) ∧
  StronglySorted
    (λ a b, Constants.STATUS_ORDER (classified b) <= Constants.STATUS_ORDER (classified a))
    result ∧
  (filters = Frontend.mkFilters EmptyString EmptyString EmptyString →
   result ≡ₚ Frontend.items inventoryState).
Proof.
  intros _ _ after result classified.
  assert (Hperm : result ≡ₚ List.filter (Frontend.matches filters)
                               (Frontend.items inventoryState))
    by apply Array_sort_Permutation.
  split_and!; try done.
  - intros item. rewrite Hperm, list_elem_of_In, filter_In, <- list_elem_of_In.
    unfold Frontend.matches. rewrite !andb_true_iff, !orb_true_iff, !negb_true_iff.
    rewrite !truthy_string_false.
    destruct (truthy (Frontend.f_status filters)) eqn:Es.
    + rewrite String.eqb_eq.
      assert (Frontend.f_status filters ≠ EmptyString)
        by (intros Hs; apply truthy_string_false in Hs; congruence).
      rewrite String.eqb_eq. tauto.
    + apply truthy_string_false in Es. rewrite String.eqb_eq. tauto.
  - apply (Array_sort_sorted _ (λ p, Constants.STATUS_ORDER (classified p))).
    + apply by_status_then_name_before.
    + apply by_status_then_name_after.
  - intros ->. rewrite Hperm.
    apply reflexive_eq. clear. induction (Frontend.items inventoryState) as [|x l IH];
      [done|]. simpl. by rewrite IH.
Qed.

Lemma applyFilters_spec_witness :
  Frontend.items (Frontend.applyFilters (λ _ _, 0) vodka_search mixed_inventory)
    = mixed_batch.
Proof.
  refine (proj1 (applyFilters_spec (λ _ _, 0) vodka_search mixed_inventory _ _)).
  - reflexivity.
  - intros _ item Hin. vm_compute in Hin.
    repeat (apply elem_of_cons in Hin as [->|Hin]; [reflexivity|]).
    by apply elem_of_nil in Hin.
Defined.

(** ** Priority updates *)

(** X8.  [updatePriority] on a stored item succeeds and changes no other
    document; the item keeps its name, category and stock, and then resolves
    to the new priority when that is not empty and to the new threshold when
    that is a number other than 0.  With a threshold of 0 or [NaN] the item
    resolves the threshold of its category: the table's, [undefined] for a
    category that names an inherited member, 3 for any other category.  On a
    missing document the call fails with [Error updating priority] and
    changes nothing. *)
Theorem updatePriority_then_resolve (db : gmap string Item)
    (itemId newPriority who : string) (parsed : option Z) :
  let db' := (Frontend.updatePriority db itemId newPriority parsed who).1 in
  let result := (Frontend.updatePriority db itemId newPriority parsed who).2 in
  (∀ k, k ≠ itemId → db' !! k = db !! k) ∧
  (db !! itemId = None →
     db' = db ∧ result = Frontend.mkResult false (Some "Error updating priority")) ∧
  (∀ it, db !! itemId = Some it →
     Frontend.success result = true ∧
     ∃ it', db' !! itemId = Some it' ∧
       name it' = name it ∧ category it' = category it ∧ stock it' = stock it ∧
       (newPriority ≠ EmptyString →
          cfg_priority (Frontend.getProductPriority it') = Some newPriority) ∧
       (∀ t, parsed = Some t → t ≠ 0 →
          cfg_threshold (Frontend.getProductPriority it') = Some t) ∧
       (parsed = None ∨ parsed = Some 0 →
          cfg_threshold (Frontend.getProductPriority it')
          = match object_get Constants.DEFAULT_PRIORITIES (category it) with
            | Own entry => Some (threshold entry)
            | Inherited => None
            | Absent => Some 3
            end)).
Proof.
  intros db' result. subst db' result.
  unfold Frontend.updatePriority, Frontend.updateDoc_priority.
  destruct (db !! itemId) as [it|] eqn:Hit; simpl.
  - split_and!; [|done|].
    + intros k Hk. by rewrite lookup_insert_ne.
    + intros ? [= <-]. split; [done|].
      eexists. rewrite lookup_insert_eq. split; [done|].
      unfold Frontend.getProductPriority, Frontend.write_priority.
      cbn [name category stock item_priority alertThreshold cfg_priority cfg_threshold].
      split_and!; try done.
      * intros Hp. unfold js_or_opt, truthy, string_truthy. by destruct newPriority.
      * intros t -> Ht. unfold js_or_opt, truthy, Z_truthy.
        by destruct (Z.eqb_spec t 0).
      * intros [->| ->]; unfold js_or_opt; cbn;
          by destruct (object_get _ _).
  - split_and!; done.
Qed.

(** ** What a stock update leaves alone *)

(** X9.  A stock update, in the browser module and in the controller,
    creates no document and changes none but the addressed one, of which it
    keeps the name, the category and the own priority and threshold. *)
Theorem updateStock_frame (db : gmap string Item) (itemId who : string)
    (newStock : Z) (req : Backend.StockRequest) :
  let db' := (Frontend.updateStock db itemId newStock who).1 in
  let unchanged_fields (it' it : Item) :=
    name it' = name it ∧ category it' = category it ∧
    item_priority it' = item_priority it ∧ alertThreshold it' = alertThreshold it in
  (∀ k, k ≠ itemId → db' !! k = db !! k) ∧
  (db !! itemId = None → db' !! itemId = None) ∧
  (∀ it, db !! itemId = Some it →
     ∃ it', db' !! itemId = Some it' ∧ unchanged_fields it' it) ∧
  (∀ docs', (Backend.updateStock (Some db) req).1 = Some docs' →
     (∀ k, k ≠ Backend.rq_id req → docs' !! k = db !! k) ∧
     (db !! Backend.rq_id req = None → docs' !! Backend.rq_id req = None) ∧
     (∀ it, db !! Backend.rq_id req = Some it →
        ∃ it', docs' !! Backend.rq_id req = Some it' ∧ unchanged_fields it' it)).
Proof.
  intros db' unchanged_fields. subst db' unchanged_fields. cbv beta.
  split_and!.
  - intros k Hk. unfold Frontend.updateStock, updateDoc_stock.
    destruct (newStock <? 0); [done|].
    destruct (db !! itemId); [|done]. simpl. by rewrite lookup_insert_ne.
  - intros Hnone. unfold Frontend.updateStock, updateDoc_stock.
    destruct (newStock <? 0); [done|]. by rewrite Hnone.
  - intros it Hit. unfold Frontend.updateStock, updateDoc_stock.
    destruct (newStock <? 0); [by exists it|]. rewrite Hit. simpl.
    eexists. by rewrite lookup_insert_eq.
  - intros docs'. unfold Backend.updateStock.
    assert (Hsame :
      (∀ k, k ≠ Backend.rq_id req → db !! k = db !! k) ∧
      (db !! Backend.rq_id req = None → db !! Backend.rq_id req = None) ∧
      (∀ it, db !! Backend.rq_id req = Some it →
         ∃ it', db !! Backend.rq_id req = Some it' ∧
                name it' = name it ∧ category it' = category it ∧
                item_priority it' = item_priority it ∧
                alertThreshold it' = alertThreshold it)).
    { split_and!; [done..|]. intros it Hit. by exists it. }
    destruct (Backend.rq_quantity req) as [q|]; [|by intros [= <-]].
    destruct (js_not _); [by intros [= <-]|].
    destruct (db !! Backend.rq_id req) as [doc|] eqn:Hdoc; [|by intros [= <-]].
    assert (Hwrite : ∀ z,
      (∀ k, k ≠ Backend.rq_id req →
         <[Backend.rq_id req := write_stock z (Backend.rq_user req) doc]> db !! k
         = db !! k) ∧
      (Some doc = None →
         <[Backend.rq_id req := write_stock z (Backend.rq_user req) doc]> db
           !! Backend.rq_id req = None) ∧
      (∀ it, Some doc = Some it →
         ∃ it', <[Backend.rq_id req := write_stock z (Backend.rq_user req) doc]> db
                  !! Backend.rq_id req = Some it' ∧
                name it' = name it ∧ category it' = category it ∧
                item_priority it' = item_priority it ∧
                alertThreshold it' = alertThreshold it)).
    { intros z. split_and!; [|done|].
      - intros k Hk. by rewrite lookup_insert_ne.
      - intros it [= <-]. eexists. by rewrite lookup_insert_eq. }
    destruct (String.eqb _ "add"); [intros [= <-]; apply Hwrite|].
    destruct (String.eqb _ "subtract"); [|by intros [= <-]; rewrite Hdoc].
    destruct (_ <? 0); [by intros [= <-]; rewrite Hdoc|].
    intros [= <-]. apply Hwrite.
Qed.

(** ** Resetting to the defaults *)

Section ResetFacts.
Variable who : string.

Local Abbreviation db_step := (λ (d : gmap string Item) (item : Item),
  (Frontend.reset_item who d item).1).
Local Abbreviation pair_step := (λ (acc : gmap string Item * list bool) (item : Item),
  let '(db1, r) := Frontend.reset_item who acc.1 item in (db1, acc.2 ++ [r])).
Local Abbreviation wp := (λ (cfg : PriorityConfig) (it : Item),
  Frontend.write_priority (priority cfg) (Some (threshold cfg)) who it).

Lemma reset_fold_fst (items : list Item) (d : gmap string Item) (rs : list bool) :
  (foldl pair_step (d, rs) items).1 = foldl db_step d items.
Proof.
  revert d rs. induction items as [|item items IH]; intros d rs; [done|].
  simpl. destruct (Frontend.reset_item who d item) as [d1 r] eqn:E. simpl.
  by rewrite IH.
Qed.

Lemma reset_item_unfold (d : gmap string Item) (item : Item) :
  Frontend.reset_item who d item
  = match Constants.DEFAULT_PRIORITIES !! category item with
    | Some defaultConfig =>
      match Frontend.updateDoc_priority d (id item) (priority defaultConfig)
              (Some (threshold defaultConfig)) who with
      | Some d' => (d', true)
      | None => (d, false)
      end
    | None => (d, false)
    end.
Proof.
  unfold Frontend.reset_item.
  category_cases (category item); try rewrite Hentry; try done.
  by rewrite DEFAULT_PRIORITIES_own.
Qed.

Lemma reset_item_lookup (d : gmap string Item) (item : Item) (k : string) :
  (Frontend.reset_item who d item).1 !! k
  = match Constants.DEFAULT_PRIORITIES !! category item, d !! id item with
    | Some cfg, Some x => if decide (k = id item) then Some (wp cfg x) else d !! k
    | _, _ => d !! k
    end.
Proof.
  rewrite reset_item_unfold. unfold Frontend.updateDoc_priority.
  destruct (Constants.DEFAULT_PRIORITIES !! category item) as [cfg|]; [|done].
  destruct (d !! id item) as [x|] eqn:Hx; [|done]. simpl.
  case_decide as Hk.
  - subst k. by rewrite lookup_insert_eq.
  - by rewrite lookup_insert_ne.
Qed.

Lemma reset_item_flag (d : gmap string Item) (item : Item) :
  (Frontend.reset_item who d item).2
  = bool_decide (is_Some (Constants.DEFAULT_PRIORITIES !! category item)
                 ∧ is_Some (d !! id item)).
Proof.
  rewrite reset_item_unfold. unfold Frontend.updateDoc_priority.
  destruct (Constants.DEFAULT_PRIORITIES !! category item) as [cfg|].
  - destruct (d !! id item) as [x|] eqn:Hx; symmetry.
    + apply bool_decide_eq_true_2. split; by eexists.
    + apply bool_decide_eq_false_2. intros [_ [? [=]]].
  - symmetry. apply bool_decide_eq_false_2. intros [[? [=]] _].
Qed.

(** Every document is kept, with its name, category and stock. *)
Lemma reset_fold_keeps (items : list Item) (d : gmap string Item) (k : string) :
  match foldl db_step d items !! k, d !! k with
  | Some x', Some x =>
      id x' = id x ∧ name x' = name x ∧ category x' = category x ∧ stock x' = stock x
  | None, None => True
  | _, _ => False
  end.
Proof.
  revert d. induction items as [|item items IH]; intros d.
  - simpl. by destruct (d !! k).
  - simpl. specialize (IH (db_step d item)). simpl in IH.
    destruct (foldl _ _ items !! k) as [x'|];
      rewrite reset_item_lookup in IH;
      destruct (Constants.DEFAULT_PRIORITIES !! category item) as [cfg|];
      destruct (d !! id item) as [x0|] eqn:Hx0; try done;
      case_decide as Hk; subst; try done;
      rewrite ?Hx0 in *; try done.
Qed.

Lemma reset_fold_frame (items : list Item) (d : gmap string Item) (k : string) :
  k ∉ id <$> items → foldl db_step d items !! k = d !! k.
Proof.
  revert d. induction items as [|item items IH]; intros d Hk; [done|].
  rewrite fmap_cons in Hk. apply not_elem_of_cons in Hk as [Hne Hk].
  simpl. rewrite IH by done. rewrite reset_item_lookup.
  destruct (_ !! category item); [|done]. destruct (d !! id item); [|done].
  by rewrite decide_False.
Qed.

(** A category outside the table: the document stays as it is. *)
Lemma reset_fold_unknown (items : list Item) (d : gmap string Item) (k c : string) :
  Constants.DEFAULT_PRIORITIES !! c = None →
  (∀ item, item ∈ items → id item = k → category item = c) →
  foldl db_step d items !! k = d !! k.
Proof.
  intros Hc. revert d. induction items as [|item items IH]; intros d Hcat; [done|].
  simpl. rewrite IH.
  - rewrite reset_item_lookup.
    destruct (_ !! category item) as [cfg|] eqn:Ecfg; [|done].
    destruct (d !! id item); [|done].
    case_decide as Hk; [|done]. exfalso.
    rewrite (Hcat item) in Ecfg; [congruence|apply list_elem_of_here|done].
  - intros item' Hin. apply Hcat. by apply list_elem_of_further.
Qed.

(** A category of the table: once written, the defaults stay. *)
Lemma reset_fold_stable (items : list Item) (d : gmap string Item) (k : string)
    (o : Item) (cfg : PriorityConfig) :
  Constants.DEFAULT_PRIORITIES !! category o = Some cfg →
  (∀ item, item ∈ items → id item = k → category item = category o) →
  d !! k = Some (wp cfg o) →
  foldl db_step d items !! k = Some (wp cfg o).
Proof.
  intros Hcfg. revert d. induction items as [|item items IH]; intros d Hcat Hd; [done|].
  simpl. apply IH.
  - intros item' Hin. apply Hcat. by apply list_elem_of_further.
  - rewrite reset_item_lookup.
    destruct (_ !! category item) as [cfg'|] eqn:Ecfg; [|done].
    destruct (d !! id item) as [x|] eqn:Hx; [|done].
    case_decide as Hk; [|done]. subst k.
    rewrite (Hcat item) in Ecfg; [|apply list_elem_of_here|done].
    rewrite Hd in Hx. by simplify_eq.
Qed.

Lemma reset_fold_written (items : list Item) (d : gmap string Item)
    (item : Item) (o : Item) (cfg : PriorityConfig) :
  item ∈ items →
  Constants.DEFAULT_PRIORITIES !! category o = Some cfg →
  (∀ item', item' ∈ items → id item' = id item → category item' = category o) →
  d !! id item = Some o ∨ d !! id item = Some (wp cfg o) →
  foldl db_step d items !! id item = Some (wp cfg o).
Proof.
  intros Hin Hcfg. revert d.
  induction items as [|item0 items IH]; intros d Hcat Hd;
    [by apply elem_of_nil in Hin|].
  simpl.
  assert (Hcat' : ∀ item', item' ∈ items → id item' = id item →
                           category item' = category o)
    by (intros item' Hin'; apply Hcat; by apply list_elem_of_further).
  assert (Hstep : id item0 = id item →
                  db_step d item0 !! id item = Some (wp cfg o)).
  { intros Hid. rewrite reset_item_lookup.
    rewrite (Hcat item0) by (done || apply list_elem_of_here).
    rewrite Hcfg, Hid.
    destruct Hd as [Hd|Hd]; rewrite Hd; by rewrite decide_True. }
  apply elem_of_cons in Hin as [->|Hin].
  - apply reset_fold_stable; [done..|]. by apply Hstep.
  - destruct (decide (id item0 = id item)) as [Hid|Hid].
    + apply reset_fold_stable; [done..|]. by apply Hstep.
    + apply IH; [done..|]. rewrite reset_item_lookup.
      destruct (_ !! category item0); [|done]. destruct (d !! id item0); [|done].
      by rewrite decide_False.
Qed.

Lemma reset_fold_dom (items : list Item) (d : gmap string Item) (k : string) :
  is_Some (foldl db_step d items !! k) ↔ is_Some (d !! k).
Proof.
  pose proof (reset_fold_keeps items d k) as H.
  destruct (foldl _ _ _ !! k), (d !! k); done.
Qed.

Lemma reset_fold_snd (items : list Item) (d : gmap string Item) (rs : list bool) :
  ∃ flags, (foldl pair_step (d, rs) items).2 = rs ++ flags ∧
    length flags = length items ∧
    ((∀ item, item ∈ items → is_Some (d !! id item)) →
     length (List.filter (λ b : bool, b) flags)
     = length (filter (λ item, is_Some (Constants.DEFAULT_PRIORITIES !! category item))
                 items)).
Proof.
  revert d rs. induction items as [|item items IH]; intros d rs.
  - exists []. simpl. by rewrite app_nil_r.
  - simpl.
    pose proof (reset_item_flag d item) as Hflag.
    pose proof (λ k, reset_fold_dom [item] d k) as Hdom. simpl in Hdom.
    destruct (Frontend.reset_item who d item) as [d1 r] eqn:E. simpl in *.
    destruct (IH d1 (rs ++ [r])) as (flags & Hfl & Hlen & Hcount).
    exists (r :: flags). split_and!.
    + rewrite Hfl. by rewrite <- (assoc_L (++)).
    + simpl. by rewrite Hlen.
    + intros Hex.
      assert (Hrest : ∀ item', item' ∈ items → is_Some (d1 !! id item'))
        by (intros item' Hin; apply Hdom, Hex; by apply list_elem_of_further).
      specialize (Hcount Hrest).
      specialize (Hex item (list_elem_of_here _ _)).
      rewrite (filter_cons _ item items). cbn [List.filter].
      subst r. case_bool_decide as Hb; case_decide as Hd; cbn [length];
        rewrite ?Hcount; try done; tauto.
Qed.
End ResetFacts.

Lemma List_filter_length_le {A} (f : A → bool) (l : list A) :
  (length (List.filter f l) ≤ length l)%nat.
Proof. induction l as [|x l IH]; simpl; [done|]. destruct (f x); simpl; lia. Qed.

Lemma resetToDefaults_unfold (inventoryState : Frontend.InventoryState)
    (db : gmap string Item) (who : string) :
  ∃ flags,
    Frontend.resetToDefaults inventoryState db who
    = (foldl (λ d item, (Frontend.reset_item who d item).1) db
         (Frontend.items inventoryState),
       Frontend.mkResetResult true (length (List.filter (λ b : bool, b) flags))) ∧
    length flags = length (Frontend.items inventoryState) ∧
    ((∀ item, item ∈ Frontend.items inventoryState → is_Some (db !! id item)) →
     length (List.filter (λ b : bool, b) flags)
     = length (filter (λ item,
                 is_Some (Constants.DEFAULT_PRIORITIES !! category item))
                 (Frontend.items inventoryState))).
Proof.
  destruct (reset_fold_snd who (Frontend.items inventoryState) db [])
    as (flags & Hfl & Hlen & Hcount).
  pose proof (reset_fold_fst who (Frontend.items inventoryState) db []) as Hfst.
  exists flags. split; [|done].
  unfold Frontend.resetToDefaults.
  destruct (foldl _ (db, []) _) as [db' results]. simpl in *. by subst.
Qed.

(** X10.  [resetToDefaults] reports success, counts at most one update per
    local item, keeps every document with its name, category and stock,
    creates none, and leaves alone the documents that no local item names.
    When every local item has its document, with the same category, each
    item of a category of the defaults table ends with that category's
    priority and threshold as its own and resolves to them, the other items'
    documents stay as they were, and the count is the number of local items
    whose category is in the table. *)
Theorem resetToDefaults_spec (inventoryState : Frontend.InventoryState)
    (db : gmap string Item) (who : string) :
  let db' := (Frontend.resetToDefaults inventoryState db who).1 in
  let result := (Frontend.resetToDefaults inventoryState db who).2 in
  let localItems := Frontend.items inventoryState in
  Frontend.rr_success result = true ∧
  (Frontend.updatedCount result ≤ length localItems)%nat ∧
  (∀ k, is_Some (db' !! k) ↔ is_Some (db !! k)) ∧
  (∀ k it', db' !! k = Some it' →
     ∃ it, db !! k = Some it ∧
           name it' = name it ∧ category it' = category it ∧ stock it' = stock it) ∧
  (∀ k, k ∉ id <$> localItems → db' !! k = db !! k) ∧
  ((∀ item, item ∈ localItems →
      ∃ doc, db !! id item = Some doc ∧ category doc = category item) →
   Frontend.updatedCount result
     = length (filter (λ item,
                 is_Some (Constants.DEFAULT_PRIORITIES !! category item)) localItems) ∧
   (∀ item cfg, item ∈ localItems →
      Constants.DEFAULT_PRIORITIES !! category item = Some cfg →
      ∃ it', db' !! id item = Some it' ∧
             item_priority it' = Some (priority cfg) ∧
             alertThreshold it' = Some (threshold cfg) ∧
             Frontend.getProductPriority it' = cfg) ∧
   (∀ item, item ∈ localItems →
      Constants.DEFAULT_PRIORITIES !! category item = None →
      db' !! id item = db !! id item)).
Proof.
  intros db' result localItems.
  destruct (resetToDefaults_unfold inventoryState db who)
    as (flags & Heq & Hlen & Hcount).
  subst db' result. rewrite Heq. cbn [fst snd Frontend.rr_success Frontend.updatedCount].
  fold localItems in Hlen, Hcount |- *.
  split_and!.
  - done.
  - rewrite <- Hlen. apply List_filter_length_le.
  - intros k. apply reset_fold_dom.
  - intros k it' Hk.
    pose proof (reset_fold_keeps who localItems db k) as Hkeep.
    rewrite Hk in Hkeep. destruct (db !! k) as [it|]; [|done].
    exists it. tauto.
  - intros k. apply reset_fold_frame.
  - intros Hsync.
    assert (Hcat : ∀ item doc, item ∈ localItems → db !! id item = Some doc →
              ∀ item', item' ∈ localItems → id item' = id item →
                       category item' = category doc).
    { intros item doc Hin Hdoc item' Hin' Hid.
      destruct (Hsync item' Hin') as (doc' & Hdoc' & <-).
      rewrite Hid in Hdoc'. congruence. }
    split_and!.
    + apply Hcount. intros item Hin.
      destruct (Hsync item Hin) as (doc & -> & _). by eexists.
    + intros item cfg Hin Hcfg.
      destruct (Hsync item Hin) as (doc & Hdoc & Hc).
      exists (Frontend.write_priority (priority cfg) (Some (threshold cfg)) who doc).
      split_and!; try done.
      * apply reset_fold_written; [done|by rewrite Hc|by apply Hcat|by left].
      * unfold Frontend.getProductPriority, Frontend.write_priority.
        cbn [item_priority alertThreshold category].
        rewrite !js_or_opt_truthy.
        -- by destruct cfg.
        -- by apply (default_threshold_truthy (category item)).
        -- by apply (default_priority_truthy (category item)).
    + intros item Hin Hnone.
      destruct (Hsync item Hin) as (doc & Hdoc & Hc).
      apply (reset_fold_unknown who localItems db (id item) (category item)); [done|].
      intros item' Hin' Hid. rewrite <- Hc. by apply (Hcat item doc).
Qed.

(** ** Creating, reading, updating and deleting items *)


Lemma js_or_string_truthy (a : option string) (d : string) :
  d ≠ EmptyString → js_or a d ≠ EmptyString.
Proof. unfold js_or, truthy, string_truthy. by destruct a as [[|c s]|]. Qed.

Lemma js_or_Z_truthy (a : option Z) (d : Z) : d ≠ 0 → js_or a d ≠ 0.
Proof.
  unfold js_or, truthy, Z_truthy. destruct a as [z|]; [|done].
  by destruct (Z.eqb_spec z 0).
Qed.










(** X12.  [deleteItem] answers 404 for a missing key and changes nothing.
    For a stored key it removes that document and no other; afterwards
    reading the key and deleting it again both answer 404. *)
Theorem deleteItem_spec (docs : gmap string Item) (itemId : string) :
  let answer := Backend.deleteItem (Some docs) itemId in
  (docs !! itemId = None →
   answer = (Some docs, inl (Backend.mkApiError 404 "Item not found"))) ∧
  (is_Some (docs !! itemId) →
   ∃ docs', answer = (Some docs', inr "Item deleted successfully") ∧
     docs' !! itemId = None ∧
     (∀ k, k ≠ itemId → docs' !! k = docs !! k) ∧
     Backend.getItemById (Some docs') itemId
       = inl (Backend.mkApiError 404 "Item not found") ∧
     Backend.deleteItem (Some docs') itemId
       = (Some docs', inl (Backend.mkApiError 404 "Item not found"))) ∧
  Backend.deleteItem None itemId
    = (None, inl (Backend.mkApiError 500 "Database not available")).
Proof.
  intros answer. subst answer. unfold Backend.deleteItem, Backend.getItemById.
  split_and!; [by intros ->| |done].
  intros [doc Hdoc]. rewrite Hdoc. eexists. split; [reflexivity|].
  rewrite !lookup_delete_eq. split_and!; try done.
  intros k Hk. by rewrite lookup_delete_ne.
Qed.

(** X13.  [updateItem] answers 404 for a missing key and changes nothing.
    For a stored key it changes no other document, sets the fields the body
    gives, the id among them, and keeps the others; the document stays under
    its key, and reading the key back gives the item it answered with,
    classified from the new values. *)
Theorem updateItem_spec (docs : gmap string Item) (itemId who : string)
    (updates : Backend.Updates) :
  let answer := Backend.updateItem (Some docs) itemId who updates in
  (docs !! itemId = None →
   answer = (Some docs, inl (Backend.mkApiError 404 "Item not found"))) ∧
  (∀ doc, docs !! itemId = Some doc →
   ∃ docs' updated,
     answer = (Some docs', inr updated) ∧
     (∀ k, k ≠ itemId → docs' !! k = docs !! k) ∧
     docs' !! itemId = Some updated ∧
     id updated = default (id doc) (Backend.u_id updates) ∧
     name updated = default (name doc) (Backend.u_name updates) ∧
     category updated = default (category doc) (Backend.u_category updates) ∧
     stock updated = default (stock doc) (Backend.u_stock updates) ∧
     (∀ p, Backend.u_priority updates = Some p → item_priority updated = Some p) ∧
     (Backend.u_priority updates = None → item_priority updated = item_priority doc) ∧
     (∀ t, Backend.u_alertThreshold updates = Some t → alertThreshold updated = Some t) ∧
     (Backend.u_alertThreshold updates = None →
      alertThreshold updated = alertThreshold doc) ∧
     updatedBy updated = Some who ∧
     Backend.getItemById (Some docs') itemId
       = inr (Backend.mkItemWithStatus updated
                (Backend.calculateStockStatus updated))).
Proof.
  intros answer. subst answer. unfold Backend.updateItem, Backend.getItemById.
  split; [by intros ->|]. intros doc Hdoc. rewrite Hdoc.
  eexists _, _. split; [reflexivity|].
  rewrite lookup_insert_eq.
  unfold Backend.read_doc, Backend.apply_updates.
  cbn [id name category stock item_priority alertThreshold updatedBy fst snd].
  split_and!; try done.
  - intros k Hk. by rewrite lookup_insert_ne.
  - by intros p ->.
  - by intros ->.
  - by intros t ->.
  - by intros ->.
Qed.

(** ** Statistics by category *)







Lemma backend_getAlerts_Permutation (docs : gmap string Item) :
  Backend.alerts (Backend.getAlerts (Some docs))
  ≡ₚ omap Backend.alert_for (map_to_list docs).
Proof. apply Array_sort_Permutation. Qed.


Lemma List_filter_filter_le {A} (f g : A → bool) (l : list A) :
  (length (List.filter g (List.filter f l)) ≤ length (List.filter f l))%nat.
Proof. apply List_filter_length_le. Qed.


(** ** Listing the inventory *)

Lemma by_status_before (x y : Item) :
  comes_before Backend.by_status x y = true →
  Constants.STATUS_ORDER (si_status (Backend.calculateStockStatus y))
    <= Constants.STATUS_ORDER (si_status (Backend.calculateStockStatus x)).
Proof.
  unfold comes_before, Backend.by_status. rewrite !js_or_stock.
  intros H%Z.leb_le. lia.
Qed.

Lemma by_status_after (x y : Item) :
  comes_before Backend.by_status x y = false →
  Constants.STATUS_ORDER (si_status (Backend.calculateStockStatus x))
    <= Constants.STATUS_ORDER (si_status (Backend.calculateStockStatus y)).
Proof.
  unfold comes_before, Backend.by_status. rewrite !js_or_stock.
  intros H%Z.leb_gt. lia.
Qed.

Lemma List_filter_filter {A} (f g : A → bool) (l : list A) :
  List.filter g (List.filter f l) = List.filter (λ x, f x && g x) l.
Proof.
  induction l as [|x l IH]; [done|]. simpl.
  destruct (f x); simpl; [|done]. destruct (g x); by rewrite IH.
Qed.

Lemma List_filter_true {A} (l : list A) : List.filter (λ _, true) l = l.
Proof. induction l as [|x l IH]; [done|]. simpl. by rewrite IH. Qed.

Lemma List_filter_ext_eq {A} (f g : A → bool) (l : list A) :
  (∀ x, f x = g x) → List.filter f l = List.filter g l.
Proof. intros H. induction l as [|x l IH]; [done|]. simpl. by rewrite H, IH. Qed.

Lemma getAllItems_filtered (docs : gmap string Item) (q : Backend.Query) :
  Backend.getAllItems (Some docs) q
  = Array_sort Backend.by_status
      (List.filter (Backend.query_keeps q) (Backend.read_doc <$> map_to_list docs)).
Proof.
  unfold Backend.getAllItems. f_equal.
  set (items := Backend.read_doc <$> map_to_list docs).
  unfold Backend.query_keeps.
  destruct (js_not (Backend.q_search q)), (js_not (Backend.q_status q));
    rewrite ?List_filter_filter; apply List_filter_ext_eq; intros x;
    destruct (js_not (Backend.q_category q)), (String.eqb (category x) _),
      (includes _ _), (String.eqb (Constants.STOCK_STATUS _) _); done.
Qed.

Lemma NoDup_List_filter_fmap {A B} (f : A → B) (p : A → bool) (l : list A) :
  NoDup (f <$> l) → NoDup (f <$> List.filter p l).
Proof.
  induction l as [|x l IH]; [done|].
  rewrite fmap_cons, NoDup_cons. intros [Hx Hl]. simpl.
  destruct (p x); [|by apply IH].
  rewrite fmap_cons. apply NoDup_cons. split; [|by apply IH].
  intros (y & Hy & Hin)%list_elem_of_fmap. apply Hx.
  apply list_elem_of_fmap. exists y. split; [done|].
  apply list_elem_of_In in Hin. apply filter_In in Hin as [Hin _].
  by apply list_elem_of_In.
Qed.

Lemma List_filter_snd {A B} (p : B → bool) (l : list (A * B)) :
  List.filter p l.*2 = (List.filter (λ doc, p doc.2) l).*2.
Proof.
  induction l as [|x l IH]; [done|]. rewrite fmap_cons. simpl.
  destruct (p x.2); [rewrite fmap_cons|]; by rewrite IH.
Qed.

(** The documents an answer was read from: one per item, all different. *)
Lemma read_from_distinct_documents (docs : gmap string Item) (p : Item → bool)
    (result : list Item) :
  result ≡ₚ List.filter p (Backend.read_doc <$> map_to_list docs) →
  ∃ keys, NoDup keys ∧ Forall2 (λ k item, docs !! k = Some item) keys result.
Proof.
  intros Hperm.
  change (Backend.read_doc <$> map_to_list docs) with (map_to_list docs).*2 in Hperm.
  rewrite List_filter_snd in Hperm.
  apply Permutation_map_inv in Hperm as (read & -> & Hread).
  exists read.*1. split.
  - rewrite <- Hread. apply NoDup_List_filter_fmap, NoDup_fst_map_to_list.
  - assert (Hall : Forall (λ doc, docs !! doc.1 = Some doc.2) read).
    { apply Forall_forall. intros [k item] Hin. rewrite <- Hread in Hin.
      apply list_elem_of_In, filter_In in Hin as [Hin _].
      apply list_elem_of_In in Hin. by apply elem_of_map_to_list. }
    clear Hread. induction Hall as [|doc l Hdoc _ IH]; [constructor|].
    change (map snd (doc :: l)) with (doc.2 :: map snd l).
    rewrite fmap_cons. by constructor.
Qed.

(** X15.  For a search text and document names of ASCII characters,
    [GET /api/inventory] answers with exactly the stored documents that pass
    the query, each read once: a document passes when its category is the
    query's, its lower-cased name contains the lower-cased search text and
    its status is the query's, a missing or empty query field letting
    everything pass.  The answer is ordered by falling status rank; its ids
    are all different when no document stores an [id] other than its key.
    Without a search text the names are not looked at and can be any text.
    Without a database the answer is the mock inventory, whatever the
    query. *)
Theorem getAllItems_spec (docs : gmap string Item) (q : Backend.Query) :
  (∀ search, Backend.q_search q = Some search → is_ascii search = true) →
  (js_not (Backend.q_search q) = false →
   ∀ k item, docs !! k = Some item → is_ascii (name item) = true) →
  let result := Backend.getAllItems (Some docs) q in
  let classified item := si_status (Backend.calculateStockStatus item) in
  (∀ item, item ∈ result ↔
     (∃ k, docs !! k = Some item) ∧
     (js_not (Backend.q_category q) = true ∨
      Some (category item) = Backend.q_category q) ∧
     (js_not (Backend.q_search q) = true ∨
      ∃ search, Backend.q_search q = Some search ∧
        includes (toLowerCase (name item)) (toLowerCase search) = true) ∧
     (js_not (Backend.q_status q) = true ∨
      Some (Constants.STOCK_STATUS (classified item)) = Backend.q_status q)) ∧
  (∃ keys, NoDup keys ∧ Forall2 (λ k item, docs !! k = Some item) keys result) ∧
  ((∀ k item, docs !! k = Some item → id item = k) → NoDup (id <$> result)) ∧
  StronglySorted
    (λ a b, Constants.STATUS_ORDER (classified b) <= Constants.STATUS_ORDER (classified a))
    result ∧
  (q = Backend.mkQuery None None None → length result = size docs) ∧
  Backend.getAllItems None q = Backend.getMockInventory.
Proof.
  intros _ _ result classified. subst result. rewrite getAllItems_filtered.
  split_and!.
  - intros item. rewrite Array_sort_Permutation.
    rewrite list_elem_of_In, filter_In, <- list_elem_of_In.
    rewrite list_elem_of_fmap.
    unfold Backend.query_keeps. rewrite !andb_true_iff, !orb_true_iff.
    rewrite !String.eqb_eq.
    assert (Hopt : ∀ (a : option string) (s : string),
              js_not a = true ∨ s = default EmptyString a
              ↔ js_not a = true ∨ Some s = a).
    { intros a s. split; (intros [?|H]; [by left|]).
      - destruct a as [s'|]; [right; simpl in H; by subst|by left].
      - right. by rewrite <- H. }
    rewrite !Hopt.
    assert (Hsearch :
      js_not (Backend.q_search q) = true ∨
      includes (toLowerCase (name item))
               (toLowerCase (default EmptyString (Backend.q_search q))) = true
      ↔ js_not (Backend.q_search q) = true ∨
        ∃ search, Backend.q_search q = Some search ∧
          includes (toLowerCase (name item)) (toLowerCase search) = true).
    { split; (intros [?|H]; [by left|]).
      - destruct (Backend.q_search q) as [s'|]; [right; by exists s'|by left].
      - destruct H as (s' & -> & H). by right. }
    rewrite Hsearch.
    assert (Hdoc :
      (∃ doc, item = Backend.read_doc doc ∧ doc ∈ map_to_list docs)
      ↔ ∃ k, docs !! k = Some item).
    { split.
      - intros ([k data] & -> & Hin). apply elem_of_map_to_list in Hin.
        by exists k.
      - intros (k & Hk). exists (k, item).
        split; [done|]. by apply elem_of_map_to_list. }
    rewrite Hdoc. tauto.
  - apply (read_from_distinct_documents docs (Backend.query_keeps q)).
    apply Array_sort_Permutation.
  - intros Hkeys. rewrite Array_sort_Permutation. apply NoDup_List_filter_fmap.
    assert (Hids : id <$> (Backend.read_doc <$> map_to_list docs)
                   = (map_to_list docs).*1).
    { rewrite <- list_fmap_compose. apply Forall_fmap_ext, Forall_forall.
      intros [k item] Hin%elem_of_map_to_list. by apply Hkeys. }
    rewrite Hids. apply NoDup_fst_map_to_list.
  - apply (Array_sort_sorted _ (λ p, Constants.STATUS_ORDER (classified p))).
    + apply by_status_before.
    + apply by_status_after.
  - intros ->. rewrite Array_sort_Permutation.
    rewrite (List_filter_ext_eq _ (λ _, true)) by done.
    by rewrite List_filter_true, length_fmap, length_map_to_list.
  - done.
Qed.

Lemma getAllItems_spec_witness :
  Backend.getAllItems None vodka_query = Backend.getMockInventory.
Proof.
  refine (proj2 (proj2 (proj2 (proj2 (proj2
            (getAllItems_spec mixed_collection vodka_query _ _)))))).
  - intros search [= <-]. reflexivity.
  - intros _ k item Hin. apply elem_of_list_to_map_2 in Hin. vm_compute in Hin.
    repeat (apply elem_of_cons in Hin as [[= -> ->]|Hin]; [reflexivity|]).
    by apply elem_of_nil in Hin.
Defined.

(** ** The controller's shopping list *)

Lemma backend_pushed_status_count (s : Status) (snapshot : list (string * Item)) :
  s ∈ [URGENT; NORMAL; INFO] →
  length (filter (λ a, Backend.status a = s) (omap Backend.alert_for snapshot))
  = length (List.filter (λ item,
      bool_decide (si_status (Backend.calculateStockStatus item) = s)) snapshot.*2).
Proof.
  intros Hs. induction snapshot as [|doc l IH]; [done|].
  rewrite fmap_cons. cbn [List.filter].
  change (omap Backend.alert_for (doc :: l))
    with (match Backend.alert_for doc with
          | Some a => a :: omap Backend.alert_for l
          | None => omap Backend.alert_for l
          end).
  unfold Backend.alert_for at 1.
  destruct (needs_attention (si_status (Backend.calculateStockStatus doc.2))) eqn:En.
  - rewrite filter_cons. cbn [Backend.status].
    case_decide as Hd.
    + rewrite bool_decide_eq_true_2 by done. cbn [length]. by rewrite IH.
    + rewrite bool_decide_eq_false_2 by done. done.
  - rewrite bool_decide_eq_false_2; [done|].
    intros Hd. rewrite Hd in En. unfold needs_attention in En.
    by rewrite bool_decide_eq_true_2 in En.
Qed.

Lemma backend_calculateSuggestedQuantity_cases (item : Item) (config : Config) :
  match cfg_threshold config with
  | Some t =>
      Backend.calculateSuggestedQuantity item config
      = Some (Z.max 10 (t * 3 - stock item))
  | None => Backend.calculateSuggestedQuantity item config = None
  end.
Proof.
  unfold Backend.calculateSuggestedQuantity. rewrite js_or_stock.
  by destruct (cfg_threshold config).
Qed.

(** X16.  The two arrays of the shopping list hold one entry for each
    urgent and for each normal document, so they are as long as the urgent
    and normal counts of [getAlerts].  An entry that suggests a number
    suggests at least 10 units, and every entry of a document whose category
    is not the name of an inherited member does; the suggestion is [NaN]
    exactly when the document has no usable threshold of its own and its
    category names an inherited member, as for the one document of the
    kombucha shelf.  Without a database both arrays are empty. *)
Theorem getShoppingList_spec (docs : gmap string Item) :
  let urgent := (Backend.getShoppingList (Some docs)).1 in
  let normal := (Backend.getShoppingList (Some docs)).2 in
  let counts := Backend.counts (Backend.getAlerts (Some docs)) in
  let classified item := si_status (Backend.calculateStockStatus item) in
  length urgent = Backend.urgent counts ∧
  length normal = Backend.normal counts ∧
  (∀ e, e ∈ urgent ↔
     ∃ k item, docs !! k = Some item ∧ classified item = URGENT ∧
               e = Backend.shopping_entry item) ∧
  (∀ e, e ∈ normal ↔
     ∃ k item, docs !! k = Some item ∧ classified item = NORMAL ∧
               e = Backend.shopping_entry item) ∧
  (∀ e q, e ∈ urgent ++ normal → Backend.se_suggestedQuantity e = Some q → 10 <= q) ∧
  (∀ item, (category item ∉ Object_prototype_members) →
     ∃ q, Backend.se_suggestedQuantity (Backend.shopping_entry item) = Some q ∧
          10 <= q) ∧
  (∀ item, Backend.se_suggestedQuantity (Backend.shopping_entry item) = None ↔
     js_not (alertThreshold item) = true ∧ category item ∈ Object_prototype_members) ∧
  Backend.getShoppingList (Some kombucha_shelf)
    = ([], [Backend.mkShoppingEntry "Kombucha" "constructor" 1 None]) ∧
  Backend.getShoppingList None = ([], []).
Proof.
  intros urgent normal counts classified.
  assert (Hmem : ∀ (s : Status) (e : Backend.ShoppingEntry),
    e ∈ Backend.shopping_entry <$>
          List.filter (λ item, bool_decide (classified item = s)) (map_to_list docs).*2
    ↔ ∃ k item, docs !! k = Some item ∧ classified item = s ∧
                e = Backend.shopping_entry item).
  { intros s e. rewrite list_elem_of_fmap. split.
    - intros (item & -> & Hin). apply list_elem_of_In, filter_In in Hin as [Hin Hs].
      apply list_elem_of_In, list_elem_of_fmap in Hin as ([k item'] & -> & Hin).
      apply elem_of_map_to_list in Hin. apply bool_decide_eq_true in Hs.
      by exists k, item'.
    - intros (k & item & Hk & Hs & ->). exists item. split; [done|].
      apply list_elem_of_In, filter_In. split.
      + apply list_elem_of_In, list_elem_of_fmap. exists (k, item).
        split; [done|]. by apply elem_of_map_to_list.
      + by apply bool_decide_eq_true. }
  assert (Hcount : ∀ s, s ∈ [URGENT; NORMAL; INFO] →
    Backend.count_status s (Backend.alerts (Backend.getAlerts (Some docs)))
    = length (List.filter (λ item, bool_decide (classified item = s))
                (map_to_list docs).*2)).
  { intros s Hs. unfold Backend.count_status.
    rewrite backend_getAlerts_Permutation. by apply backend_pushed_status_count. }
  split_and!.
  - subst urgent counts. simpl. rewrite length_fmap.
    symmetry. apply Hcount. rewrite !elem_of_cons. tauto.
  - subst normal counts. simpl. rewrite length_fmap.
    symmetry. apply Hcount. rewrite !elem_of_cons. tauto.
  - apply Hmem.
  - apply Hmem.
  - assert (Hq : ∀ item q,
      Backend.se_suggestedQuantity (Backend.shopping_entry item) = Some q → 10 <= q).
    { intros item q. cbn [Backend.shopping_entry Backend.se_suggestedQuantity].
      pose proof (backend_calculateSuggestedQuantity_cases item
                    (Backend.getProductPriority item)) as Hcases.
      destruct (cfg_threshold (Backend.getProductPriority item)) as [t|];
        rewrite Hcases; [|done]. intros [= <-]. lia. }
    intros e q [He|He]%elem_of_app.
    + apply (Hmem URGENT) in He as (k & item & _ & _ & ->). apply Hq.
    + apply (Hmem NORMAL) in He as (k & item & _ & _ & ->). apply Hq.
  - intros item Hc.
    destruct (resolved_outside_members item Hc) as (s & t & Hcfg).
    cbn [Backend.shopping_entry Backend.se_suggestedQuantity].
    pose proof (backend_calculateSuggestedQuantity_cases item
                  (Backend.getProductPriority item)) as Hcases.
    rewrite backend_getProductPriority, Hcfg in Hcases |- *.
    cbn [cfg_threshold] in Hcases. rewrite Hcases. eexists. split; [done|lia].
  - intros item. rewrite <- resolved_threshold_None.
    cbn [Backend.shopping_entry Backend.se_suggestedQuantity].
    pose proof (backend_calculateSuggestedQuantity_cases item
                  (Backend.getProductPriority item)) as Hcases.
    rewrite backend_getProductPriority in Hcases |- *.
    destruct (cfg_threshold (Frontend.getProductPriority item)) as [t|];
      rewrite Hcases; done.
  - reflexivity.
  - done.
Qed.

(** ** Who may do what *)

(** X17.  Every guarded route answers 401 and changes nothing without a
    valid token.  With a valid token the stock route runs [updateStock] for
    any role.  The routes that create, update and delete run their handler
    for the roles admin and manager and answer 403, changing nothing, for
    every other role.  Whoever passes [isAdmin] passes [isManagerOrAdmin]. *)
Theorem routes_guard (check : Backend.TokenCheck) (db : option (gmap string Item))
    (itemId newId : string) (body : Backend.CreateBody) (updates : Backend.Updates)
    (quantity : option Backend.Quantity) (action : option string) :
  (∀ e, Backend.verifyToken check = inl e →
     Backend.statusCode e = 401 ∧
     Backend.route_createItem check db newId body = (db, inl e) ∧
     Backend.route_updateItem check db itemId updates = (db, inl e) ∧
     Backend.route_deleteItem check db itemId = (db, inl e) ∧
     Backend.route_updateStock check db itemId quantity action = (db, inl e)) ∧
  (∀ user, check = Backend.TokenValid user →
     Backend.route_updateStock check db itemId quantity action
       = Backend.updateStock db
           (Backend.mkStockRequest itemId quantity action (Backend.tk_email user)) ∧
     (Backend.tk_role user = "admin" ∨ Backend.tk_role user = "manager" →
        Backend.route_createItem check db newId body
          = Backend.createItem db newId (Backend.tk_email user) body ∧
        Backend.route_updateItem check db itemId updates
          = Backend.updateItem db itemId (Backend.tk_email user) updates ∧
        Backend.route_deleteItem check db itemId = Backend.deleteItem db itemId) ∧
     (Backend.tk_role user ≠ "admin" → Backend.tk_role user ≠ "manager" →
        let forbidden := Backend.mkApiError 403 "Manager or Admin access required" in
        Backend.route_createItem check db newId body = (db, inl forbidden) ∧
        Backend.route_updateItem check db itemId updates = (db, inl forbidden) ∧
        Backend.route_deleteItem check db itemId = (db, inl forbidden)) ∧
     (Backend.isAdmin user = None → Backend.isManagerOrAdmin user = None)).
Proof.
  split.
  - intros e He.
    unfold Backend.route_createItem, Backend.route_updateItem,
      Backend.route_deleteItem, Backend.route_updateStock. rewrite He.
    split; [|done]. destruct check; simpl in He; by simplify_eq.
  - intros user ->.
    unfold Backend.route_createItem, Backend.route_updateItem,
      Backend.route_deleteItem, Backend.route_updateStock,
      Backend.isManagerOrAdmin, Backend.isAdmin.
    cbn [Backend.verifyToken Backend.canModifyStock].
    split_and!; [done| | |].
    + intros [-> | ->]; done.
    + intros Ha%String.eqb_neq Hm%String.eqb_neq. by rewrite Ha, Hm.
    + by destruct (String.eqb (Backend.tk_role user) "admin").
Qed.

Lemma USER_ROLES_entries (e r : string) :
  Constants.USER_ROLES !! e = Some r ↔
  (e, r) ∈ [("admin@inventory.com", "admin"); ("manager@inventory.com", "manager");
            ("staff@inventory.com", "staff"); ("admin@wishbone.com", "admin");
            ("manager@wishbone.com", "manager"); ("staff@wishbone.com", "staff")].
Proof.
  unfold Constants.USER_ROLES.
  rewrite !lookup_insert_Some, lookup_empty, !elem_of_cons, elem_of_nil.
  split.
  - intros H. repeat (destruct H as [[<- <-]|[_ H]]; [tauto|]). done.
  - intros H.
    repeat (destruct H as [[= -> ->]|H]; [repeat (first [by left|right; split; [done|]])|]).
    done.
Qed.

(** A permission on a known table row against a list of addresses. *)
Ltac by_table :=
  split;
  [ intros Heq; vm_compute in Heq;
    first [ discriminate Heq | (left; reflexivity) | (right; left; reflexivity)
          | (right; right; left; reflexivity) | (right; right; right; reflexivity)
          | (right; reflexivity) ]
  | intros Hor; first [ reflexivity | decompose [or] Hor; discriminate ] ].

Lemma frontend_role_of (u : User) :
  Frontend.userRole (Frontend.onAuthStateChanged (Some u))
  = default "staff" (Constants.USER_ROLES !! email u).
Proof.
  simpl. destruct (Constants.USER_ROLES !! email u) as [r|] eqn:E; [|done].
  apply USER_ROLES_entries in E. rewrite !elem_of_cons, elem_of_nil in E.
  repeat (destruct E as [[= _ ->]|E]; [done|]). done.
Qed.

(** X18.  After sign-in the role comes from the table by the exact email.
    Only the two admin addresses may manage priorities, only the admin and
    manager addresses may manage products, and an address outside the table
    signs in as staff, who may modify stock and nothing else.  Each permission
    includes the weaker ones.  After sign-out none of the three holds. *)
Theorem sign_in_privileges (u : User) :
  let s := Frontend.onAuthStateChanged (Some u) in
  let signedOut := Frontend.onAuthStateChanged None in
  (Frontend.canManagePriorities s = true ↔
     email u = "admin@inventory.com" ∨ email u = "admin@wishbone.com") ∧
  (Frontend.canManageProducts s = true ↔
     email u = "admin@inventory.com" ∨ email u = "admin@wishbone.com" ∨
     email u = "manager@inventory.com" ∨ email u = "manager@wishbone.com") ∧
  (Constants.USER_ROLES !! email u = None →
     Frontend.userRole s = "staff" ∧ Frontend.canModifyStock s = true ∧
     Frontend.canManageProducts s = false ∧ Frontend.canManagePriorities s = false) ∧
  (Frontend.canManagePriorities s = true → Frontend.canManageProducts s = true) ∧
  (Frontend.canManageProducts s = true → Frontend.canModifyStock s = true) ∧
  Frontend.canModifyStock signedOut = false ∧
  Frontend.canManageProducts signedOut = false ∧
  Frontend.canManagePriorities signedOut = false.
Proof.
  intros s signedOut.
  assert (Hrole : Frontend.userRole s
                  = default "staff" (Constants.USER_ROLES !! email u))
    by apply frontend_role_of.
  unfold Frontend.canManagePriorities, Frontend.canManageProducts.
  rewrite Hrole.
  assert (Hcases :
    (Constants.USER_ROLES !! email u = None) ∨
    (∃ r, Constants.USER_ROLES !! email u = Some r ∧
          (email u, r) ∈ [("admin@inventory.com", "admin");
            ("manager@inventory.com", "manager"); ("staff@inventory.com", "staff");
            ("admin@wishbone.com", "admin"); ("manager@wishbone.com", "manager");
            ("staff@wishbone.com", "staff")])).
  { destruct (Constants.USER_ROLES !! email u) as [r|] eqn:E; [right|by left].
    exists r. split; [done|]. by apply USER_ROLES_entries. }
  assert (Hnone : Constants.USER_ROLES !! email u = None →
            email u ≠ "admin@inventory.com" ∧ email u ≠ "admin@wishbone.com" ∧
            email u ≠ "manager@inventory.com" ∧ email u ≠ "manager@wishbone.com").
  { intros Hn. split_and!; intros He; rewrite He in Hn; vm_compute in Hn; done. }
  split_and!; try done.
  - destruct Hcases as [Hn|(r & Hr & Hin)].
    + rewrite Hn. simpl. specialize (Hnone Hn). split; [done|tauto].
    + rewrite Hr. simpl. rewrite !elem_of_cons, elem_of_nil in Hin.
      repeat (destruct Hin as [Heq|Hin];
              [injection Heq as He ->; rewrite He; by_table|]).
      done.
  - destruct Hcases as [Hn|(r & Hr & Hin)].
    + rewrite Hn. simpl. specialize (Hnone Hn). split; [done|tauto].
    + rewrite Hr. simpl. rewrite !elem_of_cons, elem_of_nil in Hin.
      repeat (destruct Hin as [Heq|Hin];
              [injection Heq as He ->; rewrite He; by_table|]).
      done.
  - intros Hn. rewrite Hn in Hrole |- *. done.
  - intros Ha%String.eqb_eq. by rewrite Ha.
Qed.

(** ** Quick restock *)

(** The product a suggestion describes is an inventory item with the id
    asked for, and the suggestion carries its stock. *)
Lemma getRestockSuggestion_origin (inventoryItems : list Item)
    (productId : string) (s : Frontend.RestockSuggestion) :
  Frontend.getRestockSuggestion inventoryItems
    (Frontend.generateAlerts inventoryItems) productId = Some s →
  Frontend.rs_product s ∈ inventoryItems ∧ id (Frontend.rs_product s) = productId ∧
  Frontend.rs_currentStock s = stock (Frontend.rs_product s).
Proof.
  unfold Frontend.getRestockSuggestion.
  destruct (find _ (Frontend.alerts _)) as [alert|] eqn:Ealert.
  - apply find_some in Ealert as [Hin Hid].
    apply list_elem_of_In, frontend_alerts_elem_of in Hin as (p & Hp & Ha).
    apply String.eqb_eq in Hid.
    apply frontend_alert_for_Some in Ha as (Hprod & _ & _).
    intros [= <-]. cbn [Frontend.rs_product Frontend.rs_currentStock].
    by rewrite Hprod in *.
  - destruct (find _ inventoryItems) as [p|] eqn:Eitem; [|done].
    apply find_some in Eitem as [Hin Hid].
    apply list_elem_of_In in Hin. apply String.eqb_eq in Hid.
    by intros [= <-].
Qed.

(** X19.  A quick restock only ever adds: it changes no document but the
    product's, keeps every stock at 0 or above, and leaves the collection as
    it is unless the product is in the inventory, the quantity typed is a
    number above 0 and somebody is signed in; a stock it writes is the
    inventory's stock of the product plus that quantity. *)
Theorem quickRestock_only_adds (authState : Frontend.AuthState)
    (inventoryItems : list Item) (db : gmap string Item) (productId : string)
    (entered : option Z) :
  let alertState := Frontend.generateAlerts inventoryItems in
  let db' := (Frontend.quickRestock authState inventoryItems alertState db
                productId entered).1 in
  (∀ k, k ≠ productId → db' !! k = db !! k) ∧
  (stock_nonneg db → stock_nonneg db') ∧
  ((∀ p, p ∈ inventoryItems → id p ≠ productId) → db' = db) ∧
  ((∀ q, entered = Some q → q <= 0) → db' = db) ∧
  (Frontend.currentUser authState = None → db' = db) ∧
  (∀ it', db' !! productId = Some it' →
     db !! productId = Some it' ∨
     ∃ p q, p ∈ inventoryItems ∧ id p = productId ∧ entered = Some q ∧ 0 < q ∧
            stock it' = stock p + q).
Proof.
  intros alertState db'. subst db'. unfold Frontend.quickRestock.
  destruct (Frontend.getRestockSuggestion inventoryItems alertState productId)
    as [s|] eqn:Es.
  2:{ split_and!; try done. intros it' Hit. by left. }
  destruct (getRestockSuggestion_origin _ _ _ Es) as (Hin & Hid & Hcur).
  assert (Hentered : 0 < js_or entered 0 → ∃ q, entered = Some q ∧ 0 < q ∧
                                               js_or entered 0 = q).
  { unfold js_or, truthy, Z_truthy. destruct entered as [q|]; [|lia].
    destruct (Z.eqb_spec q 0); simpl; [lia|]. intros Hq. by exists q. }
  destruct (Z.ltb_spec 0 (js_or entered 0)) as [Hpos|Hnonpos].
  2:{ split_and!; try done. intros it' Hit. by left. }
  destruct (Hentered Hpos) as (q & Hq & Hq0 & Hjs). rewrite Hjs.
  unfold Frontend.performStockUpdate.
  destruct (Frontend.currentUser authState) as [user|] eqn:Huser.
  2:{ split_and!; try done. intros it' Hit. by left. }
  pose proof (frontend_updateStock_nonneg db productId (email user)
                (Frontend.rs_currentStock s + q)) as Hnonneg.
  unfold Frontend.updateStock, updateDoc_stock in *.
  destruct (Frontend.rs_currentStock s + q <? 0) eqn:Eneg; cbn [fst snd] in *.
  { split_and!; try done. intros it' Hit. by left. }
  destruct (db !! productId) as [it|] eqn:Hit; cbn [fst snd] in *.
  { split_and!; try done.
    - intros k Hk. cbn [Frontend.success fst]. by rewrite lookup_insert_ne.
    - intros Hno. exfalso. by apply (Hno _ Hin).
    - intros Hle. specialize (Hle q Hq). lia.
    - intros it'. cbn [Frontend.success fst]. rewrite lookup_insert_eq. intros [= <-]. right.
      exists (Frontend.rs_product s), q. split_and!; try done.
      cbn [write_stock stock]. by rewrite Hcur. }
  split_and!; try done. cbn [Frontend.success fst]. intros it' Hit'. congruence.
Qed.

(** ** The answer of a stock request *)


(** ** The three copies of the classifier *)



(** ** The stock buttons *)

(** X22.  The stock buttons of the browser application: without a signed-in
    user they only show the permission message.  Whatever is typed, they
    keep every stock at 0 or above and touch no document but the item's.
    They report success only after writing, to a stored item, the stock
    shown plus (add) or minus (any other action) the quantity, which is 1
    when the text typed is no number or 0, and that stock is not negative;
    with any other outcome nothing is written. *)
Theorem quickUpdate_spec (authState : Frontend.AuthState) (db : gmap string Item)
    (itemId action : string) (currentStock : Z) (entered : option Z) :
  let out := Frontend.quickUpdate authState db itemId currentStock action entered in
  let quantity := match entered with
                  | Some q => if q =? 0 then 1 else q
                  | None => 1
                  end in
  let newStock := if String.eqb action "add" then currentStock + quantity
                  else currentStock - quantity in
  (Frontend.currentUser authState = None →
     out = (db, NotifyError Constants.PERMISSION_DENIED)) ∧
  (stock_nonneg db → stock_nonneg out.1) ∧
  (∀ k, k ≠ itemId → out.1 !! k = db !! k) ∧
  (out.2 = NotifySuccess →
     ∃ it user, db !! itemId = Some it ∧ Frontend.currentUser authState = Some user ∧
       0 <= newStock ∧
       out.1 = <[itemId := write_stock newStock (email user) it]> db) ∧
  (out.2 ≠ NotifySuccess → out.1 = db).
Proof.
  intros out quantity newStock.
  assert (Hq : js_or entered 1 = quantity).
  { subst quantity. unfold js_or, truthy, Z_truthy.
    destruct entered as [q|]; [|done]. by destruct (q =? 0). }
  split_and!.
  - intros Hnone. subst out. unfold Frontend.quickUpdate, Frontend.canModifyStock.
    rewrite Hnone. by rewrite bool_decide_eq_false_2 by (intros H; by apply H).
  - apply frontend_quickUpdate_nonneg.
  - intros k Hk. subst out. unfold Frontend.quickUpdate.
    destruct (negb _); [done|].
    assert (Hup : ∀ z who, (let '(db', result) := Frontend.updateStock db itemId z who in
                        if Frontend.success result then (db', NotifySuccess)
                        else (db', NotifyError (default EmptyString (Frontend.error result)))).1
                       !! k = db !! k).
    { intros z who. unfold Frontend.updateStock, updateDoc_stock.
      destruct (z <? 0); [done|]. destruct (db !! itemId); [|done].
      cbn. by rewrite lookup_insert_ne. }
    destruct (String.eqb action "add"); [apply Hup|].
    destruct (_ <? 0); [done|apply Hup].
  - subst out newStock. unfold Frontend.quickUpdate, Frontend.canModifyStock.
    rewrite Hq.
    destruct (Frontend.currentUser authState) as [user|] eqn:Hu.
    2:{ by rewrite bool_decide_eq_false_2 by (intros H; by apply H). }
    rewrite bool_decide_eq_true_2 by done. cbn [negb from_option].
    assert (Hup : ∀ z,
      (let '(db', result) := Frontend.updateStock db itemId z (email user) in
       if Frontend.success result then (db', NotifySuccess)
       else (db', NotifyError (default EmptyString (Frontend.error result)))).2
        = NotifySuccess →
      ∃ it, db !! itemId = Some it ∧ 0 <= z ∧
        (let '(db', result) := Frontend.updateStock db itemId z (email user) in
         if Frontend.success result then (db', NotifySuccess)
         else (db', NotifyError (default EmptyString (Frontend.error result)))).1
        = <[itemId := write_stock z (email user) it]> db).
    { intros z. unfold Frontend.updateStock, updateDoc_stock.
      destruct (Z.ltb_spec z 0); [done|]. destruct (db !! itemId) as [it|]; [|done].
      intros _. by exists it. }
    destruct (String.eqb action "add").
    + intros Hs. destruct (Hup _ Hs) as (it & ? & ? & ?). by exists it, user.
    + destruct (_ <? 0); [done|].
      intros Hs. destruct (Hup _ Hs) as (it & ? & ? & ?). by exists it, user.
  - subst out. unfold Frontend.quickUpdate.
    destruct (negb _); [done|].
    assert (Hup : ∀ z who,
      (let '(db', result) := Frontend.updateStock db itemId z who in
       if Frontend.success result then (db', NotifySuccess)
       else (db', NotifyError (default EmptyString (Frontend.error result)))).2
        ≠ NotifySuccess →
      (let '(db', result) := Frontend.updateStock db itemId z who in
       if Frontend.success result then (db', NotifySuccess)
       else (db', NotifyError (default EmptyString (Frontend.error result)))).1 = db).
    { intros z who. unfold Frontend.updateStock, updateDoc_stock.
      destruct (z <? 0); [done|]. by destruct (db !! itemId). }
    destruct (String.eqb action "add"); [apply Hup|].
    destruct (_ <? 0); [done|apply Hup].
Qed.
